(** * OBD-II engine monitor of the Tracker firmware (src/src/main.cpp)

    A shallow embedding of [loop()] and [myLocationGenerationCallback()]:
    the CAN reply decoder, the per-period statistics of engine RPM and
    vehicle speed, the debug log, the adaptive publish trigger and the
    read-and-reset of the statistics by the location callback.

    Conventions.  The target is a 32-bit ARM: [int] is 32 bits wide and is
    modelled as a [Z] reduced to the two's complement range after every
    operation; [unsigned long] is 32 bits wide and is reduced modulo 2^32.
    Integer division by zero has no result, so code that divides lives in
    [option]. *)

From Stdlib Require Import ZArith List Bool Lia String Strings.Byte.
Import ListNotations.
Open Scope Z_scope.

(** ** Machine integers *)

Module MachineInt.

Definition INT_MIN : Z := - 2 ^ 31.
Definition INT_MAX : Z := 2 ^ 31 - 1.
Definition ULONG_MOD : Z := 2 ^ 32.

(** Value of an [unsigned long] expression: reduction modulo 2^32. *)
Definition to_ulong (z : Z) : Z := z mod ULONG_MOD.

(** Value of an [int] expression: the representative in [INT_MIN, INT_MAX]. *)
Definition to_int (z : Z) : Z := (z + 2 ^ 31) mod ULONG_MOD - 2 ^ 31.

Definition int_add (a b : Z) : Z := to_int (a + b).
Definition ulong_sub (a b : Z) : Z := to_ulong (a - b).
Definition ulong_mul (a b : Z) : Z := to_ulong (a * b).

(** [a / b] on [int]: truncation towards zero, no result when [b] is 0. *)
Definition int_div (a b : Z) : option Z :=
  if b =? 0 then None else Some (to_int (Z.quot a b)).

Definition in_int (z : Z) : Prop := INT_MIN <= z <= INT_MAX.

End MachineInt.
Import MachineInt.

(** ** Constants (main.cpp, lines 42-62 and 77) *)

Definition OBD_CAN_REQUEST_ID : Z := 0x7DF.
Definition OBD_CAN_REPLY_ID : Z := 0x7E8.
Definition SERVICE_CURRENT_DATA : byte := x01.
Definition PID_ENGINE_RPM : byte := x0c.
Definition PID_VEHICLE_SPEED : byte := x0d.

Definition obdRequestRPM : list byte :=
  [x02; SERVICE_CURRENT_DATA; PID_ENGINE_RPM; xcc; xcc; xcc; xcc; xcc].
Definition obdRequestSPEED : list byte :=
  [x02; SERVICE_CURRENT_DATA; PID_VEHICLE_SPEED; x55; x55; x55; x55; x55].

Definition requestRpmPeriod : Z := 100.
Definition requestSpeedPeriod : Z := 100.
Definition engineLogPeriod : Z := 2000.

(** [CAN_OK] of the MCP_CAN_RK library, the status of a successful send;
    the library is not among the sources, and nothing below depends on the
    value. *)
Definition CAN_OK : Z := 0.

(** ** Program state *)

(** The seven statistics kept per monitored quantity (lines 66-72).  The
    source declares them twice, with the suffixes [RPM] and [SPEED]. *)
Record Stats : Type := mkStats {
  numSamples : Z;
  offSamples : Z;
  idleSamples : Z;
  nonIdleSamples : Z;
  nonIdleSum : Z;
  nonIdleMin : Z;
  nonIdleMax : Z
}.

Definition zeroStats : Stats := mkStats 0 0 0 0 0 0 0.

(** The global variables of main.cpp, and the two function-local
    [static bool errorFlag] of lines 238 and 290. *)
Record State : Type := mkState {
  requestRpmLastMillis : Z;
  requestSpeedLastMillis : Z;
  lastRPM : Z;
  lastSPEED : Z;
  statsRPM : Stats;
  statsSPEED : Stats;
  lastEngineLog : Z;
  lastFastPublish : Z;
  fastPublishPeriod : Z;
  idleRPM : Z;
  idleSPEED : Z;
  errorFlagRPM : bool;
  errorFlagSPEED : bool
}.

Definition init : State :=
  {| requestRpmLastMillis := 0; requestSpeedLastMillis := 0;
     lastRPM := 0; lastSPEED := 0;
     statsRPM := zeroStats; statsSPEED := zeroStats;
     lastEngineLog := 0; lastFastPublish := 0;
     fastPublishPeriod := 60000; idleRPM := 1600; idleSPEED := 10;
     errorFlagRPM := false; errorFlagSPEED := false |}.

(** The source's names of the statistics. *)
Definition numSamplesRPM (s : State) := numSamples (statsRPM s).
Definition offSamplesRPM (s : State) := offSamples (statsRPM s).
Definition idleSamplesRPM (s : State) := idleSamples (statsRPM s).
Definition nonIdleSamplesRPM (s : State) := nonIdleSamples (statsRPM s).
Definition nonIdleSumRPM (s : State) := nonIdleSum (statsRPM s).
Definition nonIdleMinRPM (s : State) := nonIdleMin (statsRPM s).
Definition nonIdleMaxRPM (s : State) := nonIdleMax (statsRPM s).
Definition numSamplesSPEED (s : State) := numSamples (statsSPEED s).
Definition offSamplesSPEED (s : State) := offSamples (statsSPEED s).
Definition idleSamplesSPEED (s : State) := idleSamples (statsSPEED s).
Definition nonIdleSamplesSPEED (s : State) := nonIdleSamples (statsSPEED s).
Definition nonIdleSumSPEED (s : State) := nonIdleSum (statsSPEED s).
Definition nonIdleMinSPEED (s : State) := nonIdleMin (statsSPEED s).
Definition nonIdleMaxSPEED (s : State) := nonIdleMax (statsSPEED s).

(** Assignments to single globals. *)
Definition set_lastRPM (v : Z) (s : State) : State :=
  mkState (requestRpmLastMillis s) (requestSpeedLastMillis s) v (lastSPEED s)
    (statsRPM s) (statsSPEED s) (lastEngineLog s) (lastFastPublish s)
    (fastPublishPeriod s) (idleRPM s) (idleSPEED s)
    (errorFlagRPM s) (errorFlagSPEED s).

Definition set_lastSPEED (v : Z) (s : State) : State :=
  mkState (requestRpmLastMillis s) (requestSpeedLastMillis s) (lastRPM s) v
    (statsRPM s) (statsSPEED s) (lastEngineLog s) (lastFastPublish s)
    (fastPublishPeriod s) (idleRPM s) (idleSPEED s)
    (errorFlagRPM s) (errorFlagSPEED s).

Definition set_requestRpmLastMillis (v : Z) (s : State) : State :=
  mkState v (requestSpeedLastMillis s) (lastRPM s) (lastSPEED s)
    (statsRPM s) (statsSPEED s) (lastEngineLog s) (lastFastPublish s)
    (fastPublishPeriod s) (idleRPM s) (idleSPEED s)
    (errorFlagRPM s) (errorFlagSPEED s).

Definition set_requestSpeedLastMillis (v : Z) (s : State) : State :=
  mkState (requestRpmLastMillis s) v (lastRPM s) (lastSPEED s)
    (statsRPM s) (statsSPEED s) (lastEngineLog s) (lastFastPublish s)
    (fastPublishPeriod s) (idleRPM s) (idleSPEED s)
    (errorFlagRPM s) (errorFlagSPEED s).

Definition set_statsRPM (v : Stats) (s : State) : State :=
  mkState (requestRpmLastMillis s) (requestSpeedLastMillis s) (lastRPM s)
    (lastSPEED s) v (statsSPEED s) (lastEngineLog s) (lastFastPublish s)
    (fastPublishPeriod s) (idleRPM s) (idleSPEED s)
    (errorFlagRPM s) (errorFlagSPEED s).

Definition set_statsSPEED (v : Stats) (s : State) : State :=
  mkState (requestRpmLastMillis s) (requestSpeedLastMillis s) (lastRPM s)
    (lastSPEED s) (statsRPM s) v (lastEngineLog s) (lastFastPublish s)
    (fastPublishPeriod s) (idleRPM s) (idleSPEED s)
    (errorFlagRPM s) (errorFlagSPEED s).

Definition set_lastEngineLog (v : Z) (s : State) : State :=
  mkState (requestRpmLastMillis s) (requestSpeedLastMillis s) (lastRPM s)
    (lastSPEED s) (statsRPM s) (statsSPEED s) v (lastFastPublish s)
    (fastPublishPeriod s) (idleRPM s) (idleSPEED s)
    (errorFlagRPM s) (errorFlagSPEED s).

Definition set_lastFastPublish (v : Z) (s : State) : State :=
  mkState (requestRpmLastMillis s) (requestSpeedLastMillis s) (lastRPM s)
    (lastSPEED s) (statsRPM s) (statsSPEED s) (lastEngineLog s) v
    (fastPublishPeriod s) (idleRPM s) (idleSPEED s)
    (errorFlagRPM s) (errorFlagSPEED s).

Definition set_fastPublishPeriod (v : Z) (s : State) : State :=
  mkState (requestRpmLastMillis s) (requestSpeedLastMillis s) (lastRPM s)
    (lastSPEED s) (statsRPM s) (statsSPEED s) (lastEngineLog s)
    (lastFastPublish s) v (idleRPM s) (idleSPEED s)
    (errorFlagRPM s) (errorFlagSPEED s).

Definition set_idleRPM (v : Z) (s : State) : State :=
  mkState (requestRpmLastMillis s) (requestSpeedLastMillis s) (lastRPM s)
    (lastSPEED s) (statsRPM s) (statsSPEED s) (lastEngineLog s)
    (lastFastPublish s) (fastPublishPeriod s) v (idleSPEED s)
    (errorFlagRPM s) (errorFlagSPEED s).

Definition set_idleSPEED (v : Z) (s : State) : State :=
  mkState (requestRpmLastMillis s) (requestSpeedLastMillis s) (lastRPM s)
    (lastSPEED s) (statsRPM s) (statsSPEED s) (lastEngineLog s)
    (lastFastPublish s) (fastPublishPeriod s) (idleRPM s) v
    (errorFlagRPM s) (errorFlagSPEED s).

Definition set_errorFlagRPM (v : bool) (s : State) : State :=
  mkState (requestRpmLastMillis s) (requestSpeedLastMillis s) (lastRPM s)
    (lastSPEED s) (statsRPM s) (statsSPEED s) (lastEngineLog s)
    (lastFastPublish s) (fastPublishPeriod s) (idleRPM s) (idleSPEED s)
    v (errorFlagSPEED s).

Definition set_errorFlagSPEED (v : bool) (s : State) : State :=
  mkState (requestRpmLastMillis s) (requestSpeedLastMillis s) (lastRPM s)
    (lastSPEED s) (statsRPM s) (statsSPEED s) (lastEngineLog s)
    (lastFastPublish s) (fastPublishPeriod s) (idleRPM s) (idleSPEED s)
    (errorFlagRPM s) v.

(** ** The outside world *)

(** What [canInterface.readMsgBufID(&rxId, &len, rxBuf)] delivers (line 183):
    the identifier, the data length and the eight cells of [rxBuf]. *)
Record CanFrame : Type := mkFrame {
  rxId : Z;
  len : Z;
  rxBuf : list byte
}.

(** An [unsigned char] promoted to [int]. *)
Definition u8 (b : byte) : Z := Z.of_N (Byte.to_N b).

(** [rxBuf[i]] as an [int]. *)
Definition byteAt (buf : list byte) (i : nat) : Z := u8 (nth i buf x00).

(** What one iteration of [loop()] reads from its environment.  The fields
    [millisN] are the uptime in milliseconds at the call of [millis()] on
    line N of main.cpp; [millis()] itself returns its low 32 bits. *)
Record LoopInput : Type := mkInput {
  keyIn : bool;               (* digitalRead(D9) == 1, line 162 *)
  canMsg : option CanFrame;   (* None when CAN_INT reads high, line 178 *)
  millis205 : Z;
  millis206 : Z;
  sndStatRPM : Z;             (* result of sendMsgBuf, line 242 *)
  millis256 : Z;
  millis257 : Z;
  sndStatSPEED : Z;           (* result of sendMsgBuf, line 294 *)
  millis308 : Z;
  millis309 : Z;
  connected : bool;           (* Particle.connected(), line 330 *)
  millis334 : Z;
  millis335 : Z
}.

Definition millis (uptime : Z) : Z := to_ulong uptime.

(** Effects on the collaborators, in program order. *)
Inductive Action : Type :=
| SendMsgBuf (id : Z) (data : list byte)
| LogError (sndStat : Z)
| LogEngine (what : string) (off idle nonIdle min mean max : Z)
| LogPublish (rpm idle period : Z)
| TriggerLocPub
| WriterValue (name : string) (value : Z).

(** What one step did: which branches of lines 188, 195, 205 and 256 were
    taken, whether the statistics were reset (lines 362-368), and the
    effects it had. *)
Record Out : Type := mkOut {
  o_rpmReply : bool;
  o_speedReply : bool;
  o_rpmDue : bool;
  o_speedDue : bool;
  o_reset : bool;
  o_actions : list Action
}.

(** ** Response decoder (lines 185-200) *)

Definition isRpmReply (f : CanFrame) : bool :=
  (rxId f =? OBD_CAN_REPLY_ID) && (byteAt (rxBuf f) 0 =? 0x04)
  && (byteAt (rxBuf f) 1 =? 0x41) && (byteAt (rxBuf f) 2 =? u8 PID_ENGINE_RPM).

Definition isSpeedReply (f : CanFrame) : bool :=
  (rxId f =? OBD_CAN_REPLY_ID) && (byteAt (rxBuf f) 0 =? 0x03)
  && (byteAt (rxBuf f) 1 =? 0x41)
  && (byteAt (rxBuf f) 2 =? u8 PID_VEHICLE_SPEED).

Definition handleCan (f : CanFrame) (s : State) : State * bool * bool :=
  if Z.land (rxId f) 0x80000000 =? 0 then
    if isRpmReply f then
      let s := set_lastRPM
                 (Z.lor (Z.shiftl (byteAt (rxBuf f) 3) 8) (byteAt (rxBuf f) 4))
                 s in
      let s := set_lastRPM (to_int (Z.quot (lastRPM s) 4)) s in
      (s, true, false)
    else if isSpeedReply f then
      (set_lastSPEED (byteAt (rxBuf f) 3) s, false, true)
    else (s, false, false)
  else (s, false, false).

(** ** Statistics of one request period (lines 210-230 and 261-282) *)

Definition aggregate (idle last : Z) (st : Stats) : Stats :=
  let n := int_add (numSamples st) 1 in
  if last =? 0 then
    mkStats n (int_add (offSamples st) 1) (idleSamples st)
      (nonIdleSamples st) (nonIdleSum st) (nonIdleMin st) (nonIdleMax st)
  else if last <? idle then
    mkStats n (offSamples st) (int_add (idleSamples st) 1)
      (nonIdleSamples st) (nonIdleSum st) (nonIdleMin st) (nonIdleMax st)
  else
    mkStats n (offSamples st) (idleSamples st)
      (int_add (nonIdleSamples st) 1)
      (int_add (nonIdleSum st) last)
      (if (last <? nonIdleMin st) || (nonIdleMin st =? 0)
       then last else nonIdleMin st)
      (if last >? nonIdleMax st then last else nonIdleMax st).

(** ** Request cadence (lines 205-253 and 256-305) *)

Definition requestRpm (i : LoopInput) (s : State)
  : State * bool * list Action :=
  if requestRpmPeriod
       <=? ulong_sub (millis (millis205 i)) (requestRpmLastMillis s) then
    let s := set_requestRpmLastMillis (millis (millis206 i)) s in
    let s := set_statsRPM (aggregate (idleRPM s) (lastRPM s) (statsRPM s)) s in
    let s := set_lastRPM 0 s in
    if keyIn i then
      let send := SendMsgBuf OBD_CAN_REQUEST_ID obdRequestRPM in
      if sndStatRPM i =? CAN_OK then
        (set_errorFlagRPM false s, true, [send])
      else if negb (errorFlagRPM s) then
        (set_errorFlagRPM true s, true, [send; LogError (sndStatRPM i)])
      else (s, true, [send])
    else (s, true, [])
  else (s, false, []).

Definition requestSpeed (i : LoopInput) (s : State)
  : State * bool * list Action :=
  if requestSpeedPeriod
       <=? ulong_sub (millis (millis256 i)) (requestSpeedLastMillis s) then
    let s := set_requestSpeedLastMillis (millis (millis257 i)) s in
    let s := set_statsSPEED
               (aggregate (idleSPEED s) (lastSPEED s) (statsSPEED s)) s in
    let s := set_lastSPEED 0 s in
    if keyIn i then
      let send := SendMsgBuf OBD_CAN_REQUEST_ID obdRequestSPEED in
      if sndStatSPEED i =? CAN_OK then
        (set_errorFlagSPEED false s, true, [send])
      else if negb (errorFlagSPEED s) then
        (set_errorFlagSPEED true s, true, [send; LogError (sndStatSPEED i)])
      else (s, true, [send])
    else (s, true, [])
  else (s, false, []).

(** ** Summaries (lines 311-326 and 346-359) *)

(** [nonIdleSamples ? (nonIdleSum / nonIdleSamples) : 0] *)
Definition nonIdleMean (st : Stats) : option Z :=
  if negb (nonIdleSamples st =? 0)
  then int_div (nonIdleSum st) (nonIdleSamples st)
  else Some 0.

(** [(int)(samples * period / 1000)] with [period] an [unsigned long]. *)
Definition seconds (samples period : Z) : Z :=
  to_int (ulong_mul (to_ulong samples) period / 1000).

Definition bind {A B : Type} (m : option A) (k : A -> option B) : option B :=
  match m with
  | Some a => k a
  | None => None
  end.

Notation "x <- m ;; k" := (bind m (fun x => k))
  (at level 61, m at next level, right associativity).

Definition engineLog (i : LoopInput) (s : State)
  : option (State * list Action) :=
  if negb (engineLogPeriod =? 0)
     && (engineLogPeriod
           <=? ulong_sub (millis (millis308 i)) (lastEngineLog s)) then
    let s := set_lastEngineLog (millis (millis309 i)) s in
    nonIdleRpmMean <- nonIdleMean (statsRPM s) ;;
    nonIdleSpeedMean <- nonIdleMean (statsSPEED s) ;;
    Some (s,
      [ LogEngine "RPM"
          (seconds (offSamplesRPM s) requestRpmPeriod)
          (seconds (idleSamplesRPM s) requestRpmPeriod)
          (seconds (nonIdleSamplesRPM s) requestRpmPeriod)
          (nonIdleMinRPM s) nonIdleRpmMean (nonIdleMaxRPM s);
        LogEngine "SPEED"
          (seconds (offSamplesSPEED s) requestSpeedPeriod)
          (seconds (idleSamplesSPEED s) requestSpeedPeriod)
          (seconds (nonIdleSamplesSPEED s) requestSpeedPeriod)
          (nonIdleMinSPEED s) nonIdleSpeedMean (nonIdleMaxSPEED s) ])
  else Some (s, []).

(** ** Adaptive publish trigger (lines 330-340) *)

Definition fastPublish (i : LoopInput) (s : State) : State * list Action :=
  if connected i && (idleRPM s <=? lastRPM s) then
    if (0 <? fastPublishPeriod s)
       && (to_ulong (fastPublishPeriod s)
             <=? ulong_sub (millis (millis334 i)) (lastFastPublish s)) then
      (set_lastFastPublish (millis (millis335 i)) s,
       [LogPublish (lastRPM s) (idleRPM s) (fastPublishPeriod s);
        TriggerLocPub])
    else (s, [])
  else (s, []).

(** ** One iteration of [loop()] (lines 156-342)

    The call of [Tracker::instance().loop()] on line 159 is where the
    tracker runs the location callback and applies configuration changes;
    these are the other two events of [step] below.  The sleep control of
    lines 165-175 touches none of the variables of this file. *)

Definition loop (i : LoopInput) (s : State) : option (State * Out) :=
  let '(s, rpmReply, speedReply) :=
    match canMsg i with
    | Some f => handleCan f s
    | None => (s, false, false)
    end in
  let '(s, rpmDue, a1) := requestRpm i s in
  let '(s, speedDue, a2) := requestSpeed i s in
  r <- engineLog i s ;;
  let '(s, a3) := r in
  let '(s, a4) := fastPublish i s in
  Some (s, mkOut rpmReply speedReply rpmDue speedDue false
             (a1 ++ a2 ++ a3 ++ a4)).

(** ** Location callback (lines 344-369) *)

Definition myLocationGenerationCallback (s : State)
  : option (State * list Action) :=
  nonIdleRpmMean <- nonIdleMean (statsRPM s) ;;
  nonIdleSpeedMean <- nonIdleMean (statsSPEED s) ;;
  let written :=
    [ WriterValue "engineOff" (seconds (offSamplesRPM s) requestRpmPeriod);
      WriterValue "engineIdle" (seconds (idleSamplesRPM s) requestRpmPeriod);
      WriterValue "engineNonIdle"
        (seconds (nonIdleSamplesRPM s) requestRpmPeriod);
      WriterValue "engineRpmMin" (nonIdleMinRPM s);
      WriterValue "engineRpmMean" nonIdleRpmMean;
      WriterValue "engineRpmMax" (nonIdleMaxRPM s);
      WriterValue "engineSpeedMin" (nonIdleMinSPEED s);
      WriterValue "engineSpeedMean" nonIdleSpeedMean;
      WriterValue "engineSpeedMax" (nonIdleMaxSPEED s) ] in
  let s := set_statsRPM zeroStats s in
  let s := set_statsSPEED zeroStats s in
  Some (s, written).

(** ** Settings (lines 106-110) *)

Inductive Setting : Type := CfgIdleRPM | CfgIdleSPEED | CfgFastpub.

(** Modelled from the spec: the settings collaborator, which is not among
    the sources.  It exposes the three integers registered on lines 107-109
    and stores a value into one of them when the value lies within the
    bounds given there. *)
Definition configure (c : Setting) (v : Z) (s : State) : State :=
  match c with
  | CfgIdleRPM =>
      if (0 <=? v) && (v <=? 10000) then set_idleRPM v s else s
  | CfgIdleSPEED =>
      if (0 <=? v) && (v <=? 300) then set_idleSPEED v s else s
  | CfgFastpub =>
      if (0 <=? v) && (v <=? 3600000) then set_fastPublishPeriod v s else s
  end.

(** ** Executions *)

Inductive Event : Type :=
| EvLoop (i : LoopInput)
| EvLocation
| EvConfig (c : Setting) (v : Z).

Definition step (e : Event) (s : State) : option (State * Out) :=
  match e with
  | EvLoop i => loop i s
  | EvLocation =>
      r <- myLocationGenerationCallback s ;;
      Some (fst r, mkOut false false false false true (snd r))
  | EvConfig c v =>
      Some (configure c v s, mkOut false false false false false [])
  end.

Fixpoint run (evs : list Event) (s : State) : option (State * list Out) :=
  match evs with
  | [] => Some (s, [])
  | e :: evs' =>
      r <- step e s ;;
      r' <- run evs' (fst r) ;;
      Some (fst r', snd r :: snd r')
  end.

(** ** Notions used in the statements *)

(** The statistics after a stream of samples, one per request period. *)
Definition aggregateAll (idle : Z) (samples : list Z) (st : Stats) : Stats :=
  fold_left (fun st last => aggregate idle last st) samples st.

(** [counted k st]: since the last reset at most [k] periods were recorded,
    [a] of them off, [b] idle and [c] above idle, and [st] holds these
    numbers as [int]s.  The minimum and maximum are 0 as long as no period
    above idle was recorded. *)
Definition counted (k : Z) (st : Stats) : Prop :=
  exists a b c,
    0 <= a /\ 0 <= b /\ 0 <= c /\ a + b + c <= k /\
    offSamples st = to_int a /\
    idleSamples st = to_int b /\
    nonIdleSamples st = to_int c /\
    numSamples st = to_int (a + b + c) /\
    (c = 0 -> nonIdleMin st = 0 /\ nonIdleMax st = 0).

(** Number of steps in which a branch was taken since the statistics were
    last reset, [k] being that number before the first of the steps. *)
Definition periodsFrom (branch : Out -> bool) (k : Z) (outs : list Out) : Z :=
  fold_left (fun k o => if o_reset o then 0 else k + Z.b2z (branch o)) outs k.

Definition periods (branch : Out -> bool) (outs : list Out) : Z :=
  periodsFrom branch 0 outs.

(** The condition of lines 330 and 334, on the state the check sees. *)
Definition triggerDue (i : LoopInput) (s : State) : Prop :=
  connected i = true /\ idleRPM s <= lastRPM s /\ 0 < fastPublishPeriod s /\
  to_ulong (fastPublishPeriod s)
    <= ulong_sub (millis (millis334 i)) (lastFastPublish s).

(** The adaptive publish trigger fired in this step. *)
Definition fired (o : Out) : Prop := In TriggerLocPub (o_actions o).

(** The uptimes read by an event, in program order, and the clock of an
    execution: time does not run backwards. *)
Definition times (e : Event) : list Z :=
  match e with
  | EvLoop i =>
      [millis205 i; millis206 i; millis256 i; millis257 i;
       millis308 i; millis309 i; millis334 i; millis335 i]
  | _ => []
  end.

Definition clock (evs : list Event) : list Z := flat_map times evs.

Fixpoint ascending (from : Z) (ts : list Z) : Prop :=
  match ts with
  | [] => True
  | t :: ts' => from <= t /\ ascending t ts'
  end.

(** The settings are within the bounds of their registration. *)
Definition cfgOK (s : State) : Prop :=
  0 <= idleRPM s <= 10000 /\ 0 <= idleSPEED s <= 300 /\
  0 <= fastPublishPeriod s <= 3600000.

(** Events other than a change of the fast publish period. *)
Definition keepsFastpub (e : Event) : bool :=
  match e with
  | EvConfig CfgFastpub _ => false
  | _ => true
  end.

(** ** Sample inputs *)

(** An iteration that runs within the millisecond [t] of uptime, with every
    send succeeding. *)
Definition at_ms (t : Z) (key conn : bool) (f : option CanFrame) : LoopInput :=
  mkInput key f t t CAN_OK t t CAN_OK t t conn t t.

(** Replies of the engine control unit. *)
Definition rpmFrame (hi lo : byte) : CanFrame :=
  mkFrame OBD_CAN_REPLY_ID 8 [x04; x41; x0c; hi; lo; x00; x00; x00].

Definition speedFrame (v : byte) : CanFrame :=
  mkFrame OBD_CAN_REPLY_ID 8 [x03; x41; x0d; v; x00; x00; x00; x00].

(** Five request periods with the replies 800, 1600, 2000 and 2400 RPM
    arriving between them; no reply arrives in the first period. *)
Definition demoDrive : list Event :=
  [ EvLoop (at_ms 100 true false None);
    EvLoop (at_ms 150 true false (Some (rpmFrame x0c x80)));
    EvLoop (at_ms 200 true false None);
    EvLoop (at_ms 250 true false (Some (rpmFrame x19 x00)));
    EvLoop (at_ms 300 true false None);
    EvLoop (at_ms 350 true false (Some (rpmFrame x1f x40)));
    EvLoop (at_ms 400 true false None);
    EvLoop (at_ms 450 true false (Some (rpmFrame x25 x80)));
    EvLoop (at_ms 500 true false None) ].

(** With the fast publish period set to one second: a request period, a
    reply of 2400 RPM while connected, and another request period. *)
Definition demoPublish : list Event :=
  [ EvConfig CfgFastpub 1000;
    EvLoop (at_ms 1000 true true None);
    EvLoop (at_ms 1050 true true (Some (rpmFrame x25 x80)));
    EvLoop (at_ms 2000 true true None) ].

(** ** Notions used for the request cadence, the logs and the summaries *)

Definition isSend (a : Action) : bool :=
  match a with SendMsgBuf _ _ => true | _ => false end.

Definition isLogError (a : Action) : bool :=
  match a with LogError _ => true | _ => false end.

Definition isLogEngine (a : Action) : bool :=
  match a with LogEngine _ _ _ _ _ _ _ => true | _ => false end.

(** The step wrote the engine summary to the debug log (lines 314-326). *)
Definition logged (o : Out) : bool := existsb isLogEngine (o_actions o).

(** Number of steps of an execution in which a branch was taken. *)
Definition countSteps (branch : Out -> bool) (outs : list Out) : Z :=
  Z.of_nat (List.length (filter branch outs)).

(** Number of error lines of lines 248 and 300 that an execution logged. *)
Definition errorLines (o : Out) : Z :=
  Z.of_nat (List.length (filter isLogError (o_actions o))).

Definition errorsLogged (outs : list Out) : Z :=
  fold_right (fun o n => errorLines o + n) 0 outs.

(** Number of sends of lines 242 and 294 that returned [CAN_OK]. *)
Definition sendsOk (e : Event) (o : Out) : Z :=
  match e with
  | EvLoop i =>
      Z.b2z (o_rpmDue o && keyIn i && (sndStatRPM i =? CAN_OK))
      + Z.b2z (o_speedDue o && keyIn i && (sndStatSPEED i =? CAN_OK))
  | _ => 0
  end.

Fixpoint sendsAccepted (evs : list Event) (outs : list Out) : Z :=
  match evs, outs with
  | e :: evs', o :: outs' => sendsOk e o + sendsAccepted evs' outs'
  | _, _ => 0
  end.

(** Number of error flags that are set. *)
Definition flagsSet (s : State) : Z :=
  Z.b2z (errorFlagRPM s) + Z.b2z (errorFlagSPEED s).

(** Iterations with the key in while the bus rejects every send (status 7),
    as when the vehicle is off: three request periods. *)
Definition failing (t : Z) : LoopInput :=
  mkInput true None t t 7 t t 7 t t false t t.

Definition demoVehicleOff : list Event :=
  [EvLoop (failing 100); EvLoop (failing 200); EvLoop (failing 300)].

(** [summed B k st]: since the last reset [c] samples above idle, [c] at
    most [k], were recorded with sum [S]; [st] holds both as [int]s, and
    its minimum and maximum, at most [B], bound the samples, hence [S]. *)
Definition summed (B k : Z) (st : Stats) : Prop :=
  exists c S,
    0 <= c <= k /\
    nonIdleSamples st = to_int c /\
    nonIdleSum st = to_int S /\
    c * nonIdleMin st <= S <= c * nonIdleMax st /\
    0 <= nonIdleMin st <= nonIdleMax st /\ nonIdleMax st <= B /\
    (c = 0 -> nonIdleMax st = 0) /\
    (0 < c -> 0 < nonIdleMin st).

(** Executions without a reply of a shape, or without the end of a request
    period of a quantity. *)
Definition noRpmReply (outs : list Out) : bool :=
  forallb (fun o => negb (o_rpmReply o)) outs.

Definition noSpeedReply (outs : list Out) : bool :=
  forallb (fun o => negb (o_speedReply o)) outs.

Definition noRpmPeriodEnd (outs : list Out) : bool :=
  forallb (fun o => negb (o_rpmDue o)) outs.

Definition noSpeedPeriodEnd (outs : list Out) : bool :=
  forallb (fun o => negb (o_speedDue o)) outs.

(** A long drive at 2000 RPM: in the [k]-th request period a reply of 2000
    RPM arrives at uptime 100 k + 50 ms, and the period ends at uptime
    100 k + 100 ms. *)
Fixpoint driveFrom (k n : nat) : list Event :=
  match n with
  | O => []
  | S m =>
      EvLoop (at_ms (100 * Z.of_nat k + 50) true false
                (Some (rpmFrame x1f x40)))
      :: EvLoop (at_ms (100 * Z.of_nat k + 100) true false None)
      :: driveFrom (S k) m
  end.

(** * Properties *)

(** ** Machine arithmetic *)

Lemma to_int_range z : in_int (to_int z).
Proof.
  unfold in_int, to_int, INT_MIN, INT_MAX, ULONG_MOD.
  pose proof (Z.mod_pos_bound (z + 2 ^ 31) (2 ^ 32) ltac:(lia)). lia.
Qed.

Lemma to_int_id z : in_int z -> to_int z = z.
Proof.
  unfold in_int, to_int, INT_MIN, INT_MAX, ULONG_MOD. intros H.
  rewrite Z.mod_small; lia.
Qed.

Lemma to_int_add_l a b : to_int (to_int a + b) = to_int (a + b).
Proof.
  unfold to_int, ULONG_MOD. f_equal.
  replace ((a + 2 ^ 31) mod 2 ^ 32 - 2 ^ 31 + b + 2 ^ 31)
    with ((a + 2 ^ 31) mod 2 ^ 32 + b) by lia.
  rewrite Zplus_mod_idemp_l. f_equal. lia.
Qed.

Lemma to_int_add_r a b : to_int (a + to_int b) = to_int (a + b).
Proof. rewrite Z.add_comm, to_int_add_l. f_equal. lia. Qed.

(** Below 2^32, only 0 is represented by the [int] 0. *)
Lemma to_int_zero c : 0 <= c < 2 ^ 32 -> to_int c = 0 -> c = 0.
Proof.
  unfold to_int, ULONG_MOD. intros Hc H.
  destruct (Z_lt_ge_dec c (2 ^ 31)) as [Hlt | Hge].
  - rewrite Z.mod_small in H; lia.
  - replace (c + 2 ^ 31) with (c - 2 ^ 31 + 1 * 2 ^ 32) in H by lia.
    rewrite Z_mod_plus_full, Z.mod_small in H; lia.
Qed.

Lemma to_ulong_id z : 0 <= z < 2 ^ 32 -> to_ulong z = z.
Proof. unfold to_ulong, ULONG_MOD. intros. now apply Z.mod_small. Qed.

(** The unsigned difference of two clock readings never exceeds the time
    that passed between them. *)
Lemma ulong_sub_elapsed earlier later :
  earlier <= later ->
  ulong_sub (to_ulong later) (to_ulong earlier) <= later - earlier.
Proof.
  unfold ulong_sub, to_ulong, ULONG_MOD. intros H.
  rewrite <- Zminus_mod.
  apply Z.mod_le; lia.
Qed.

Lemma u8_range b : 0 <= u8 b < 256.
Proof.
  unfold u8. pose proof (Byte.to_N_bounded b) as H.
  split; [apply N2Z.is_nonneg | lia].
Qed.

(** ** Statistics aggregator *)

Section Aggregator.

Variables idle last : Z.
Variable st : Stats.

Lemma aggregate_off : last = 0 ->
  aggregate idle last st =
    mkStats (int_add (numSamples st) 1) (int_add (offSamples st) 1)
      (idleSamples st) (nonIdleSamples st) (nonIdleSum st)
      (nonIdleMin st) (nonIdleMax st).
Proof. intros ->. reflexivity. Qed.

Lemma aggregate_idle : last <> 0 -> last < idle ->
  aggregate idle last st =
    mkStats (int_add (numSamples st) 1) (offSamples st)
      (int_add (idleSamples st) 1) (nonIdleSamples st) (nonIdleSum st)
      (nonIdleMin st) (nonIdleMax st).
Proof.
  intros H0 Hlt. unfold aggregate.
  destruct (Z.eqb_spec last 0); [contradiction|].
  destruct (Z.ltb_spec last idle); [reflexivity | lia].
Qed.

Lemma aggregate_nonIdle : last <> 0 -> idle <= last ->
  let st' := aggregate idle last st in
  numSamples st' = int_add (numSamples st) 1 /\
  offSamples st' = offSamples st /\
  idleSamples st' = idleSamples st /\
  nonIdleSamples st' = int_add (nonIdleSamples st) 1 /\
  nonIdleSum st' = int_add (nonIdleSum st) last /\
  (nonIdleMin st = 0 \/ last < nonIdleMin st -> nonIdleMin st' = last) /\
  (nonIdleMin st <> 0 -> nonIdleMin st <= last ->
   nonIdleMin st' = nonIdleMin st) /\
  (nonIdleMax st < last -> nonIdleMax st' = last) /\
  (last <= nonIdleMax st -> nonIdleMax st' = nonIdleMax st).
Proof.
  intros H0 Hge. unfold aggregate.
  destruct (Z.eqb_spec last 0); [contradiction|].
  destruct (Z.ltb_spec last idle); [lia|]. cbn.
  repeat split; try reflexivity.
  - intros [Hz | Hlt].
    + rewrite Hz, Z.eqb_refl, orb_true_r. reflexivity.
    + apply Z.ltb_lt in Hlt. rewrite Hlt. reflexivity.
  - intros Hnz Hle.
    destruct (Z.ltb_spec last (nonIdleMin st)); [lia|].
    destruct (Z.eqb_spec (nonIdleMin st) 0); [contradiction | reflexivity].
  - intros Hlt. rewrite (proj2 (Z.gtb_gt _ _)); [reflexivity | lia].
  - intros Hle. destruct (Z.gtb_spec last (nonIdleMax st)); [lia|].
    reflexivity.
Qed.

(** One more period is accounted for, in exactly one of the counts. *)
Lemma aggregate_counted k : counted k st ->
  counted (k + 1) (aggregate idle last st).
Proof.
  intros (a & b & c & Ha & Hb & Hc & Hk & Eo & Ei & En & Et & Hm).
  unfold aggregate, int_add.
  destruct (last =? 0); [| destruct (last <? idle)].
  - exists (a + 1), b, c. cbn. rewrite Eo, Et, !to_int_add_l.
    repeat split; try assumption; try lia; try apply Hm; try assumption.
    f_equal; lia.
  - exists a, (b + 1), c. cbn. rewrite Ei, Et, !to_int_add_l.
    repeat split; try assumption; try lia; try apply Hm; try assumption.
    f_equal; lia.
  - exists a, b, (c + 1). cbn. rewrite En, Et, !to_int_add_l.
    repeat split; try assumption; try lia.
    f_equal; lia.
Qed.

End Aggregator.

Lemma counted_zero k : 0 <= k -> counted k zeroStats.
Proof.
  intros Hk. exists 0, 0, 0. cbn. repeat split; try lia; reflexivity.
Qed.

Lemma counted_nonneg k st : counted k st -> 0 <= k.
Proof. intros (a & b & c & H). lia. Qed.

(** What [counted] gives for the C expression
    [offSamples + idleSamples + nonIdleSamples == numSamples]. *)
Lemma counted_sum k st : counted k st ->
  int_add (int_add (offSamples st) (idleSamples st)) (nonIdleSamples st)
    = numSamples st.
Proof.
  intros (a & b & c & _ & _ & _ & _ & -> & -> & -> & -> & _).
  unfold int_add. rewrite to_int_add_l, to_int_add_r.
  rewrite <- Z.add_assoc, to_int_add_l.
  rewrite (Z.add_comm (to_int b) c), Z.add_assoc, to_int_add_r.
  f_equal. lia.
Qed.

(** Without overflow the same holds for the numbers themselves. *)
Lemma counted_exact k st : counted k st -> k < 2 ^ 31 ->
  0 <= offSamples st /\ 0 <= idleSamples st /\ 0 <= nonIdleSamples st /\
  offSamples st + idleSamples st + nonIdleSamples st = numSamples st.
Proof.
  intros (a & b & c & Ha & Hb & Hc & Hk & -> & -> & -> & -> & _) Hlt.
  rewrite !to_int_id by (unfold in_int, INT_MIN, INT_MAX; lia). lia.
Qed.

Lemma counted_sentinel k st : counted k st -> k < 2 ^ 32 ->
  nonIdleSamples st = 0 -> nonIdleMin st = 0 /\ nonIdleMax st = 0.
Proof.
  intros (a & b & c & Ha & Hb & Hc & Hk & _ & _ & En & _ & Hm) Hlt Hz.
  apply Hm. apply to_int_zero; [lia | congruence].
Qed.

(** ** Mean of the samples above idle *)

Lemma quot_in_int a b : in_int a -> b <> 0 -> b <> -1 -> in_int (Z.quot a b).
Proof.
  unfold in_int, INT_MIN, INT_MAX. intros Ha Hb0 Hb1.
  destruct (Z.eq_dec b 1) as [-> | Hb2]; [rewrite Z.quot_1_r; lia|].
  assert (Hq : Z.abs (Z.quot a b) <= 2 ^ 30).
  { rewrite <- Z.quot_abs by assumption.
    rewrite Z.quot_div_nonneg by lia.
    apply Z.div_le_upper_bound; lia. }
  lia.
Qed.

Lemma nonIdleMean_zero st : nonIdleSamples st = 0 -> nonIdleMean st = Some 0.
Proof. unfold nonIdleMean. intros ->. reflexivity. Qed.

Lemma nonIdleMean_nonzero st : nonIdleSamples st <> 0 ->
  nonIdleMean st =
    Some (to_int (Z.quot (nonIdleSum st) (nonIdleSamples st))).
Proof.
  intros H. unfold nonIdleMean, int_div.
  destruct (Z.eqb_spec (nonIdleSamples st) 0); [contradiction | reflexivity].
Qed.

Lemma nonIdleMean_total st : exists m, nonIdleMean st = Some m.
Proof.
  destruct (Z.eq_dec (nonIdleSamples st) 0) as [H | H].
  - eexists. now apply nonIdleMean_zero.
  - eexists. now apply nonIdleMean_nonzero.
Qed.

Lemma engineLog_spec i s :
  exists s' acts, engineLog i s = Some (s', acts) /\
    statsRPM s' = statsRPM s /\ statsSPEED s' = statsSPEED s /\
    lastRPM s' = lastRPM s /\ lastSPEED s' = lastSPEED s /\
    lastFastPublish s' = lastFastPublish s /\
    fastPublishPeriod s' = fastPublishPeriod s /\
    idleRPM s' = idleRPM s /\ idleSPEED s' = idleSPEED s /\
    (acts = [] \/
     exists mr ms,
       nonIdleMean (statsRPM s) = Some mr /\
       nonIdleMean (statsSPEED s) = Some ms /\
       acts =
         [ LogEngine "RPM"
             (seconds (offSamplesRPM s) requestRpmPeriod)
             (seconds (idleSamplesRPM s) requestRpmPeriod)
             (seconds (nonIdleSamplesRPM s) requestRpmPeriod)
             (nonIdleMinRPM s) mr (nonIdleMaxRPM s);
           LogEngine "SPEED"
             (seconds (offSamplesSPEED s) requestSpeedPeriod)
             (seconds (idleSamplesSPEED s) requestSpeedPeriod)
             (seconds (nonIdleSamplesSPEED s) requestSpeedPeriod)
             (nonIdleMinSPEED s) ms (nonIdleMaxSPEED s) ]).
Proof.
  unfold engineLog.
  destruct (negb (engineLogPeriod =? 0) && _).
  - destruct (nonIdleMean_total (statsRPM s)) as [mr Hr].
    destruct (nonIdleMean_total (statsSPEED s)) as [ms Hs].
    cbn [statsRPM statsSPEED set_lastEngineLog]. rewrite Hr, Hs. cbn [bind].
    do 2 eexists. split; [reflexivity|].
    repeat (split; [reflexivity|]). right. exists mr, ms. auto.
  - do 2 eexists. split; [reflexivity|].
    repeat (split; [reflexivity|]). now left.
Qed.

Lemma callback_spec s :
  exists mr ms,
    nonIdleMean (statsRPM s) = Some mr /\
    nonIdleMean (statsSPEED s) = Some ms /\
    myLocationGenerationCallback s =
      Some (set_statsSPEED zeroStats (set_statsRPM zeroStats s),
        [ WriterValue "engineOff" (seconds (offSamplesRPM s) 100);
          WriterValue "engineIdle" (seconds (idleSamplesRPM s) 100);
          WriterValue "engineNonIdle" (seconds (nonIdleSamplesRPM s) 100);
          WriterValue "engineRpmMin" (nonIdleMinRPM s);
          WriterValue "engineRpmMean" mr;
          WriterValue "engineRpmMax" (nonIdleMaxRPM s);
          WriterValue "engineSpeedMin" (nonIdleMinSPEED s);
          WriterValue "engineSpeedMean" ms;
          WriterValue "engineSpeedMax" (nonIdleMaxSPEED s) ]).
Proof.
  destruct (nonIdleMean_total (statsRPM s)) as [mr Hr].
  destruct (nonIdleMean_total (statsSPEED s)) as [ms Hs].
  exists mr, ms. unfold myLocationGenerationCallback.
  rewrite Hr, Hs. auto.
Qed.

(** C8.  The mean is 0 when no sample above idle was recorded, and the
    quotient [nonIdleSum / nonIdleSamples] of C otherwise (the exact
    quotient, truncated towards zero, whenever it is representable); it is
    always defined, so neither the debug log nor the location callback
    ever divides by zero, and both report this mean. *)
Theorem mean_guarded : forall (st : Stats) (i : LoopInput) (s : State),
  (nonIdleSamples st = 0 ->
     int_div (nonIdleSum st) (nonIdleSamples st) = None /\
     nonIdleMean st = Some 0) /\
  (nonIdleSamples st <> 0 ->
     nonIdleMean st = int_div (nonIdleSum st) (nonIdleSamples st) /\
     nonIdleMean st =
       Some (to_int (Z.quot (nonIdleSum st) (nonIdleSamples st))) /\
     (in_int (nonIdleSum st) -> nonIdleSamples st <> -1 ->
      nonIdleMean st = Some (Z.quot (nonIdleSum st) (nonIdleSamples st)))) /\
  (exists s' acts, engineLog i s = Some (s', acts) /\
     forall what off idle nonIdle mn mean mx,
       In (LogEngine what off idle nonIdle mn mean mx) acts ->
       (what = "RPM"%string /\ nonIdleMean (statsRPM s) = Some mean) \/
       (what = "SPEED"%string /\ nonIdleMean (statsSPEED s) = Some mean)) /\
  (exists s' acts mr ms, myLocationGenerationCallback s = Some (s', acts) /\
     nonIdleMean (statsRPM s) = Some mr /\
     nonIdleMean (statsSPEED s) = Some ms /\
     In (WriterValue "engineRpmMean" mr) acts /\
     In (WriterValue "engineSpeedMean" ms) acts).
Proof.
  intros st i s. split; [|split; [|split]].
  - intros Hz. split; [|now apply nonIdleMean_zero].
    unfold int_div. now rewrite Hz.
  - intros Hn. pose proof (nonIdleMean_nonzero st Hn) as E.
    split; [|split; [exact E|]].
    + rewrite E. unfold int_div.
      destruct (Z.eqb_spec (nonIdleSamples st) 0); [contradiction|].
      reflexivity.
    + intros Hs H1. rewrite E, to_int_id; [reflexivity|].
      now apply quot_in_int.
  - destruct (engineLog_spec i s) as (s' & acts & E & _ & _ & _ & _ & _ & _ & _ & _ & H).
    exists s', acts. split; [exact E|].
    intros what off idle nonIdle mn mean mx Hin.
    destruct H as [-> | (mr & ms & Hr & Hs & ->)]; [contradiction|].
    destruct Hin as [Hin | [Hin | []]]; inversion Hin; subst; auto.
  - destruct (callback_spec s) as (mr & ms & Hr & Hs & E).
    eexists _, _, mr, ms. split; [exact E|].
    repeat split; try assumption; cbn; tauto.
Qed.

Lemma mean_guarded_witness :
  nonIdleMean zeroStats = Some 0 /\
  nonIdleMean (mkStats 3 0 0 3 6000 1600 2400) = Some 2000.
Proof.
  destruct (mean_guarded zeroStats (mkInput false None 0 0 0 0 0 0 0 0 false 0 0) init)
    as (H0 & _).
  destruct (mean_guarded (mkStats 3 0 0 3 6000 1600 2400)
              (mkInput false None 0 0 0 0 0 0 0 0 false 0 0) init)
    as (_ & H1 & _).
  split.
  - apply H0. reflexivity.
  - destruct H1 as (_ & _ & H1).
    + cbn. lia.
    + apply H1; cbn; unfold in_int, INT_MIN, INT_MAX; lia.
Defined.

(** C3.  The location callback writes the nine fields computed from the
    statistics as they are when it is called and then sets all fourteen
    counters to 0; called again at once, it writes 0 in every field. *)
Theorem callback_reads_then_resets : forall s : State,
  exists mr ms s1 s2,
    nonIdleMean (statsRPM s) = Some mr /\
    nonIdleMean (statsSPEED s) = Some ms /\
    myLocationGenerationCallback s =
      Some (s1,
        [ WriterValue "engineOff" (seconds (offSamplesRPM s) 100);
          WriterValue "engineIdle" (seconds (idleSamplesRPM s) 100);
          WriterValue "engineNonIdle" (seconds (nonIdleSamplesRPM s) 100);
          WriterValue "engineRpmMin" (nonIdleMinRPM s);
          WriterValue "engineRpmMean" mr;
          WriterValue "engineRpmMax" (nonIdleMaxRPM s);
          WriterValue "engineSpeedMin" (nonIdleMinSPEED s);
          WriterValue "engineSpeedMean" ms;
          WriterValue "engineSpeedMax" (nonIdleMaxSPEED s) ]) /\
    statsRPM s1 = mkStats 0 0 0 0 0 0 0 /\
    statsSPEED s1 = mkStats 0 0 0 0 0 0 0 /\
    myLocationGenerationCallback s1 =
      Some (s2,
        [ WriterValue "engineOff" 0;
          WriterValue "engineIdle" 0;
          WriterValue "engineNonIdle" 0;
          WriterValue "engineRpmMin" 0;
          WriterValue "engineRpmMean" 0;
          WriterValue "engineRpmMax" 0;
          WriterValue "engineSpeedMin" 0;
          WriterValue "engineSpeedMean" 0;
          WriterValue "engineSpeedMax" 0 ]) /\
    statsRPM s2 = mkStats 0 0 0 0 0 0 0 /\
    statsSPEED s2 = mkStats 0 0 0 0 0 0 0.
Proof.
  intros s. destruct (callback_spec s) as (mr & ms & Hr & Hs & E).
  exists mr, ms. do 2 eexists.
  split; [exact Hr|]. split; [exact Hs|]. split; [exact E|].
  repeat split; reflexivity.
Qed.


(** ** Response decoder *)

Lemma land_shiftl_low a b n :
  0 <= n -> 0 <= b < 2 ^ n -> Z.land (Z.shiftl a n) b = 0.
Proof.
  intros Hn Hb. apply Z.bits_inj'. intros m Hm.
  rewrite Z.land_spec, Z.bits_0.
  destruct (Z_lt_ge_dec m n) as [Hlt | Hge].
  - rewrite Z.shiftl_spec_low by assumption. reflexivity.
  - rewrite <- (Z.mod_small b (2 ^ n)) by assumption.
    rewrite Z.mod_pow2_bits_high by lia. apply andb_false_r.
Qed.

(** [(hi << 8) | lo] is the 16-bit number with high byte [hi]. *)
Lemma lor_shiftl_bytes hi lo :
  Z.lor (Z.shiftl (u8 hi) 8) (u8 lo) = 256 * u8 hi + u8 lo.
Proof.
  pose proof (u8_range lo) as Hlo.
  pose proof (Z.add_lor_land (Z.shiftl (u8 hi) 8) (u8 lo)) as H.
  rewrite land_shiftl_low in H by (change (2 ^ 8) with 256; lia).
  rewrite Z.shiftl_mul_pow2 in H by lia. change (2 ^ 8) with 256 in H.
  rewrite Z.shiftl_mul_pow2 by lia. change (2 ^ 8) with 256. lia.
Qed.

Lemma rpm_value hi lo :
  to_int (Z.quot (Z.lor (Z.shiftl (u8 hi) 8) (u8 lo)) 4)
    = (256 * u8 hi + u8 lo) / 4
  /\ 0 <= (256 * u8 hi + u8 lo) / 4 <= 16383.
Proof.
  pose proof (u8_range hi) as Hhi. pose proof (u8_range lo) as Hlo.
  rewrite lor_shiftl_bytes, Z.quot_div_nonneg by lia.
  assert (0 <= (256 * u8 hi + u8 lo) / 4 <= 16383) as Hr.
  { split; [apply Z.div_pos; lia|].
    apply Z.lt_succ_r, Z.div_lt_upper_bound; lia. }
  split; [|exact Hr]. apply to_int_id. unfold in_int, INT_MIN, INT_MAX. lia.
Qed.

Lemma handleCan_rpm f s : isRpmReply f = true ->
  handleCan f s =
    (set_lastRPM
       ((256 * byteAt (rxBuf f) 3 + byteAt (rxBuf f) 4) / 4) s, true, false).
Proof.
  intros H. unfold handleCan. rewrite H.
  unfold isRpmReply in H. rewrite !andb_true_iff in H.
  destruct H as (((Hid & _) & _) & _). apply Z.eqb_eq in Hid. rewrite Hid.
  change (Z.land OBD_CAN_REPLY_ID 0x80000000 =? 0) with true. cbv iota.
  unfold byteAt. cbn [lastRPM set_lastRPM].
  rewrite (proj1 (rpm_value _ _)). reflexivity.
Qed.

Lemma handleCan_speed f s : isRpmReply f = false -> isSpeedReply f = true ->
  handleCan f s = (set_lastSPEED (byteAt (rxBuf f) 3) s, false, true).
Proof.
  intros Hr H. unfold handleCan. rewrite Hr, H.
  unfold isSpeedReply in H. rewrite !andb_true_iff in H.
  destruct H as (((Hid & _) & _) & _). apply Z.eqb_eq in Hid. rewrite Hid.
  reflexivity.
Qed.

Lemma handleCan_other f s : isRpmReply f = false -> isSpeedReply f = false ->
  handleCan f s = (s, false, false).
Proof.
  intros Hr Hs. unfold handleCan. rewrite Hr, Hs.
  now destruct (Z.land (rxId f) 0x80000000 =? 0).
Qed.

(** What a frame can do to the state: nothing but store a sample. *)
Lemma handleCan_cases f s :
  (isRpmReply f = true /\
   handleCan f s =
     (set_lastRPM
        ((256 * byteAt (rxBuf f) 3 + byteAt (rxBuf f) 4) / 4) s,
      true, false)) \/
  (isRpmReply f = false /\ isSpeedReply f = true /\
   handleCan f s = (set_lastSPEED (byteAt (rxBuf f) 3) s, false, true)) \/
  (isRpmReply f = false /\ isSpeedReply f = false /\
   handleCan f s = (s, false, false)).
Proof.
  destruct (isRpmReply f) eqn:Hr.
  - left. split; [reflexivity|]. now apply handleCan_rpm.
  - destruct (isSpeedReply f) eqn:Hs.
    + right; left. repeat split. now apply handleCan_speed.
    + right; right. repeat split. now apply handleCan_other.
Qed.

(** C4.  A frame with the reply identifier whose first three bytes are
    0x04, 0x41, 0x0C stores [((rxBuf[3] << 8) | rxBuf[4]) / 4] in
    [lastRPM]; one whose first three bytes are 0x03, 0x41, 0x0D stores
    [rxBuf[3]] in [lastSPEED].  Nothing else changes. *)
Theorem decoder_stores_sample : forall (f : CanFrame) (s : State),
  (rxId f = 0x7E8 -> byteAt (rxBuf f) 0 = 0x04 ->
   byteAt (rxBuf f) 1 = 0x41 -> byteAt (rxBuf f) 2 = 0x0C ->
   let rpm :=
     Z.lor (Z.shiftl (byteAt (rxBuf f) 3) 8) (byteAt (rxBuf f) 4) / 4 in
   handleCan f s = (set_lastRPM rpm s, true, false) /\
   lastRPM (fst (fst (handleCan f s))) = rpm /\
   lastSPEED (fst (fst (handleCan f s))) = lastSPEED s /\
   rpm = (256 * byteAt (rxBuf f) 3 + byteAt (rxBuf f) 4) / 4) /\
  (rxId f = 0x7E8 -> byteAt (rxBuf f) 0 = 0x03 ->
   byteAt (rxBuf f) 1 = 0x41 -> byteAt (rxBuf f) 2 = 0x0D ->
   handleCan f s = (set_lastSPEED (byteAt (rxBuf f) 3) s, false, true) /\
   lastSPEED (fst (fst (handleCan f s))) = byteAt (rxBuf f) 3 /\
   lastRPM (fst (fst (handleCan f s))) = lastRPM s).
Proof.
  intros f s. split.
  - intros Hid H0 H1 H2 rpm.
    assert (Hr : isRpmReply f = true).
    { unfold isRpmReply. rewrite Hid, H0, H1, H2. reflexivity. }
    assert (Hv : rpm = (256 * byteAt (rxBuf f) 3 + byteAt (rxBuf f) 4) / 4).
    { unfold rpm, byteAt. now rewrite lor_shiftl_bytes. }
    rewrite (handleCan_rpm f s Hr), <- Hv. auto.
  - intros Hid H0 H1 H2.
    assert (Hr : isRpmReply f = false).
    { unfold isRpmReply. rewrite Hid, H0. reflexivity. }
    assert (Hs : isSpeedReply f = true).
    { unfold isSpeedReply. rewrite Hid, H0, H1, H2. reflexivity. }
    rewrite (handleCan_speed f s Hr Hs). auto.
Qed.

Lemma decoder_stores_sample_witness :
  lastRPM (fst (fst (handleCan (rpmFrame x1f x40) init))) = 2000 /\
  lastSPEED (fst (fst (handleCan (speedFrame x5a) init))) = 90.
Proof.
  split.
  - pose proof (proj1 (decoder_stores_sample (rpmFrame x1f x40) init)
                  eq_refl eq_refl eq_refl eq_refl) as H.
    cbv zeta in H. destruct H as (_ & H & _). rewrite H. reflexivity.
  - pose proof (proj2 (decoder_stores_sample (speedFrame x5a) init)
                  eq_refl eq_refl eq_refl eq_refl) as H.
    destruct H as (_ & H & _). rewrite H. reflexivity.
Defined.

(** C5.  A frame that has another identifier, or another service byte, or
    whose byte count and PID are neither 0x04 with 0x0C nor 0x03 with
    0x0D, leaves the whole state as it was. *)
Theorem decoder_drops_mismatch : forall (f : CanFrame) (s : State),
  rxId f <> 0x7E8 \/
  byteAt (rxBuf f) 1 <> 0x41 \/
  (~ (byteAt (rxBuf f) 0 = 0x04 /\ byteAt (rxBuf f) 2 = 0x0C) /\
   ~ (byteAt (rxBuf f) 0 = 0x03 /\ byteAt (rxBuf f) 2 = 0x0D)) ->
  handleCan f s = (s, false, false) /\
  forall i, canMsg i = Some f ->
    loop i s = loop (mkInput (keyIn i) None (millis205 i) (millis206 i)
                       (sndStatRPM i) (millis256 i) (millis257 i)
                       (sndStatSPEED i) (millis308 i) (millis309 i)
                       (connected i) (millis334 i) (millis335 i)) s.
Proof.
  intros f s H.
  assert (E : handleCan f s = (s, false, false)).
  { apply handleCan_other.
    - unfold isRpmReply. rewrite !andb_false_iff, !Z.eqb_neq.
      change OBD_CAN_REPLY_ID with 0x7E8.
      change (u8 PID_ENGINE_RPM) with 0x0C. lia.
    - unfold isSpeedReply. rewrite !andb_false_iff, !Z.eqb_neq.
      change OBD_CAN_REPLY_ID with 0x7E8.
      change (u8 PID_VEHICLE_SPEED) with 0x0D. lia. }
  split; [exact E|].
  intros i Hi. unfold loop. rewrite Hi, E. reflexivity.
Qed.

Lemma decoder_drops_mismatch_witness :
  handleCan (mkFrame 0x7E8 8 [x03; x41; x0c; x1f; x40; x00; x00; x00]) init
    = (init, false, false).
Proof.
  apply decoder_drops_mismatch. right; right.
  split; intros [H1 H2]; vm_compute in H1, H2; discriminate.
Defined.

(** ** The blocks of [loop()] *)

Ltac crack :=
  repeat match goal with
  | H : context [if ?c then _ else _] |- _ => destruct c eqn:?
  | H : (_, _) = (_, _) |- _ => inversion H; subst; clear H
  | H : Some _ = Some _ |- _ => inversion H; subst; clear H
  end.

Ltac fields :=
  cbn [requestRpmLastMillis requestSpeedLastMillis lastRPM lastSPEED
       statsRPM statsSPEED lastEngineLog lastFastPublish fastPublishPeriod
       idleRPM idleSPEED errorFlagRPM errorFlagSPEED
       set_requestRpmLastMillis set_requestSpeedLastMillis set_lastRPM
       set_lastSPEED set_statsRPM set_statsSPEED set_lastEngineLog
       set_lastFastPublish set_fastPublishPeriod set_idleRPM set_idleSPEED
       set_errorFlagRPM set_errorFlagSPEED].

Ltac no_trigger :=
  cbn; unfold not; intros;
  repeat match goal with
  | H : _ \/ _ |- _ => destruct H
  | H : _ = TriggerLocPub |- _ => discriminate H
  | H : _ = LogPublish _ _ _ |- _ => discriminate H
  | H : False |- _ => contradiction
  end.

Lemma requestRpm_spec i s s' due acts : requestRpm i s = (s', due, acts) ->
  lastSPEED s' = lastSPEED s /\ statsSPEED s' = statsSPEED s /\
  lastFastPublish s' = lastFastPublish s /\
  fastPublishPeriod s' = fastPublishPeriod s /\
  idleRPM s' = idleRPM s /\ idleSPEED s' = idleSPEED s /\
  (due = true ->
   statsRPM s' = aggregate (idleRPM s) (lastRPM s) (statsRPM s) /\
   lastRPM s' = 0) /\
  (due = false -> s' = s) /\
  ~ In TriggerLocPub acts /\
  (forall rpm idle period, ~ In (LogPublish rpm idle period) acts).
Proof.
  unfold requestRpm. intros H. crack; cbn;
    (repeat (split; [first [reflexivity | discriminate | now auto]|]));
    try split; no_trigger.
Qed.

Lemma requestSpeed_spec i s s' due acts :
  requestSpeed i s = (s', due, acts) ->
  lastRPM s' = lastRPM s /\ statsRPM s' = statsRPM s /\
  lastFastPublish s' = lastFastPublish s /\
  fastPublishPeriod s' = fastPublishPeriod s /\
  idleRPM s' = idleRPM s /\ idleSPEED s' = idleSPEED s /\
  (due = true ->
   statsSPEED s' = aggregate (idleSPEED s) (lastSPEED s) (statsSPEED s) /\
   lastSPEED s' = 0) /\
  (due = false -> s' = s) /\
  ~ In TriggerLocPub acts /\
  (forall rpm idle period, ~ In (LogPublish rpm idle period) acts).
Proof.
  unfold requestSpeed. intros H. crack; cbn;
    (repeat (split; [first [reflexivity | discriminate | now auto]|]));
    try split; no_trigger.
Qed.

Lemma fastPublish_spec i s s' acts : fastPublish i s = (s', acts) ->
  lastRPM s' = lastRPM s /\ lastSPEED s' = lastSPEED s /\
  statsRPM s' = statsRPM s /\ statsSPEED s' = statsSPEED s /\
  fastPublishPeriod s' = fastPublishPeriod s /\
  idleRPM s' = idleRPM s /\ idleSPEED s' = idleSPEED s /\
  ((triggerDue i s /\
    lastFastPublish s' = millis (millis335 i) /\
    acts = [LogPublish (lastRPM s) (idleRPM s) (fastPublishPeriod s);
            TriggerLocPub]) \/
   (~ triggerDue i s /\ s' = s /\ acts = [])).
Proof.
  unfold fastPublish, triggerDue. intros H.
  destruct (connected i); cbn [andb] in H.
  - destruct (Z.leb_spec (idleRPM s) (lastRPM s)).
    + destruct (Z.ltb_spec 0 (fastPublishPeriod s)); cbn [andb] in H.
      * destruct (Z.leb_spec (to_ulong (fastPublishPeriod s))
                   (ulong_sub (millis (millis334 i)) (lastFastPublish s)));
          inversion H; subst; clear H; cbn;
          repeat (split; [reflexivity|]); [left | right]; intuition lia.
      * inversion H; subst; clear H.
        repeat (split; [reflexivity|]). right. intuition lia.
    + inversion H; subst; clear H.
      repeat (split; [reflexivity|]). right. intuition lia.
  - inversion H; subst; clear H.
    repeat (split; [reflexivity|]). right. intuition discriminate.
Qed.

(** C2, with the third case restricted to samples other than 0.  A period
    is recorded in exactly one of the three counts: in [offSamples] when
    the sample is 0; in [idleSamples] when it is not 0 and below the idle
    threshold; in [nonIdleSamples] when it is not 0 and at least the idle
    threshold, and then it is added to [nonIdleSum], replaces
    [nonIdleMin] when that is 0 or larger, and replaces [nonIdleMax] when
    that is smaller.  This is what the end of a request period does with
    the sample in [lastRPM] or [lastSPEED], which it then clears.  With
    threshold 1600 the samples 0, 800, 1600, 2000, 2400 give 1 off, 1 idle,
    3 above idle, minimum 1600, maximum 2400 and mean 2000. *)
Theorem aggregate_classifies : forall (idle last : Z) (st : Stats),
  (last = 0 ->
     aggregate idle last st =
       mkStats (int_add (numSamples st) 1) (int_add (offSamples st) 1)
         (idleSamples st) (nonIdleSamples st) (nonIdleSum st)
         (nonIdleMin st) (nonIdleMax st)) /\
  (last <> 0 -> last < idle ->
     aggregate idle last st =
       mkStats (int_add (numSamples st) 1) (offSamples st)
         (int_add (idleSamples st) 1) (nonIdleSamples st) (nonIdleSum st)
         (nonIdleMin st) (nonIdleMax st)) /\
  (last <> 0 -> idle <= last ->
     numSamples (aggregate idle last st) = int_add (numSamples st) 1 /\
     offSamples (aggregate idle last st) = offSamples st /\
     idleSamples (aggregate idle last st) = idleSamples st /\
     nonIdleSamples (aggregate idle last st)
       = int_add (nonIdleSamples st) 1 /\
     nonIdleSum (aggregate idle last st) = int_add (nonIdleSum st) last /\
     (nonIdleMin st = 0 \/ last < nonIdleMin st ->
      nonIdleMin (aggregate idle last st) = last) /\
     (nonIdleMin st <> 0 -> nonIdleMin st <= last ->
      nonIdleMin (aggregate idle last st) = nonIdleMin st) /\
     (nonIdleMax st < last -> nonIdleMax (aggregate idle last st) = last) /\
     (last <= nonIdleMax st ->
      nonIdleMax (aggregate idle last st) = nonIdleMax st)) /\
  (forall i s s' acts, requestRpm i s = (s', true, acts) ->
     statsRPM s' = aggregate (idleRPM s) (lastRPM s) (statsRPM s) /\
     lastRPM s' = 0) /\
  (forall i s s' acts, requestSpeed i s = (s', true, acts) ->
     statsSPEED s' = aggregate (idleSPEED s) (lastSPEED s) (statsSPEED s) /\
     lastSPEED s' = 0) /\
  aggregateAll 1600 [0; 800; 1600; 2000; 2400] zeroStats
    = mkStats 5 1 1 3 6000 1600 2400 /\
  nonIdleMean (aggregateAll 1600 [0; 800; 1600; 2000; 2400] zeroStats)
    = Some 2000.
Proof.
  intros idle last st.
  split; [apply aggregate_off|].
  split; [apply aggregate_idle|].
  split; [apply aggregate_nonIdle|].
  split; [intros i s s' acts H; now apply (requestRpm_spec _ _ _ _ _ H)|].
  split; [intros i s s' acts H; now apply (requestSpeed_spec _ _ _ _ _ H)|].
  split; reflexivity.
Qed.

Lemma aggregate_classifies_witness :
  aggregate 1600 0 zeroStats = mkStats 1 1 0 0 0 0 0 /\
  aggregate 1600 800 zeroStats = mkStats 1 0 1 0 0 0 0 /\
  nonIdleSamples (aggregate 1600 2000 (mkStats 3 1 1 1 1600 1600 1600)) = 2 /\
  nonIdleMax (aggregate 1600 2000 (mkStats 3 1 1 1 1600 1600 1600)) = 2000.
Proof.
  split; [|split].
  - apply (proj1 (aggregate_classifies 1600 0 zeroStats)). reflexivity.
  - apply (proj1 (proj2 (aggregate_classifies 1600 800 zeroStats))); lia.
  - destruct (proj1 (proj2 (proj2
      (aggregate_classifies 1600 2000 (mkStats 3 1 1 1 1600 1600 1600)))))
      as (_ & _ & _ & Hn & _ & _ & _ & Hmax & _); [lia | lia |].
    split; [exact Hn | apply Hmax; cbn; lia].
Defined.

(** With the idle threshold set to 0, a period without a reply (sample 0)
    has a sample not below the threshold, yet it is recorded as off and
    not as above idle: the test for 0 on lines 211 and 262 comes first. *)
Lemma aggregate_zero_sample_counterexample :
  0 >= 0 /\
  aggregate 0 0 zeroStats = mkStats 1 1 0 0 0 0 0 /\
  nonIdleSamples (aggregate 0 0 zeroStats)
    <> int_add (nonIdleSamples zeroStats) 1 /\
  (exists s outs,
     run [EvConfig CfgIdleRPM 0; EvLoop (at_ms 100 true false None)] init
       = Some (s, outs) /\
     idleRPM s = 0 /\ offSamplesRPM s = 1 /\ nonIdleSamplesRPM s = 0).
Proof.
  split; [lia|]. split; [reflexivity|]. split; [discriminate|].
  do 2 eexists. split; [vm_compute; reflexivity|].
  repeat split; reflexivity.
Qed.

(** ** One iteration *)

Lemma loop_blocks i s s' o : loop i s = Some (s', o) ->
  exists s1 s2 s3 s4 a1 a2 a3 a4,
    match canMsg i with
    | Some f => handleCan f s
    | None => (s, false, false)
    end = (s1, o_rpmReply o, o_speedReply o) /\
    requestRpm i s1 = (s2, o_rpmDue o, a1) /\
    requestSpeed i s2 = (s3, o_speedDue o, a2) /\
    engineLog i s3 = Some (s4, a3) /\
    fastPublish i s4 = (s', a4) /\
    o_actions o = a1 ++ a2 ++ a3 ++ a4 /\
    o_reset o = false.
Proof.
  unfold loop. intros H.
  destruct (match canMsg i with Some f => handleCan f s | None => _ end)
    as [[s1 rr] sr].
  destruct (requestRpm i s1) as [[s2 rd] a1] eqn:E2.
  destruct (requestSpeed i s2) as [[s3 sd] a2] eqn:E3.
  destruct (engineLog i s3) as [[s4 a3]|] eqn:E4; [|discriminate].
  cbn [bind] in H.
  destruct (fastPublish i s4) as [s5 a4] eqn:E5.
  inversion H; subst; clear H. cbn.
  exists s1, s2, s3, s4, a1, a2, a3, a4. auto 10.
Qed.

Lemma loop_total i s : exists s' o, loop i s = Some (s', o).
Proof.
  unfold loop.
  destruct (match canMsg i with Some f => handleCan f s | None => _ end)
    as [[s1 rr] sr].
  destruct (requestRpm i s1) as [[s2 rd] a1].
  destruct (requestSpeed i s2) as [[s3 sd] a2].
  destruct (engineLog_spec i s3) as (s4 & a3 & E & _). rewrite E. cbn [bind].
  destruct (fastPublish i s4) as [s5 a4]. eauto.
Qed.

(** The decoder as seen from the loop. *)
Lemma decode_spec i s s1 rr sr :
  match canMsg i with
  | Some f => handleCan f s
  | None => (s, false, false)
  end = (s1, rr, sr) ->
  statsRPM s1 = statsRPM s /\ statsSPEED s1 = statsSPEED s /\
  lastFastPublish s1 = lastFastPublish s /\
  fastPublishPeriod s1 = fastPublishPeriod s /\
  idleRPM s1 = idleRPM s /\ idleSPEED s1 = idleSPEED s /\
  (rr = false -> lastRPM s1 = lastRPM s) /\
  (rr = true -> exists f, canMsg i = Some f /\ isRpmReply f = true) /\
  (0 <= lastRPM s -> 0 <= lastRPM s1).
Proof.
  destruct (canMsg i) as [f|].
  - destruct (handleCan_cases f s) as
      [(Hr & E) | [(Hr & Hs & E) | (Hr & Hs & E)]].
    + assert (Hv : 0 <= (256 * byteAt (rxBuf f) 3 + byteAt (rxBuf f) 4) / 4).
      { pose proof (u8_range (nth 3 (rxBuf f) x00)).
        pose proof (u8_range (nth 4 (rxBuf f) x00)).
        apply Z.div_pos; unfold byteAt; lia. }
      revert Hv E.
      generalize ((256 * byteAt (rxBuf f) 3 + byteAt (rxBuf f) 4) / 4).
      intros v Hv E. rewrite E. intros [= <- <- <-]. fields.
      repeat (split; [first [reflexivity | discriminate | now intros _]|]).
      split; [intros _; now exists f | auto].
    + rewrite E. intros [= <- <- <-]. fields.
      repeat (split; [first [reflexivity | discriminate | now intros _]|]).
      auto.
    + rewrite E. intros [= <- <- <-]. fields.
      repeat (split; [first [reflexivity | discriminate | now intros _]|]).
      auto.
  - intros [= <- <- <-].
    repeat (split; [first [reflexivity | discriminate | now intros _]|]).
    auto.
Qed.

(** The effect of one iteration on what the statements below speak of. *)
Lemma loop_summary i s s' o : loop i s = Some (s', o) ->
  (fastPublishPeriod s' = fastPublishPeriod s /\
   idleRPM s' = idleRPM s /\ idleSPEED s' = idleSPEED s) /\
  (exists x, statsRPM s' =
     if o_rpmDue o then aggregate (idleRPM s) x (statsRPM s)
     else statsRPM s) /\
  (exists x, statsSPEED s' =
     if o_speedDue o then aggregate (idleSPEED s) x (statsSPEED s)
     else statsSPEED s) /\
  (o_rpmDue o = true -> lastRPM s' = 0) /\
  (o_rpmDue o = false -> o_rpmReply o = false -> lastRPM s' = lastRPM s) /\
  (o_rpmReply o = true ->
   exists f, canMsg i = Some f /\ isRpmReply f = true) /\
  (0 <= lastRPM s -> 0 <= lastRPM s') /\
  ((fired o /\
    connected i = true /\ idleRPM s <= lastRPM s' /\
    0 < fastPublishPeriod s /\
    to_ulong (fastPublishPeriod s)
      <= ulong_sub (millis (millis334 i)) (lastFastPublish s) /\
    lastFastPublish s' = millis (millis335 i) /\
    In (LogPublish (lastRPM s') (idleRPM s) (fastPublishPeriod s))
       (o_actions o)) \/
   (~ fired o /\ lastFastPublish s' = lastFastPublish s /\
    ~ (connected i = true /\ idleRPM s <= lastRPM s' /\
       0 < fastPublishPeriod s /\
       to_ulong (fastPublishPeriod s)
         <= ulong_sub (millis (millis334 i)) (lastFastPublish s)))).
Proof.
  intros H.
  destruct (loop_blocks _ _ _ _ H)
    as (s1 & s2 & s3 & s4 & a1 & a2 & a3 & a4
        & E1 & E2 & E3 & E4 & E5 & Ea & _).
  apply decode_spec in E1.
  destruct E1 as (D1 & D2 & D3 & D4 & D5 & D6 & D7 & D8 & D9).
  apply requestRpm_spec in E2.
  destruct E2 as (R1 & R2 & R3 & R4 & R5 & R6 & R7 & R8 & R9 & _).
  apply requestSpeed_spec in E3.
  destruct E3 as (S1 & S2 & S3 & S4 & S5 & S6 & S7 & S8 & S9 & _).
  destruct (engineLog_spec i s3)
    as (s4' & a3' & E4' & L1 & L2 & L3 & L4 & L5 & L6 & L7 & L8 & L9).
  rewrite E4 in E4'. inversion E4'; subst s4' a3'; clear E4'.
  assert (La : ~ In TriggerLocPub a3).
  { destruct L9 as [-> | (mr & ms & _ & _ & ->)]; no_trigger. }
  apply fastPublish_spec in E5.
  destruct E5 as (P1 & P2 & P3 & P4 & P5 & P6 & P7 & P8).
  assert (Hlast : lastRPM s' = lastRPM s2) by congruence.
  split; [repeat split; congruence|].
  split.
  { exists (lastRPM s1). destruct (o_rpmDue o).
    - destruct (R7 eq_refl) as [R _]. congruence.
    - rewrite (R8 eq_refl) in *. congruence. }
  split.
  { exists (lastSPEED s2). destruct (o_speedDue o).
    - destruct (S7 eq_refl) as [R _]. congruence.
    - rewrite (S8 eq_refl) in *. congruence. }
  split; [intros Hd; destruct (R7 Hd); congruence|].
  split; [intros Hd Hr; rewrite (R8 Hd) in *; rewrite Hlast; auto|].
  split; [exact D8|].
  split.
  { intros H0. rewrite Hlast. destruct (o_rpmDue o).
    - destruct (R7 eq_refl) as [_ R]. lia.
    - rewrite (R8 eq_refl) in *. auto. }
  assert (Hp : fastPublishPeriod s4 = fastPublishPeriod s) by congruence.
  assert (Hi : idleRPM s4 = idleRPM s) by congruence.
  assert (Hf : lastFastPublish s4 = lastFastPublish s) by congruence.
  unfold triggerDue in P8. unfold fired.
  rewrite Ea, <- Hp, <- Hi, <- Hf, P1, !in_app_iff.
  destruct P8 as [(T & Hl & ->) | (T & -> & ->)]; cbn [In].
  - left. destruct T as (T1 & T2 & T3 & T4).
    repeat (split; [first [assumption | now auto 6]|]). now auto 6.
  - right. split; [|split; [reflexivity | exact T]].
    intros [Hin | [Hin | [Hin | []]]]; contradiction.
Qed.

(** ** Executions *)

Lemma step_total e s : exists s' o, step e s = Some (s', o).
Proof.
  destruct e as [i | | c v]; cbn [step].
  - apply loop_total.
  - destruct (callback_spec s) as (mr & ms & _ & _ & E). rewrite E.
    cbn [bind]. eauto.
  - eauto.
Qed.

Lemma run_total evs : forall s, exists s' outs, run evs s = Some (s', outs).
Proof.
  induction evs as [| e evs IH]; intros s; cbn [run]; [eauto|].
  destruct (step_total e s) as (s1 & o & E). rewrite E. cbn [bind fst snd].
  destruct (IH s1) as (s' & outs & E'). rewrite E'. cbn [bind]. eauto.
Qed.

Lemma run_cons e evs s s' outs : run (e :: evs) s = Some (s', outs) ->
  exists s1 o outs',
    step e s = Some (s1, o) /\ run evs s1 = Some (s', outs') /\
    outs = o :: outs'.
Proof.
  cbn [run]. destruct (step e s) as [[s1 o]|]; [|discriminate].
  cbn [bind fst snd].
  destruct (run evs s1) as [[s2 os]|] eqn:E; [|discriminate].
  cbn [bind fst snd]. intros [= <- <-]. exists s1, o, os. auto.
Qed.

(** The location callback and a change of settings, as steps. *)
Lemma step_other e s s' o :
  (forall i, e <> EvLoop i) -> step e s = Some (s', o) ->
  lastRPM s' = lastRPM s /\ lastFastPublish s' = lastFastPublish s /\
  o_rpmDue o = false /\ o_speedDue o = false /\ o_rpmReply o = false /\
  ~ fired o /\
  ((o_reset o = true /\
    statsRPM s' = zeroStats /\ statsSPEED s' = zeroStats) \/
   (o_reset o = false /\
    statsRPM s' = statsRPM s /\ statsSPEED s' = statsSPEED s)) /\
  (cfgOK s -> cfgOK s') /\
  (keepsFastpub e = true -> fastPublishPeriod s' = fastPublishPeriod s).
Proof.
  intros Hne H. destruct e as [i | | c v]; cbn [step] in H.
  - now destruct (Hne i).
  - destruct (callback_spec s) as (mr & ms & _ & _ & E). rewrite E in H.
    cbn [bind fst snd] in H. inversion H; subst; clear H.
    unfold fired. cbn [o_rpmDue o_speedDue o_rpmReply o_reset o_actions].
    fields.
    repeat (split; [reflexivity|]).
    split; [no_trigger|]. split; [left; auto|]. split; [exact (fun C => C)|].
    reflexivity.
  - inversion H; subst; clear H. unfold fired.
    cbn [o_rpmDue o_speedDue o_rpmReply o_reset o_actions In].
    assert (Hc :
      lastRPM (configure c v s) = lastRPM s /\
      lastFastPublish (configure c v s) = lastFastPublish s /\
      statsRPM (configure c v s) = statsRPM s /\
      statsSPEED (configure c v s) = statsSPEED s /\
      (cfgOK s -> cfgOK (configure c v s)) /\
      (keepsFastpub (EvConfig c v) = true ->
       fastPublishPeriod (configure c v s) = fastPublishPeriod s)).
    { unfold configure, cfgOK.
      destruct c; cbn [keepsFastpub];
        match goal with
        | |- context [if ?c then _ else _] => destruct c eqn:Hc
        end; fields; repeat (split; [reflexivity|]);
        (split; [|first [reflexivity | discriminate]]);
        try (exact (fun C => C)); lia. }
    destruct Hc as (C1 & C2 & C3 & C4 & C5 & C6).
    repeat (split; [first [assumption | reflexivity]|]).
    split; [tauto|]. split; [right; auto|]. split; assumption.
Qed.

Lemma step_counted e s s' o kr ks : step e s = Some (s', o) ->
  counted kr (statsRPM s) -> counted ks (statsSPEED s) ->
  counted (if o_reset o then 0 else kr + Z.b2z (o_rpmDue o)) (statsRPM s') /\
  counted (if o_reset o then 0 else ks + Z.b2z (o_speedDue o))
    (statsSPEED s').
Proof.
  intros H Cr Cs.
  pose proof (counted_nonneg _ _ Cr). pose proof (counted_nonneg _ _ Cs).
  assert (Hother : (forall i, e <> EvLoop i) ->
    counted (if o_reset o then 0 else kr + Z.b2z (o_rpmDue o)) (statsRPM s')
    /\ counted (if o_reset o then 0 else ks + Z.b2z (o_speedDue o))
         (statsSPEED s')).
  { intros Hne. apply step_other in H; [|exact Hne].
    destruct H as (_ & _ & -> & -> & _ & _ & Hst & _).
    destruct Hst as [(-> & -> & ->) | (-> & -> & ->)].
    - split; apply counted_zero; lia.
    - cbn [Z.b2z]. now rewrite !Z.add_0_r. }
  destruct e as [i | | c v]; try (apply Hother; discriminate).
  pose proof (loop_blocks _ _ _ _ H) as B.
  destruct B as (_ & _ & _ & _ & _ & _ & _ & _ & _ & _ & _ & _ & _ & _ & ->).
  apply loop_summary in H.
  destruct H as (_ & (x & Hr) & (y & Hs) & _).
  rewrite Hr, Hs. split.
  - destruct (o_rpmDue o); cbn [Z.b2z].
    + now apply aggregate_counted.
    + now rewrite Z.add_0_r.
  - destruct (o_speedDue o); cbn [Z.b2z].
    + now apply aggregate_counted.
    + now rewrite Z.add_0_r.
Qed.

Lemma run_counted evs : forall s s' outs kr ks,
  run evs s = Some (s', outs) ->
  counted kr (statsRPM s) -> counted ks (statsSPEED s) ->
  counted (periodsFrom o_rpmDue kr outs) (statsRPM s') /\
  counted (periodsFrom o_speedDue ks outs) (statsSPEED s').
Proof.
  induction evs as [| e evs IH]; intros s s' outs kr ks H Cr Cs.
  - cbn in H. inversion H; subst. cbn. auto.
  - apply run_cons in H. destruct H as (s1 & o & outs' & E & H & ->).
    destruct (step_counted _ _ _ _ _ _ E Cr Cs) as (Cr1 & Cs1).
    exact (IH _ _ _ _ _ H Cr1 Cs1).
Qed.

(** C1.  In every state the program reaches, the C expression
    [offSamples + idleSamples + nonIdleSamples == numSamples] holds for
    the RPM and for the speed statistics; and as long as fewer than 2^31
    request periods have passed since the last reset, so that no counter
    can have overflowed, the three counts add up to [numSamples] as
    numbers. *)
Theorem counters_add_up : forall (evs : list Event) (s : State) outs,
  run evs init = Some (s, outs) ->
  int_add (int_add (offSamplesRPM s) (idleSamplesRPM s)) (nonIdleSamplesRPM s)
    = numSamplesRPM s /\
  int_add (int_add (offSamplesSPEED s) (idleSamplesSPEED s))
    (nonIdleSamplesSPEED s) = numSamplesSPEED s /\
  (periods o_rpmDue outs < 2 ^ 31 ->
   offSamplesRPM s + idleSamplesRPM s + nonIdleSamplesRPM s
     = numSamplesRPM s) /\
  (periods o_speedDue outs < 2 ^ 31 ->
   offSamplesSPEED s + idleSamplesSPEED s + nonIdleSamplesSPEED s
     = numSamplesSPEED s).
Proof.
  intros evs s outs H.
  destruct (run_counted evs init s outs 0 0 H) as (Cr & Cs);
    try (apply counted_zero; lia).
  split; [exact (counted_sum _ _ Cr)|].
  split; [exact (counted_sum _ _ Cs)|].
  split; intros Hlt.
  - now destruct (counted_exact _ _ Cr Hlt) as (_ & _ & _ & E).
  - now destruct (counted_exact _ _ Cs Hlt) as (_ & _ & _ & E).
Qed.

Lemma counters_add_up_witness :
  exists s outs,
    run demoDrive init = Some (s, outs) /\
    statsRPM s = mkStats 5 1 1 3 6000 1600 2400 /\
    offSamplesRPM s + idleSamplesRPM s + nonIdleSamplesRPM s
      = numSamplesRPM s.
Proof.
  do 2 eexists.
  assert (E : run demoDrive init = Some _) by (vm_compute; reflexivity).
  split; [exact E|]. split; [reflexivity|].
  apply (counters_add_up demoDrive _ _ E). vm_compute. reflexivity.
Defined.

(** C7, for states reached with fewer than 2^32 request periods since the
    last reset.  In every state the program reaches with fewer than 2^32
    request periods of a quantity since the last reset (the [int] count of
    samples above idle cannot have come back to 0 by overflow),
    [nonIdleSamples == 0] implies that [nonIdleMin] and [nonIdleMax] are 0,
    and the location callback called in that state writes 0 as minimum
    and as maximum. *)
Theorem sentinel_without_samples : forall (evs : list Event) (s : State) outs,
  run evs init = Some (s, outs) ->
  (periods o_rpmDue outs < 2 ^ 32 -> nonIdleSamplesRPM s = 0 ->
   nonIdleMinRPM s = 0 /\ nonIdleMaxRPM s = 0 /\
   exists s' acts,
     myLocationGenerationCallback s = Some (s', acts) /\
     In (WriterValue "engineRpmMin" 0) acts /\
     In (WriterValue "engineRpmMax" 0) acts) /\
  (periods o_speedDue outs < 2 ^ 32 -> nonIdleSamplesSPEED s = 0 ->
   nonIdleMinSPEED s = 0 /\ nonIdleMaxSPEED s = 0 /\
   exists s' acts,
     myLocationGenerationCallback s = Some (s', acts) /\
     In (WriterValue "engineSpeedMin" 0) acts /\
     In (WriterValue "engineSpeedMax" 0) acts).
Proof.
  intros evs s outs H.
  destruct (run_counted evs init s outs 0 0 H) as (Cr & Cs);
    try (apply counted_zero; lia).
  destruct (callback_spec s) as (mr & ms & _ & _ & E).
  split; intros Hlt Hz.
  - destruct (counted_sentinel _ _ Cr Hlt Hz) as (Hmin & Hmax).
    split; [exact Hmin|]. split; [exact Hmax|].
    do 2 eexists. split; [exact E|].
    unfold nonIdleMinRPM, nonIdleMaxRPM. rewrite Hmin, Hmax. cbn. tauto.
  - destruct (counted_sentinel _ _ Cs Hlt Hz) as (Hmin & Hmax).
    split; [exact Hmin|]. split; [exact Hmax|].
    do 2 eexists. split; [exact E|].
    unfold nonIdleMinSPEED, nonIdleMaxSPEED. rewrite Hmin, Hmax. cbn. tauto.
Qed.

Lemma sentinel_without_samples_witness :
  exists s outs,
    run (demoDrive ++ [EvLocation; EvLoop (at_ms 600 true false None)]) init
      = Some (s, outs) /\
    nonIdleSamplesRPM s = 0 /\ numSamplesRPM s = 1 /\
    nonIdleMinRPM s = 0 /\ nonIdleMaxRPM s = 0.
Proof.
  do 2 eexists.
  assert (E : run (demoDrive ++ [EvLocation; EvLoop (at_ms 600 true false None)])
                init = Some _) by (vm_compute; reflexivity).
  split; [exact E|]. split; [reflexivity|]. split; [reflexivity|].
  destruct (proj1 (sentinel_without_samples _ _ _ E)) as (Hmin & Hmax & _).
  - vm_compute. reflexivity.
  - reflexivity.
  - split; assumption.
Defined.

(** ** Adaptive publish trigger *)

Lemma loop_fastpub_off i s s' o : loop i s = Some (s', o) ->
  fastPublishPeriod s = 0 ->
  ~ fired o /\ lastFastPublish s' = lastFastPublish s /\
  fastPublishPeriod s' = 0.
Proof.
  intros H Hz. apply loop_summary in H.
  destruct H as ((Hp & _) & _ & _ & _ & _ & _ & _ & T).
  rewrite Hp. destruct T as [(_ & _ & _ & T & _) | (T & Hl & _)].
  - lia.
  - auto.
Qed.

(** C9.  With [fastPublishPeriod] equal to 0 an iteration of the loop
    publishes nothing and leaves [lastFastPublish] alone, whatever the RPM,
    the connection and the clock; and so does every execution from such a
    state in which the setting is not changed. *)
Theorem zero_period_disables_trigger : forall (s : State),
  fastPublishPeriod s = 0 ->
  (forall i : LoopInput,
     exists s' o, loop i s = Some (s', o) /\
       ~ In TriggerLocPub (o_actions o) /\
       (forall rpm idle period,
          ~ In (LogPublish rpm idle period) (o_actions o)) /\
       lastFastPublish s' = lastFastPublish s) /\
  (forall evs : list Event,
     forallb keepsFastpub evs = true ->
     exists s' outs, run evs s = Some (s', outs) /\
       Forall (fun o => ~ In TriggerLocPub (o_actions o)) outs /\
       lastFastPublish s' = lastFastPublish s /\
       fastPublishPeriod s' = 0).
Proof.
  intros s Hz. split.
  - intros i. destruct (loop_total i s) as (s' & o & E).
    exists s', o. split; [exact E|].
    destruct (loop_fastpub_off _ _ _ _ E Hz) as (Hn & Hl & _).
    split; [exact Hn|]. split; [|exact Hl].
    intros rpm idle period Hin.
    destruct (loop_blocks _ _ _ _ E)
      as (s1 & s2 & s3 & s4 & a1 & a2 & a3 & a4
        & _ & E2 & E3 & E4 & E5 & Ea & _).
    apply requestRpm_spec in E2. apply requestSpeed_spec in E3.
    apply fastPublish_spec in E5.
    rewrite Ea, !in_app_iff in Hin.
    destruct E5 as (_ & _ & _ & _ & _ & _ & _ & [(_ & _ & ->) | (_ & _ & ->)]).
    + apply Hn. unfold fired. rewrite Ea, !in_app_iff. cbn. tauto.
    + destruct Hin as [Hin | [Hin | [Hin | []]]].
      * destruct E2 as (_ & _ & _ & _ & _ & _ & _ & _ & _ & N).
        exact (N _ _ _ Hin).
      * destruct E3 as (_ & _ & _ & _ & _ & _ & _ & _ & _ & N).
        exact (N _ _ _ Hin).
      * destruct (engineLog_spec i s3)
          as (s4' & a3' & E4' & _ & _ & _ & _ & _ & _ & _ & _ & L).
        rewrite E4 in E4'. inversion E4'; subst.
        destruct L as [-> | (mr & ms & _ & _ & ->)]; revert Hin; no_trigger.
  - intros evs. revert s Hz.
    induction evs as [| e evs IH]; intros s Hz Hk.
    + exists s, []. cbn. auto.
    + cbn [forallb] in Hk. apply andb_true_iff in Hk. destruct Hk as (Hk & Hks).
      destruct (step_total e s) as (s1 & o & E).
      assert (H1 : ~ fired o /\ lastFastPublish s1 = lastFastPublish s /\
                   fastPublishPeriod s1 = 0).
      { destruct e as [i | | c v].
        - exact (loop_fastpub_off _ _ _ _ E Hz).
        - apply step_other in E; [|discriminate].
          destruct E as (_ & Hl & _ & _ & _ & Hn & _ & _ & Hp).
          rewrite (Hp Hk). auto.
        - apply step_other in E; [|discriminate].
          destruct E as (_ & Hl & _ & _ & _ & Hn & _ & _ & Hp).
          rewrite (Hp Hk). auto. }
      destruct H1 as (Hn & Hl & Hp).
      destruct (IH s1 Hp Hks) as (s' & outs & E' & Hall & Hl' & Hp').
      exists s', (o :: outs). cbn [run]. rewrite E. cbn [bind fst snd].
      rewrite E'. cbn [bind fst snd].
      split; [reflexivity|]. split; [constructor; assumption|].
      split; [congruence | assumption].
Qed.

Lemma zero_period_disables_trigger_witness :
  exists s' o,
    loop (at_ms 700000 true true (Some (rpmFrame x25 x80)))
      (set_fastPublishPeriod 0 (set_requestRpmLastMillis 699950 init))
      = Some (s', o) /\
    lastRPM s' = 2400 /\ ~ In TriggerLocPub (o_actions o) /\
    lastFastPublish s' = 0.
Proof.
  destruct (proj1 (zero_period_disables_trigger
                     (set_fastPublishPeriod 0
                        (set_requestRpmLastMillis 699950 init)) eq_refl)
              (at_ms 700000 true true (Some (rpmFrame x25 x80))))
    as (s' & o & E & Hn & _ & Hl).
  exists s', o. split; [exact E|].
  split; [|split; [exact Hn | exact Hl]].
  vm_compute in E. inversion E. reflexivity.
Defined.

(** *** The clock *)

Lemma last_cons (ts : list Z) : forall t d, last (t :: ts) d = last ts t.
Proof.
  induction ts as [| u us IH]; intros t d; [reflexivity|].
  change (last (t :: u :: us) d) with (last (u :: us) d).
  now rewrite (IH u d), (IH u t).
Qed.

Lemma last_app_default (ts ts' : list Z) : forall d,
  last (ts ++ ts') d = last ts' (last ts d).
Proof.
  induction ts as [| t ts IH]; intros d; [reflexivity|].
  cbn [app]. now rewrite !last_cons, IH.
Qed.

Lemma last_mono (ts : list Z) d d' : d <= d' -> last ts d <= last ts d'.
Proof.
  intros H. destruct ts as [| t ts]; [exact H|]. rewrite !last_cons. lia.
Qed.

Lemma ascending_app ts : forall from ts',
  ascending from (ts ++ ts') <->
  ascending from ts /\ ascending (last ts from) ts'.
Proof.
  induction ts as [| t ts IH]; intros from ts'.
  - cbn. tauto.
  - cbn [app ascending]. rewrite IH, last_cons. tauto.
Qed.

Lemma ascending_weaken ts x y : y <= x -> ascending x ts -> ascending y ts.
Proof.
  intros Hy H. destruct ts as [| t ts]; [exact I|].
  destruct H as [H1 H2]. split; [lia | exact H2].
Qed.

Lemma ascending_last ts : forall from, ascending from ts -> from <= last ts from.
Proof.
  induction ts as [| t ts IH]; intros from H; [cbn; lia|].
  destruct H as [H1 H2]. specialize (IH t H2). rewrite last_cons. lia.
Qed.

Lemma clock_snoc evs e : clock (evs ++ [e]) = clock evs ++ times e.
Proof. unfold clock. rewrite flat_map_app. cbn. now rewrite app_nil_r. Qed.

Lemma run_cfgOK evs : forall s s' outs,
  run evs s = Some (s', outs) -> cfgOK s -> cfgOK s'.
Proof.
  induction evs as [| e evs IH]; intros s s' outs H C.
  - cbn in H. inversion H; subst. exact C.
  - apply run_cons in H. destruct H as (s1 & o & outs' & E & H & _).
    apply (IH _ _ _ H).
    destruct e as [i | | c v].
    + apply loop_summary in E. destruct E as ((E1 & E2 & E3) & _).
      unfold cfgOK in *. rewrite E1, E2, E3. exact C.
    + apply step_other in E; [|discriminate]. apply E, C.
    + apply step_other in E; [|discriminate]. apply E, C.
Qed.

Lemma init_cfgOK : cfgOK init.
Proof. unfold cfgOK. cbn. lia. Qed.

(** [lastFastPublish] is the clock reading [millis335] of the latest
    publish, or the value it had at the start; no publish is later. *)
Lemma run_lastFastPublish evs : forall s L s' outs,
  run evs s = Some (s', outs) ->
  lastFastPublish s = to_ulong L -> ascending L (clock evs) ->
  exists L',
    lastFastPublish s' = to_ulong L' /\ L <= L' /\
    L' <= last (clock evs) L /\
    forall k a ok,
      nth_error evs k = Some (EvLoop a) -> nth_error outs k = Some ok ->
      fired ok -> millis335 a <= L'.
Proof.
  induction evs as [| e evs IH]; intros s L s' outs H HL Hasc.
  - cbn in H. inversion H; subst. exists L. cbn.
    repeat split; try lia; try assumption.
    intros [|k] a ok Hk; discriminate Hk.
  - apply run_cons in H. destruct H as (s1 & o & outs' & E & H & ->).
    change (clock (e :: evs)) with (times e ++ clock evs) in *.
    apply ascending_app in Hasc. destruct Hasc as (A1 & A2).
    rewrite last_app_default.
    pose proof (ascending_last _ _ A1) as HLe.
    assert (Hcase :
      (exists i, e = EvLoop i /\ fired o /\
                 lastFastPublish s1 = to_ulong (millis335 i)) \/
      (~ fired o /\ lastFastPublish s1 = lastFastPublish s)).
    { destruct e as [i | | c v].
      - apply loop_summary in E.
        destruct E as (_ & _ & _ & _ & _ & _ & _ & T).
        destruct T as [(F & _ & _ & _ & _ & Hl & _) | (F & Hl & _)].
        + left. exists i. auto.
        + right. auto.
      - apply step_other in E; [|discriminate]. right. tauto.
      - apply step_other in E; [|discriminate]. right. tauto. }
    destruct Hcase as [(i & -> & F & Hl) | (F & Hl)].
    + change (last (times (EvLoop i)) L) with (millis335 i) in *.
      destruct (IH _ _ _ _ H Hl A2) as (L' & E' & Hge & Hle & Hall).
      exists L'. repeat split; try assumption; try lia.
      intros [|k] a ok Hk Ho Hf; cbn in Hk, Ho.
      * inversion Hk; subst. exact Hge.
      * eauto.
    + rewrite HL in Hl.
      destruct (IH _ _ _ _ H Hl (ascending_weaken _ _ _ HLe A2))
        as (L' & E' & Hge & Hle & Hall).
      exists L'. repeat split; try assumption.
      * pose proof (last_mono (clock evs) _ _ HLe). lia.
      * intros [|k] a ok Hk Ho Hf; cbn in Hk, Ho.
        -- inversion Ho; subst. contradiction.
        -- eauto.
Qed.

(** C6.  When the trigger fires in an iteration, the device is connected,
    the RPM sample the check sees is at least the idle threshold, the
    publish period is positive and has elapsed on the millisecond clock
    since [lastFastPublish]; and at least the period has passed since the
    device started and since every earlier firing of the trigger. *)
Theorem publish_spacing :
  forall (evs : list Event) (sj : State) outs (b : LoopInput) s' o,
  run evs init = Some (sj, outs) ->
  ascending 0 (clock (evs ++ [EvLoop b])) ->
  loop b sj = Some (s', o) ->
  In TriggerLocPub (o_actions o) ->
  connected b = true /\
  idleRPM sj <= lastRPM s' /\
  In (LogPublish (lastRPM s') (idleRPM sj) (fastPublishPeriod sj))
     (o_actions o) /\
  0 < fastPublishPeriod sj /\
  fastPublishPeriod sj
    <= ulong_sub (millis (millis334 b)) (lastFastPublish sj) /\
  fastPublishPeriod sj <= millis334 b /\
  forall k a ok,
    nth_error evs k = Some (EvLoop a) -> nth_error outs k = Some ok ->
    In TriggerLocPub (o_actions ok) ->
    fastPublishPeriod sj <= millis334 b - millis335 a.
Proof.
  intros evs sj outs b s' o Hrun Hasc Hloop Hfire.
  pose proof (run_cfgOK _ _ _ _ Hrun init_cfgOK) as (_ & _ & Hp).
  rewrite clock_snoc in Hasc. apply ascending_app in Hasc.
  destruct Hasc as (A1 & A2).
  destruct (run_lastFastPublish evs init 0 sj outs Hrun eq_refl A1)
    as (L' & HL & Hge & Hle & Hall).
  apply loop_summary in Hloop.
  destruct Hloop as (_ & _ & _ & _ & _ & _ & _ & T).
  destruct T as [(_ & T1 & T2 & T3 & T4 & _ & T6) | (F & _)];
    [|contradiction].
  rewrite to_ulong_id in T4 by lia.
  cbn [times ascending] in A2.
  assert (Hel : fastPublishPeriod sj <= millis334 b - L').
  { rewrite HL in T4. unfold millis in T4.
    pose proof (ulong_sub_elapsed L' (millis334 b) ltac:(lia)). lia. }
  repeat (split; [assumption|]).
  split; [lia|].
  intros k a ok Hk Ho Hf. specialize (Hall k a ok Hk Ho Hf). lia.
Qed.

Lemma publish_spacing_witness :
  exists sj outs s' o,
    run demoPublish init = Some (sj, outs) /\
    loop (at_ms 2060 true true (Some (rpmFrame x25 x80))) sj = Some (s', o) /\
    In TriggerLocPub (o_actions o) /\
    fastPublishPeriod sj <= 2060 - 1050.
Proof.
  destruct (run_total demoPublish init) as (sj & outs & E).
  destruct (loop_total (at_ms 2060 true true (Some (rpmFrame x25 x80))) sj)
    as (s' & o & E').
  exists sj, outs, s', o.
  pose proof E as C. vm_compute in C. injection C as Cs Co.
  pose proof E' as C'. rewrite <- Cs in C'. vm_compute in C'.
  injection C' as Cs' Co'.
  assert (F : In TriggerLocPub (o_actions o)) by (rewrite <- Co'; cbn; tauto).
  assert (A : ascending 0
                (clock (demoPublish
                          ++ [EvLoop (at_ms 2060 true true
                                        (Some (rpmFrame x25 x80)))])))
    by (cbn; lia).
  split; [exact E|]. split; [exact E'|]. split; [exact F|].
  destruct (publish_spacing _ _ _ _ _ _ E A E' F)
    as (_ & _ & _ & _ & _ & _ & H).
  apply (H 2%nat (at_ms 1050 true true (Some (rpmFrame x25 x80)))
           (mkOut true false false false false
              [LogPublish 2400 1600 1000; TriggerLocPub])).
  - reflexivity.
  - rewrite <- Co. reflexivity.
  - cbn; tauto.
Defined.

(** *** The trigger and the RPM request period *)

(** A sample in [lastRPM] was stored by a reply, and no RPM request period
    has ended since. *)
Lemma run_pending evs : forall s0 s outs,
  run evs s0 = Some (s, outs) -> lastRPM s <> 0 ->
  (exists k a ok f,
     nth_error evs k = Some (EvLoop a) /\ nth_error outs k = Some ok /\
     canMsg a = Some f /\ isRpmReply f = true /\
     forall m om, (k <= m)%nat -> nth_error outs m = Some om ->
                  o_rpmDue om = false) \/
  (lastRPM s0 <> 0 /\
   forall m om, nth_error outs m = Some om -> o_rpmDue om = false).
Proof.
  induction evs as [| e evs IH]; intros s0 s outs H Hnz.
  - cbn in H. inversion H; subst. right. split; [exact Hnz|].
    intros [|m] om Hm; discriminate Hm.
  - apply run_cons in H. destruct H as (s1 & o & outs' & E & H & ->).
    destruct (IH _ _ _ H Hnz)
      as [(k & a & ok & f & Hk & Ho & Hf & Hr & Hall) | (Hnz1 & Hall)].
    + left. exists (S k), a, ok, f. repeat (split; [assumption|]).
      intros [|m] om Hle Hm; [lia|]. apply (Hall m); [lia | exact Hm].
    + assert (Hcase :
        o_rpmDue o = false /\
        ((exists i f, e = EvLoop i /\ canMsg i = Some f /\
                      isRpmReply f = true) \/
         lastRPM s1 = lastRPM s0)).
      { destruct e as [i | | c v].
        - apply loop_summary in E.
          destruct E as (_ & _ & _ & Hd & Hkeep & Hrep & _).
          destruct (o_rpmDue o) eqn:Ed; [now rewrite Hd in Hnz1|].
          split; [reflexivity|].
          destruct (o_rpmReply o) eqn:Er.
          + left. destruct (Hrep eq_refl) as (f & Hf & Hr). eauto.
          + right. auto.
        - apply step_other in E; [|discriminate].
          destruct E as (E1 & _ & E2 & _). auto.
        - apply step_other in E; [|discriminate].
          destruct E as (E1 & _ & E2 & _). auto. }
      destruct Hcase as (Hd & [(i & f & -> & Hf & Hr) | Hsame]).
      * left. exists 0%nat, i, o, f. repeat (split; [easy|]).
        intros [|m] om _ Hm; cbn in Hm.
        -- now inversion Hm; subst.
        -- eauto.
      * right. split; [congruence|].
        intros [|m] om Hm; cbn in Hm.
        -- now inversion Hm; subst.
        -- eauto.
Qed.

Lemma loop_check_state i s s' o : loop i s = Some (s', o) ->
  exists s4 acts,
    fastPublish i s4 = (s', acts) /\ lastRPM s4 = lastRPM s' /\
    idleRPM s4 = idleRPM s.
Proof.
  intros H.
  destruct (loop_blocks _ _ _ _ H)
    as (s1 & s2 & s3 & s4 & a1 & a2 & a3 & a4
        & E1 & E2 & E3 & E4 & E5 & Ea & _).
  exists s4, a4. split; [exact E5|].
  apply decode_spec in E1. apply requestRpm_spec in E2.
  apply requestSpeed_spec in E3.
  destruct (engineLog_spec i s3)
    as (s4' & a3' & E4' & _ & _ & _ & _ & _ & _ & L7 & _).
  rewrite E4 in E4'. inversion E4'; subst s4' a3'.
  pose proof (fastPublish_spec _ _ _ _ E5) as P.
  split; [symmetry; apply P|].
  destruct E1 as (_ & _ & _ & _ & D5 & _).
  destruct E2 as (_ & _ & _ & _ & R5 & _).
  destruct E3 as (_ & _ & _ & _ & S5 & _).
  congruence.
Qed.

(** C10.  In an iteration in which the RPM request period ends, the
    publish check sees [lastRPM] equal to 0, so with a positive idle
    threshold the trigger does not fire.  When the trigger fires with a
    positive idle threshold, the RPM request period did not end in that
    iteration, and a reply with the RPM shape arrived in it or in an
    earlier iteration since which no RPM request period has ended. *)
Theorem trigger_needs_fresh_reply :
  forall (evs : list Event) (sj : State) outs (b : LoopInput) s' o,
  run evs init = Some (sj, outs) ->
  loop b sj = Some (s', o) ->
  (o_rpmDue o = true ->
   (exists s4 acts, fastPublish b s4 = (s', acts) /\ lastRPM s4 = 0) /\
   lastRPM s' = 0 /\
   (0 < idleRPM sj -> ~ In TriggerLocPub (o_actions o))) /\
  (In TriggerLocPub (o_actions o) -> 0 < idleRPM sj ->
   o_rpmDue o = false /\
   ((exists f, canMsg b = Some f /\ isRpmReply f = true) \/
    (exists k a ok f,
       nth_error evs k = Some (EvLoop a) /\ nth_error outs k = Some ok /\
       canMsg a = Some f /\ isRpmReply f = true /\
       forall m om, (k <= m)%nat -> nth_error outs m = Some om ->
                    o_rpmDue om = false))).
Proof.
  intros evs sj outs b s' o Hrun Hloop.
  destruct (loop_check_state _ _ _ _ Hloop) as (s4 & acts & E5 & H4 & _).
  apply loop_summary in Hloop.
  destruct Hloop as (_ & _ & _ & Hd & Hkeep & Hrep & _ & T).
  assert (Hno : o_rpmDue o = true -> 0 < idleRPM sj ->
                ~ In TriggerLocPub (o_actions o)).
  { intros Ed Hpos Hf. specialize (Hd Ed).
    destruct T as [(_ & _ & T2 & _) | (F & _)]; [lia | contradiction]. }
  split.
  - intros Ed. split; [|split; [auto | auto]].
    exists s4, acts. split; [exact E5|]. rewrite H4. auto.
  - intros Hf Hpos.
    destruct (o_rpmDue o) eqn:Ed; [now destruct (Hno eq_refl Hpos)|].
    split; [reflexivity|].
    destruct (o_rpmReply o) eqn:Er; [left; auto|].
    right.
    assert (Hnz : lastRPM sj <> 0).
    { rewrite <- (Hkeep eq_refl eq_refl).
      destruct T as [(_ & _ & T2 & _) | (F & _)]; [lia | contradiction]. }
    destruct (run_pending _ _ _ _ Hrun Hnz) as [Hex | (Hinit & _)];
      [exact Hex | now cbn in Hinit].
Qed.

Lemma trigger_needs_fresh_reply_witness :
  exists sj outs s' o,
    run demoPublish init = Some (sj, outs) /\
    loop (at_ms 2060 true true (Some (rpmFrame x25 x80))) sj = Some (s', o) /\
    In TriggerLocPub (o_actions o) /\ o_rpmDue o = false /\
    (forall s1 o1,
       loop (at_ms 2100 true true (Some (rpmFrame x25 x80))) sj
         = Some (s1, o1) ->
       o_rpmDue o1 = true /\ lastRPM s1 = 0 /\
       ~ In TriggerLocPub (o_actions o1)).
Proof.
  destruct (run_total demoPublish init) as (sj & outs & E).
  destruct (loop_total (at_ms 2060 true true (Some (rpmFrame x25 x80))) sj)
    as (s' & o & E').
  exists sj, outs, s', o.
  pose proof E as C. vm_compute in C. injection C as Cs Co.
  pose proof E' as C'. rewrite <- Cs in C'. vm_compute in C'.
  injection C' as Cs' Co'.
  assert (F : In TriggerLocPub (o_actions o)) by (rewrite <- Co'; cbn; tauto).
  assert (P : 0 < idleRPM sj) by (rewrite <- Cs; reflexivity).
  split; [exact E|]. split; [exact E'|]. split; [exact F|].
  split.
  - exact (proj1 (proj2 (trigger_needs_fresh_reply _ _ _ _ _ _ E E') F P)).
  - intros s1 o1 E1.
    assert (Ed : o_rpmDue o1 = true).
    { pose proof E1 as C1. rewrite <- Cs in C1. vm_compute in C1.
      injection C1 as _ Co1. rewrite <- Co1. reflexivity. }
    destruct (proj1 (trigger_needs_fresh_reply _ _ _ _ _ _ E E1) Ed)
      as (_ & H0 & Hn).
    split; [exact Ed|]. split; [exact H0|]. exact (Hn P).
Defined.

(** * The rest of [loop()] *)

(** ** The blocks, case by case *)

Lemma requestRpm_cases i s s' due acts : requestRpm i s = (s', due, acts) ->
  requestSpeedLastMillis s' = requestSpeedLastMillis s /\
  lastEngineLog s' = lastEngineLog s /\
  errorFlagSPEED s' = errorFlagSPEED s /\
  ((due = false /\ s' = s /\ acts = [] /\
    ulong_sub (millis (millis205 i)) (requestRpmLastMillis s) < 100) \/
   (due = true /\
    100 <= ulong_sub (millis (millis205 i)) (requestRpmLastMillis s) /\
    requestRpmLastMillis s' = millis (millis206 i) /\
    ((keyIn i = false /\ acts = [] /\ errorFlagRPM s' = errorFlagRPM s) \/
     (keyIn i = true /\ sndStatRPM i = CAN_OK /\
      acts = [SendMsgBuf 0x7DF obdRequestRPM] /\ errorFlagRPM s' = false) \/
     (keyIn i = true /\ sndStatRPM i <> CAN_OK /\ errorFlagRPM s = false /\
      acts = [SendMsgBuf 0x7DF obdRequestRPM; LogError (sndStatRPM i)] /\
      errorFlagRPM s' = true) \/
     (keyIn i = true /\ sndStatRPM i <> CAN_OK /\ errorFlagRPM s = true /\
      acts = [SendMsgBuf 0x7DF obdRequestRPM] /\
      errorFlagRPM s' = true)))).
Proof.
  unfold requestRpm. change requestRpmPeriod with 100.
  destruct (Z.leb_spec 100
              (ulong_sub (millis (millis205 i)) (requestRpmLastMillis s)))
    as [Hd | Hd].
  - destruct (keyIn i) eqn:Hk.
    + destruct (Z.eqb_spec (sndStatRPM i) CAN_OK) as [Hs | Hs].
      * intros [= <- <- <-]. fields. repeat (split; [reflexivity|]).
        right. repeat (split; [first [reflexivity | assumption]|]).
        right; left. auto.
      * fields. destruct (errorFlagRPM s) eqn:Hf; cbn [negb];
          intros [= <- <- <-]; fields; repeat (split; [reflexivity|]);
          right; repeat (split; [first [reflexivity | assumption]|]).
        -- right; right; right. auto.
        -- right; right; left. auto.
    + intros [= <- <- <-]. fields. repeat (split; [reflexivity|]).
      right. repeat (split; [first [reflexivity | assumption]|]).
      left. auto.
  - intros [= <- <- <-]. repeat (split; [reflexivity|]). left. auto.
Qed.

Lemma requestSpeed_cases i s s' due acts :
  requestSpeed i s = (s', due, acts) ->
  requestRpmLastMillis s' = requestRpmLastMillis s /\
  lastEngineLog s' = lastEngineLog s /\
  errorFlagRPM s' = errorFlagRPM s /\
  ((due = false /\ s' = s /\ acts = [] /\
    ulong_sub (millis (millis256 i)) (requestSpeedLastMillis s) < 100) \/
   (due = true /\
    100 <= ulong_sub (millis (millis256 i)) (requestSpeedLastMillis s) /\
    requestSpeedLastMillis s' = millis (millis257 i) /\
    ((keyIn i = false /\ acts = [] /\
      errorFlagSPEED s' = errorFlagSPEED s) \/
     (keyIn i = true /\ sndStatSPEED i = CAN_OK /\
      acts = [SendMsgBuf 0x7DF obdRequestSPEED] /\
      errorFlagSPEED s' = false) \/
     (keyIn i = true /\ sndStatSPEED i <> CAN_OK /\
      errorFlagSPEED s = false /\
      acts = [SendMsgBuf 0x7DF obdRequestSPEED; LogError (sndStatSPEED i)] /\
      errorFlagSPEED s' = true) \/
     (keyIn i = true /\ sndStatSPEED i <> CAN_OK /\
      errorFlagSPEED s = true /\
      acts = [SendMsgBuf 0x7DF obdRequestSPEED] /\
      errorFlagSPEED s' = true)))).
Proof.
  unfold requestSpeed. change requestSpeedPeriod with 100.
  destruct (Z.leb_spec 100
              (ulong_sub (millis (millis256 i)) (requestSpeedLastMillis s)))
    as [Hd | Hd].
  - destruct (keyIn i) eqn:Hk.
    + destruct (Z.eqb_spec (sndStatSPEED i) CAN_OK) as [Hs | Hs].
      * intros [= <- <- <-]. fields. repeat (split; [reflexivity|]).
        right. repeat (split; [first [reflexivity | assumption]|]).
        right; left. auto.
      * fields. destruct (errorFlagSPEED s) eqn:Hf; cbn [negb];
          intros [= <- <- <-]; fields; repeat (split; [reflexivity|]);
          right; repeat (split; [first [reflexivity | assumption]|]).
        -- right; right; right. auto.
        -- right; right; left. auto.
    + intros [= <- <- <-]. fields. repeat (split; [reflexivity|]).
      right. repeat (split; [first [reflexivity | assumption]|]).
      left. auto.
  - intros [= <- <- <-]. repeat (split; [reflexivity|]). left. auto.
Qed.

Lemma decode_frame i s s1 rr sr :
  match canMsg i with
  | Some f => handleCan f s
  | None => (s, false, false)
  end = (s1, rr, sr) ->
  requestRpmLastMillis s1 = requestRpmLastMillis s /\
  requestSpeedLastMillis s1 = requestSpeedLastMillis s /\
  lastEngineLog s1 = lastEngineLog s /\
  errorFlagRPM s1 = errorFlagRPM s /\
  errorFlagSPEED s1 = errorFlagSPEED s.
Proof.
  destruct (canMsg i) as [f|].
  - destruct (handleCan_cases f s) as
      [(_ & E) | [(_ & _ & E) | (_ & _ & E)]];
      rewrite E; intros [= <- <- <-]; fields; auto.
  - intros [= <- <- <-]. auto.
Qed.

Lemma engineLog_cases i s s' acts : engineLog i s = Some (s', acts) ->
  (acts = [] /\ s' = s /\
   ulong_sub (millis (millis308 i)) (lastEngineLog s) < 2000) \/
  (2000 <= ulong_sub (millis (millis308 i)) (lastEngineLog s) /\
   s' = set_lastEngineLog (millis (millis309 i)) s /\
   exists mr ms,
     nonIdleMean (statsRPM s) = Some mr /\
     nonIdleMean (statsSPEED s) = Some ms /\
     acts =
       [ LogEngine "RPM"
           (seconds (offSamplesRPM s) 100) (seconds (idleSamplesRPM s) 100)
           (seconds (nonIdleSamplesRPM s) 100)
           (nonIdleMinRPM s) mr (nonIdleMaxRPM s);
         LogEngine "SPEED"
           (seconds (offSamplesSPEED s) 100)
           (seconds (idleSamplesSPEED s) 100)
           (seconds (nonIdleSamplesSPEED s) 100)
           (nonIdleMinSPEED s) ms (nonIdleMaxSPEED s) ]).
Proof.
  unfold engineLog. change engineLogPeriod with 2000. cbn [Z.eqb negb andb].
  destruct (Z.leb_spec 2000
              (ulong_sub (millis (millis308 i)) (lastEngineLog s)))
    as [Hd | Hd].
  - destruct (nonIdleMean_total (statsRPM s)) as [mr Hr].
    destruct (nonIdleMean_total (statsSPEED s)) as [ms Hs].
    cbn [statsRPM statsSPEED set_lastEngineLog]. rewrite Hr, Hs. cbn [bind].
    intros [= <- <-]. right. split; [exact Hd|]. split; [reflexivity|].
    exists mr, ms. auto.
  - intros [= <- <-]. left. auto.
Qed.

Lemma fastPublish_frame i s s' acts : fastPublish i s = (s', acts) ->
  requestRpmLastMillis s' = requestRpmLastMillis s /\
  requestSpeedLastMillis s' = requestSpeedLastMillis s /\
  lastEngineLog s' = lastEngineLog s /\
  errorFlagRPM s' = errorFlagRPM s /\
  errorFlagSPEED s' = errorFlagSPEED s /\
  (acts = [] \/
   acts = [LogPublish (lastRPM s) (idleRPM s) (fastPublishPeriod s);
           TriggerLocPub]).
Proof.
  unfold fastPublish.
  destruct (connected i && _); [destruct (_ && _)|];
    intros [= <- <-]; fields; auto 10.
Qed.

(** One iteration, with what each block leaves alone. *)
Lemma loop_cadence i s s' o : loop i s = Some (s', o) ->
  exists s1 s2 s3 s4 a1 a2 a3 a4,
    o_actions o = a1 ++ a2 ++ a3 ++ a4 /\
    requestRpm i s1 = (s2, o_rpmDue o, a1) /\
    requestSpeed i s2 = (s3, o_speedDue o, a2) /\
    engineLog i s3 = Some (s4, a3) /\
    fastPublish i s4 = (s', a4) /\
    (requestRpmLastMillis s1 = requestRpmLastMillis s /\
     errorFlagRPM s1 = errorFlagRPM s /\
     requestRpmLastMillis s' = requestRpmLastMillis s2 /\
     errorFlagRPM s' = errorFlagRPM s2) /\
    (requestSpeedLastMillis s2 = requestSpeedLastMillis s /\
     errorFlagSPEED s2 = errorFlagSPEED s /\
     requestSpeedLastMillis s' = requestSpeedLastMillis s3 /\
     errorFlagSPEED s' = errorFlagSPEED s3) /\
    (lastEngineLog s3 = lastEngineLog s /\
     lastEngineLog s' = lastEngineLog s4).
Proof.
  intros H.
  destruct (loop_blocks _ _ _ _ H)
    as (s1 & s2 & s3 & s4 & a1 & a2 & a3 & a4
        & E1 & E2 & E3 & E4 & E5 & Ea & _).
  exists s1, s2, s3, s4, a1, a2, a3, a4.
  repeat (split; [assumption|]).
  apply decode_frame in E1. destruct E1 as (D1 & D2 & D3 & D4 & D5).
  pose proof (requestRpm_cases _ _ _ _ _ E2) as (R1 & R2 & R3 & _).
  pose proof (requestSpeed_cases _ _ _ _ _ E3) as (S1 & S2 & S3 & _).
  pose proof (fastPublish_frame _ _ _ _ E5) as (P1 & P2 & P3 & P4 & P5 & _).
  assert (L : requestRpmLastMillis s4 = requestRpmLastMillis s3 /\
              requestSpeedLastMillis s4 = requestSpeedLastMillis s3 /\
              errorFlagRPM s4 = errorFlagRPM s3 /\
              errorFlagSPEED s4 = errorFlagSPEED s3).
  { destruct (engineLog_cases _ _ _ _ E4) as [(_ & -> & _) | (_ & -> & _)];
      fields; auto. }
  destruct L as (L1 & L2 & L3 & L4).
  repeat split; congruence.
Qed.

(** ** Error lines (lines 236-252 and 288-304) *)

Lemma requestRpm_errors i s s' due acts :
  requestRpm i s = (s', due, acts) ->
  Z.b2z (errorFlagRPM s') - Z.b2z (errorFlagRPM s)
    <= Z.of_nat (List.length (filter isLogError acts))
    <= Z.b2z (due && keyIn i && (sndStatRPM i =? CAN_OK))
       + Z.b2z (errorFlagRPM s') - Z.b2z (errorFlagRPM s).
Proof.
  intros H. destruct (requestRpm_cases _ _ _ _ _ H) as (_ & _ & _ & C).
  destruct C as [(-> & -> & -> & _) | (-> & _ & _ & C)].
  - cbn. lia.
  - destruct C as [(-> & -> & ->) | [(-> & Hs & -> & ->)
                  | [(-> & Hs & -> & -> & ->) | (-> & Hs & -> & -> & ->)]]].
    + cbn. lia.
    + apply Z.eqb_eq in Hs. rewrite Hs. cbn.
      destruct (errorFlagRPM s); cbn; lia.
    + apply Z.eqb_neq in Hs. rewrite Hs. cbn. lia.
    + apply Z.eqb_neq in Hs. rewrite Hs. cbn. lia.
Qed.

Lemma requestSpeed_errors i s s' due acts :
  requestSpeed i s = (s', due, acts) ->
  Z.b2z (errorFlagSPEED s') - Z.b2z (errorFlagSPEED s)
    <= Z.of_nat (List.length (filter isLogError acts))
    <= Z.b2z (due && keyIn i && (sndStatSPEED i =? CAN_OK))
       + Z.b2z (errorFlagSPEED s') - Z.b2z (errorFlagSPEED s).
Proof.
  intros H. destruct (requestSpeed_cases _ _ _ _ _ H) as (_ & _ & _ & C).
  destruct C as [(-> & -> & -> & _) | (-> & _ & _ & C)].
  - cbn. lia.
  - destruct C as [(-> & -> & ->) | [(-> & Hs & -> & ->)
                  | [(-> & Hs & -> & -> & ->) | (-> & Hs & -> & -> & ->)]]].
    + cbn. lia.
    + apply Z.eqb_eq in Hs. rewrite Hs. cbn.
      destruct (errorFlagSPEED s); cbn; lia.
    + apply Z.eqb_neq in Hs. rewrite Hs. cbn. lia.
    + apply Z.eqb_neq in Hs. rewrite Hs. cbn. lia.
Qed.

Lemma step_errors e s s' o : step e s = Some (s', o) ->
  flagsSet s' - flagsSet s <= errorLines o
    <= sendsOk e o + flagsSet s' - flagsSet s.
Proof.
  intros H. destruct e as [i | | c v]; cbn [step sendsOk] in *.
  - destruct (loop_cadence _ _ _ _ H)
      as (s1 & s2 & s3 & s4 & a1 & a2 & a3 & a4 & Ea & E2 & E3 & E4 & E5
          & (_ & R2 & _ & R4) & (_ & S2 & _ & S4) & _).
    pose proof (requestRpm_errors _ _ _ _ _ E2) as B1.
    pose proof (requestSpeed_errors _ _ _ _ _ E3) as B2.
    assert (N3 : filter isLogError a3 = []).
    { destruct (engineLog_cases _ _ _ _ E4)
        as [(-> & _) | (_ & _ & mr & ms & _ & _ & ->)]; reflexivity. }
    assert (N4 : filter isLogError a4 = []).
    { destruct (fastPublish_frame _ _ _ _ E5)
        as (_ & _ & _ & _ & _ & [-> | ->]); reflexivity. }
    unfold errorLines, flagsSet.
    rewrite Ea, !filter_app, N3, N4, !app_nil_r, length_app, Nat2Z.inj_add.
    rewrite R4, S4, <- R2, <- S2. lia.
  - destruct (callback_spec s) as (mr & ms & _ & _ & E). rewrite E in H.
    cbn [bind fst snd] in H. inversion H; subst; clear H.
    unfold errorLines, flagsSet. cbn. lia.
  - inversion H; subst; clear H. unfold errorLines, flagsSet, configure.
    destruct c; match goal with
                | |- context [if ?c then _ else _] => destruct c
                end; cbn; lia.
Qed.

Lemma run_errors evs : forall s s' outs, run evs s = Some (s', outs) ->
  flagsSet s' - flagsSet s <= errorsLogged outs
    <= sendsAccepted evs outs + flagsSet s' - flagsSet s.
Proof.
  induction evs as [| e evs IH]; intros s s' outs H.
  - cbn in H. inversion H; subst. cbn. lia.
  - apply run_cons in H. destruct H as (s1 & o & outs' & E & H & ->).
    pose proof (step_errors _ _ _ _ E). pose proof (IH _ _ _ H).
    cbn [errorsLogged fold_right sendsAccepted].
    fold (errorsLogged outs'). lia.
Qed.

(** X1.  Error lines are logged on the change of an error flag only: an
    execution logs at least as many error lines as the number of error
    flags grew, and at most that number plus the number of sends that
    were accepted.  From the start of the program this is at most the
    accepted sends plus two, so as long as every send fails at most two
    error lines are logged, however many requests are tried. *)
Theorem error_lines_bounded :
  forall (evs : list Event) (s0 s : State) outs,
  run evs s0 = Some (s, outs) ->
  flagsSet s - flagsSet s0 <= errorsLogged outs
    <= sendsAccepted evs outs + flagsSet s - flagsSet s0 /\
  (s0 = init ->
   errorsLogged outs <= sendsAccepted evs outs + 2 /\
   (sendsAccepted evs outs = 0 -> errorsLogged outs <= 2)).
Proof.
  intros evs s0 s outs H. pose proof (run_errors _ _ _ _ H) as B.
  split; [exact B|]. intros ->.
  assert (Hf : 0 <= flagsSet s <= 2)
    by (unfold flagsSet; destruct (errorFlagRPM s), (errorFlagSPEED s);
        cbn; lia).
  change (flagsSet init) with 0 in B. lia.
Qed.

Lemma error_lines_bounded_witness :
  exists s outs,
    run demoVehicleOff init = Some (s, outs) /\
    sendsAccepted demoVehicleOff outs = 0 /\
    2 <= errorsLogged outs <= 2.
Proof.
  destruct (run_total demoVehicleOff init) as (s & outs & E).
  exists s, outs. split; [exact E|].
  pose proof E as C. vm_compute in C. injection C as Cs Co.
  assert (A : sendsAccepted demoVehicleOff outs = 0)
    by (rewrite <- Co; reflexivity).
  split; [exact A|].
  destruct (error_lines_bounded demoVehicleOff init s outs E) as (B & U).
  destruct (U eq_refl) as (_ & U2). specialize (U2 A).
  split; [|exact U2].
  assert (F : flagsSet s - flagsSet init = 2) by (rewrite <- Cs; reflexivity).
  lia.
Defined.

(** ** Requests (lines 240-252 and 292-304) *)

Lemma requestRpm_sends i s s' due acts :
  requestRpm i s = (s', due, acts) ->
  (forall id data, In (SendMsgBuf id data) acts ->
     keyIn i = true /\ due = true /\ id = 0x7DF /\ data = obdRequestRPM) /\
  (due = true -> keyIn i = true -> In (SendMsgBuf 0x7DF obdRequestRPM) acts) /\
  (List.length (filter isSend acts) <= 1)%nat.
Proof.
  intros H. destruct (requestRpm_cases _ _ _ _ _ H) as (_ & _ & _ & C).
  destruct C as [(-> & -> & -> & _) | (-> & _ & _ & C)].
  - split; [intros id data []|]. split; [discriminate|]. cbn. lia.
  - destruct C as [(Hk & -> & _) | [(Hk & _ & -> & _)
                  | [(Hk & _ & _ & -> & _) | (Hk & _ & _ & -> & _)]]].
    + split; [intros id data []|]. split; [congruence|]. cbn. lia.
    + split; [|split; [cbn; auto | cbn; lia]].
      intros id data [[= <- <-] | []]. auto.
    + split; [|split; [cbn; auto | cbn; lia]].
      intros id data [[= <- <-] | [[=] | []]]. auto.
    + split; [|split; [cbn; auto | cbn; lia]].
      intros id data [[= <- <-] | []]. auto.
Qed.

Lemma requestSpeed_sends i s s' due acts :
  requestSpeed i s = (s', due, acts) ->
  (forall id data, In (SendMsgBuf id data) acts ->
     keyIn i = true /\ due = true /\ id = 0x7DF /\ data = obdRequestSPEED) /\
  (due = true -> keyIn i = true ->
   In (SendMsgBuf 0x7DF obdRequestSPEED) acts) /\
  (List.length (filter isSend acts) <= 1)%nat.
Proof.
  intros H. destruct (requestSpeed_cases _ _ _ _ _ H) as (_ & _ & _ & C).
  destruct C as [(-> & -> & -> & _) | (-> & _ & _ & C)].
  - split; [intros id data []|]. split; [discriminate|]. cbn. lia.
  - destruct C as [(Hk & -> & _) | [(Hk & _ & -> & _)
                  | [(Hk & _ & _ & -> & _) | (Hk & _ & _ & -> & _)]]].
    + split; [intros id data []|]. split; [congruence|]. cbn. lia.
    + split; [|split; [cbn; auto | cbn; lia]].
      intros id data [[= <- <-] | []]. auto.
    + split; [|split; [cbn; auto | cbn; lia]].
      intros id data [[= <- <-] | [[=] | []]]. auto.
    + split; [|split; [cbn; auto | cbn; lia]].
      intros id data [[= <- <-] | []]. auto.
Qed.

(** X2.  A request frame leaves the device only in an iteration of the
    loop with the key in, goes to identifier 0x7DF, and is the RPM request
    at the end of an RPM request period or the speed request at the end
    of a speed request period; with the key in, the end of a request
    period always sends its request.  No step sends more than two frames,
    and the location callback and setting changes send none. *)
Theorem requests_follow_key : forall (e : Event) (s s' : State) (o : Out),
  step e s = Some (s', o) ->
  (forall id data, In (SendMsgBuf id data) (o_actions o) ->
     exists i, e = EvLoop i /\ keyIn i = true /\ id = 0x7DF /\
       ((data = [x02; x01; x0c; xcc; xcc; xcc; xcc; xcc] /\
         o_rpmDue o = true) \/
        (data = [x02; x01; x0d; x55; x55; x55; x55; x55] /\
         o_speedDue o = true))) /\
  (forall i, e = EvLoop i -> keyIn i = true ->
     (o_rpmDue o = true ->
      In (SendMsgBuf 0x7DF [x02; x01; x0c; xcc; xcc; xcc; xcc; xcc])
         (o_actions o)) /\
     (o_speedDue o = true ->
      In (SendMsgBuf 0x7DF [x02; x01; x0d; x55; x55; x55; x55; x55])
         (o_actions o))) /\
  (List.length (filter isSend (o_actions o)) <= 2)%nat.
Proof.
  intros e s s' o H. destruct e as [i | | c v]; cbn [step] in H.
  - destruct (loop_cadence _ _ _ _ H)
      as (s1 & s2 & s3 & s4 & a1 & a2 & a3 & a4 & Ea & E2 & E3 & E4 & E5 & _).
    destruct (requestRpm_sends _ _ _ _ _ E2) as (R1 & R2 & R3).
    destruct (requestSpeed_sends _ _ _ _ _ E3) as (S1 & S2 & S3).
    assert (N3 : forall a, In a a3 -> isSend a = false).
    { destruct (engineLog_cases _ _ _ _ E4)
        as [(-> & _) | (_ & _ & mr & ms & _ & _ & ->)];
        intros a Hin; cbn in Hin; intuition (subst; reflexivity). }
    assert (N4 : forall a, In a a4 -> isSend a = false).
    { destruct (fastPublish_frame _ _ _ _ E5)
        as (_ & _ & _ & _ & _ & [-> | ->]);
        intros a Hin; cbn in Hin; intuition (subst; reflexivity). }
    assert (F3 : filter isSend a3 = []).
    { clear - N3. induction a3 as [| a l IH]; [reflexivity|]. cbn.
      rewrite (N3 a (or_introl eq_refl)). apply IH. intros; apply N3.
      now right. }
    assert (F4 : filter isSend a4 = []).
    { clear - N4. induction a4 as [| a l IH]; [reflexivity|]. cbn.
      rewrite (N4 a (or_introl eq_refl)). apply IH. intros; apply N4.
      now right. }
    rewrite Ea. split; [|split].
    + intros id data Hin. rewrite !in_app_iff in Hin. exists i.
      destruct Hin as [Hin | [Hin | [Hin | Hin]]].
      * destruct (R1 _ _ Hin) as (Hk & Hd & -> & ->). auto 8.
      * destruct (S1 _ _ Hin) as (Hk & Hd & -> & ->). auto 8.
      * now pose proof (N3 _ Hin).
      * now pose proof (N4 _ Hin).
    + intros i' [= <-] Hk. rewrite !in_app_iff. split; intros Hd.
      * left. now apply R2.
      * right; left. now apply S2.
    + rewrite !filter_app, F3, F4, !app_nil_r, length_app. lia.
  - destruct (callback_spec s) as (mr & ms & _ & _ & E). rewrite E in H.
    cbn [bind fst snd] in H. inversion H; subst; clear H.
    cbn [o_actions]. split; [|split; [discriminate | cbn; lia]].
    intros id data Hin. cbn in Hin.
    repeat match goal with
    | H : _ \/ _ |- _ => destruct H
    | H : _ = SendMsgBuf _ _ |- _ => discriminate H
    | H : False |- _ => contradiction
    end.
  - inversion H; subst; clear H. cbn [o_actions].
    split; [intros id data []|]. split; [discriminate | cbn; lia].
Qed.

Lemma requests_follow_key_witness :
  exists s' o,
    step (EvLoop (at_ms 100 true false None)) init = Some (s', o) /\
    In (SendMsgBuf 0x7DF obdRequestRPM) (o_actions o) /\
    In (SendMsgBuf 0x7DF obdRequestSPEED) (o_actions o).
Proof.
  destruct (step_total (EvLoop (at_ms 100 true false None)) init)
    as (s' & o & E).
  exists s', o. split; [exact E|].
  pose proof E as C. vm_compute in C. injection C as Cs Co.
  destruct (requests_follow_key _ _ _ _ E) as (_ & H & _).
  destruct (H (at_ms 100 true false None) eq_refl eq_refl) as (Hr & Hs).
  split; [apply Hr | apply Hs]; rewrite <- Co; reflexivity.
Defined.

(** ** Periodic work (lines 205-206, 256-257 and 308-309)

    The three periodic blocks of the loop share one scheme: a variable
    holds the clock reading of the last run, the block runs when the
    unsigned difference to the clock is at least the period, and then
    stores a new reading. *)

Lemma countSteps_cons branch o outs :
  countSteps branch (o :: outs) = Z.b2z (branch o) + countSteps branch outs.
Proof.
  unfold countSteps. cbn [filter].
  destruct (branch o); cbn [List.length Z.b2z]; lia.
Qed.

Lemma step_other_timers e s s' o :
  (forall i, e <> EvLoop i) -> step e s = Some (s', o) ->
  requestRpmLastMillis s' = requestRpmLastMillis s /\
  requestSpeedLastMillis s' = requestSpeedLastMillis s /\
  lastEngineLog s' = lastEngineLog s /\
  lastSPEED s' = lastSPEED s /\
  logged o = false.
Proof.
  intros Hne H. destruct e as [i | | c v]; cbn [step] in H.
  - now destruct (Hne i).
  - destruct (callback_spec s) as (mr & ms & _ & _ & E). rewrite E in H.
    cbn [bind fst snd] in H. inversion H; subst; clear H. fields. auto.
  - inversion H; subst; clear H. unfold configure.
    destruct c; match goal with
                | |- context [if ?c then _ else _] => destruct c
                end; fields; auto.
Qed.

Section PeriodicGate.

Variable last : State -> Z.
Variable due : Out -> bool.
Variables tcheck tset : LoopInput -> Z.
Variable period : Z.

Hypothesis gate_loop : forall i s s' o, loop i s = Some (s', o) ->
  (due o = true /\
   period <= ulong_sub (millis (tcheck i)) (last s) /\
   last s' = millis (tset i)) \/
  (due o = false /\ last s' = last s).

Hypothesis gate_other : forall e s s' o,
  (forall i, e <> EvLoop i) -> step e s = Some (s', o) ->
  due o = false /\ last s' = last s.

Hypothesis gate_times : forall i L, ascending L (times (EvLoop i)) ->
  L <= tcheck i /\ tcheck i <= tset i /\ tset i <= millis335 i.

(** The variable holds the reading of the latest run, which is not before
    [period] times the number of runs; every run came at least [period]
    after the reading the execution started with. *)
Lemma gate_run evs : forall s L n s' outs,
  run evs s = Some (s', outs) ->
  last s = to_ulong L -> ascending L (clock evs) -> period * n <= L ->
  exists L',
    last s' = to_ulong L' /\ L <= L' /\
    L' <= List.last (clock evs) L /\
    period * (n + countSteps due outs) <= L' /\
    forall k a ok,
      nth_error evs k = Some (EvLoop a) -> nth_error outs k = Some ok ->
      due ok = true -> tset a <= L' /\ L + period <= tcheck a.
Proof.
  induction evs as [| e evs IH]; intros s L n s' outs H HL Hasc Hn.
  - cbn in H. inversion H; subst. exists L. cbn.
    unfold countSteps. cbn. rewrite Z.add_0_r.
    split; [assumption|]. split; [lia|]. split; [lia|]. split; [lia|].
    intros [|k] a ok Hk; discriminate Hk.
  - apply run_cons in H. destruct H as (s1 & o & outs' & E & H & ->).
    change (clock (e :: evs)) with (times e ++ clock evs) in *.
    apply ascending_app in Hasc. destruct Hasc as (A1 & A2).
    rewrite last_app_default, countSteps_cons.
    pose proof (ascending_last _ _ A1) as HLe.
    assert (Hcase :
      (exists i, e = EvLoop i /\ due o = true /\
                 period <= ulong_sub (millis (tcheck i)) (last s) /\
                 last s1 = millis (tset i)) \/
      (due o = false /\ last s1 = last s)).
    { destruct e as [i | | c v].
      - destruct (gate_loop _ _ _ _ E) as [(D & P & Hl) | (D & Hl)].
        + left. exists i. auto.
        + right. auto.
      - right. eapply gate_other; [|exact E]. discriminate.
      - right. eapply gate_other; [|exact E]. discriminate. }
    destruct Hcase as [(i & -> & D & P & Hl) | (D & Hl)]; rewrite D.
    + destruct (gate_times _ _ A1) as (T1 & T2 & T3).
      change (List.last (times (EvLoop i)) L) with (millis335 i) in *.
      rewrite HL in P. unfold millis in P.
      pose proof (ulong_sub_elapsed L (tcheck i) T1) as Hel.
      assert (A3 : ascending (tset i) (clock evs))
        by (exact (ascending_weaken _ _ _ T3 A2)).
      destruct (IH s1 (tset i) (n + 1) _ _ H Hl A3 ltac:(lia))
        as (L' & E' & Hge & Hle & Hcnt & Hall).
      exists L'. split; [exact E'|]. split; [lia|].
      split; [pose proof (last_mono (clock evs) _ _ T3); lia|].
      split; [cbn [Z.b2z]; now replace (n + (1 + countSteps due outs'))
                with (n + 1 + countSteps due outs') by lia|].
      intros [|k] a ok Hk Ho Hd; cbn in Hk, Ho.
      * inversion Hk; subst. lia.
      * destruct (Hall _ _ _ Hk Ho Hd). lia.
    + rewrite HL in Hl.
      destruct (IH s1 L n _ _ H Hl (ascending_weaken _ _ _ HLe A2) Hn)
        as (L' & E' & Hge & Hle & Hcnt & Hall).
      exists L'. split; [exact E'|]. split; [exact Hge|].
      split; [pose proof (last_mono (clock evs) _ _ HLe); lia|].
      split; [cbn [Z.b2z]; now rewrite Z.add_0_l|].
      intros [|k] a ok Hk Ho Hd; cbn in Hk, Ho.
      * inversion Ho; subst. congruence.
      * eauto.
Qed.

(** An iteration [b] in which the block runs, after an execution from a
    state in which the variable is 0 at uptime 0. *)
Lemma gate_spacing evs s0 sj outs b s' o :
  last s0 = 0 ->
  run evs s0 = Some (sj, outs) ->
  ascending 0 (clock (evs ++ [EvLoop b])) ->
  loop b sj = Some (s', o) -> due o = true ->
  period * (countSteps due outs + 1) <= tcheck b /\
  forall k a ok,
    nth_error evs k = Some (EvLoop a) -> nth_error outs k = Some ok ->
    due ok = true -> period <= tcheck b - tset a.
Proof.
  intros H0 Hrun Hasc Hloop Hd.
  rewrite clock_snoc in Hasc. apply ascending_app in Hasc.
  destruct Hasc as (A1 & A2).
  destruct (gate_run evs s0 0 0 sj outs Hrun H0 A1 ltac:(lia))
    as (L' & HL & Hge & Hle & Hcnt & Hall).
  assert (A3 : ascending L' (times (EvLoop b)))
    by (exact (ascending_weaken _ _ _ Hle A2)).
  destruct (gate_times _ _ A3) as (T1 & _).
  destruct (gate_loop _ _ _ _ Hloop) as [(_ & P & _) | (D & _)];
    [|congruence].
  rewrite HL in P. unfold millis in P.
  pose proof (ulong_sub_elapsed L' (tcheck b) T1) as Hel.
  split; [lia|].
  intros k a ok Hk Ho Hdk. destruct (Hall _ _ _ Hk Ho Hdk). lia.
Qed.

End PeriodicGate.

Lemma requestRpm_quiet i s s' due acts : requestRpm i s = (s', due, acts) ->
  existsb isLogEngine acts = false.
Proof.
  intros H. destruct (requestRpm_cases _ _ _ _ _ H) as (_ & _ & _ & C).
  destruct C as [(_ & _ & -> & _) | (_ & _ & _ & C)]; [reflexivity|].
  destruct C as [(_ & -> & _) | [(_ & _ & -> & _)
                | [(_ & _ & _ & -> & _) | (_ & _ & _ & -> & _)]]];
    reflexivity.
Qed.

Lemma requestSpeed_quiet i s s' due acts :
  requestSpeed i s = (s', due, acts) -> existsb isLogEngine acts = false.
Proof.
  intros H. destruct (requestSpeed_cases _ _ _ _ _ H) as (_ & _ & _ & C).
  destruct C as [(_ & _ & -> & _) | (_ & _ & _ & C)]; [reflexivity|].
  destruct C as [(_ & -> & _) | [(_ & _ & -> & _)
                | [(_ & _ & _ & -> & _) | (_ & _ & _ & -> & _)]]];
    reflexivity.
Qed.

Lemma rpm_gate i s s' o : loop i s = Some (s', o) ->
  (o_rpmDue o = true /\
   100 <= ulong_sub (millis (millis205 i)) (requestRpmLastMillis s) /\
   requestRpmLastMillis s' = millis (millis206 i)) \/
  (o_rpmDue o = false /\ requestRpmLastMillis s' = requestRpmLastMillis s).
Proof.
  intros H. destruct (loop_cadence _ _ _ _ H)
    as (s1 & s2 & s3 & s4 & a1 & a2 & a3 & a4 & _ & E2 & _ & _ & _
        & (R1 & _ & R3 & _) & _).
  destruct (requestRpm_cases _ _ _ _ _ E2) as (_ & _ & _ & C).
  destruct C as [(D & -> & _) | (D & P & Hl & _)].
  - right. split; [exact D | congruence].
  - left. rewrite <- R1. split; [exact D|]. split; [exact P | congruence].
Qed.

Lemma speed_gate i s s' o : loop i s = Some (s', o) ->
  (o_speedDue o = true /\
   100 <= ulong_sub (millis (millis256 i)) (requestSpeedLastMillis s) /\
   requestSpeedLastMillis s' = millis (millis257 i)) \/
  (o_speedDue o = false /\
   requestSpeedLastMillis s' = requestSpeedLastMillis s).
Proof.
  intros H. destruct (loop_cadence _ _ _ _ H)
    as (s1 & s2 & s3 & s4 & a1 & a2 & a3 & a4 & _ & _ & E3 & _ & _
        & _ & (S1 & _ & S3 & _) & _).
  destruct (requestSpeed_cases _ _ _ _ _ E3) as (_ & _ & _ & C).
  destruct C as [(D & -> & _) | (D & P & Hl & _)].
  - right. split; [exact D | congruence].
  - left. rewrite <- S1. split; [exact D|]. split; [exact P | congruence].
Qed.

Lemma log_gate i s s' o : loop i s = Some (s', o) ->
  (logged o = true /\
   2000 <= ulong_sub (millis (millis308 i)) (lastEngineLog s) /\
   lastEngineLog s' = millis (millis309 i)) \/
  (logged o = false /\ lastEngineLog s' = lastEngineLog s).
Proof.
  intros H. destruct (loop_cadence _ _ _ _ H)
    as (s1 & s2 & s3 & s4 & a1 & a2 & a3 & a4 & Ea & E2 & E3 & E4 & E5
        & _ & _ & (L1 & L2)).
  unfold logged. rewrite Ea, !existsb_app.
  rewrite (requestRpm_quiet _ _ _ _ _ E2), (requestSpeed_quiet _ _ _ _ _ E3).
  assert (Q4 : existsb isLogEngine a4 = false).
  { destruct (fastPublish_frame _ _ _ _ E5)
      as (_ & _ & _ & _ & _ & [-> | ->]); reflexivity. }
  rewrite Q4, orb_false_r. cbn [orb].
  destruct (engineLog_cases _ _ _ _ E4)
    as [(-> & -> & _) | (P & -> & mr & ms & _ & _ & ->)].
  - right. split; [reflexivity | congruence].
  - left. split; [reflexivity|]. rewrite <- L1. split; [exact P|].
    rewrite L2. reflexivity.
Qed.

Lemma rpm_gate_other e s s' o :
  (forall i, e <> EvLoop i) -> step e s = Some (s', o) ->
  o_rpmDue o = false /\ requestRpmLastMillis s' = requestRpmLastMillis s.
Proof.
  intros Hne H. split; [apply (step_other _ _ _ _ Hne H)|].
  apply (step_other_timers _ _ _ _ Hne H).
Qed.

Lemma speed_gate_other e s s' o :
  (forall i, e <> EvLoop i) -> step e s = Some (s', o) ->
  o_speedDue o = false /\
  requestSpeedLastMillis s' = requestSpeedLastMillis s.
Proof.
  intros Hne H. split; [apply (step_other _ _ _ _ Hne H)|].
  apply (step_other_timers _ _ _ _ Hne H).
Qed.

Lemma log_gate_other e s s' o :
  (forall i, e <> EvLoop i) -> step e s = Some (s', o) ->
  logged o = false /\ lastEngineLog s' = lastEngineLog s.
Proof.
  intros Hne H. split; apply (step_other_timers _ _ _ _ Hne H).
Qed.

(** X3.  Request periods are at least 100 ms long: when the RPM (speed)
    request period ends in an iteration, every earlier end of an RPM
    (speed) request period stored its clock reading at least 100 ms of
    uptime before, and the n-th end since the start of the program is not
    before uptime 100 n ms.  So each quantity is requested, and a sample
    is recorded, at most ten times per second. *)
Theorem request_periods_spaced :
  forall (evs : list Event) (sj : State) outs (b : LoopInput) s' o,
  run evs init = Some (sj, outs) ->
  ascending 0 (clock (evs ++ [EvLoop b])) ->
  loop b sj = Some (s', o) ->
  (o_rpmDue o = true ->
   100 * (countSteps o_rpmDue outs + 1) <= millis205 b /\
   forall k a ok,
     nth_error evs k = Some (EvLoop a) -> nth_error outs k = Some ok ->
     o_rpmDue ok = true -> 100 <= millis205 b - millis206 a) /\
  (o_speedDue o = true ->
   100 * (countSteps o_speedDue outs + 1) <= millis256 b /\
   forall k a ok,
     nth_error evs k = Some (EvLoop a) -> nth_error outs k = Some ok ->
     o_speedDue ok = true -> 100 <= millis256 b - millis257 a).
Proof.
  intros evs sj outs b s' o Hrun Hasc Hloop. split; intros Hd.
  - apply (gate_spacing requestRpmLastMillis o_rpmDue millis205 millis206 100
             rpm_gate rpm_gate_other) with (s0 := init) (sj := sj) (s' := s')
                                           (o := o); auto.
    intros i L HA. cbn in HA. lia.
  - apply (gate_spacing requestSpeedLastMillis o_speedDue millis256 millis257
             100 speed_gate speed_gate_other)
      with (s0 := init) (sj := sj) (s' := s') (o := o); auto.
    intros i L HA. cbn in HA. lia.
Qed.

Lemma request_periods_spaced_witness :
  exists sj outs s' o,
    run demoDrive init = Some (sj, outs) /\
    loop (at_ms 600 true false None) sj = Some (s', o) /\
    o_rpmDue o = true /\
    100 * (countSteps o_rpmDue outs + 1) <= 600 /\
    100 <= 600 - 500.
Proof.
  destruct (run_total demoDrive init) as (sj & outs & E).
  destruct (loop_total (at_ms 600 true false None) sj) as (s' & o & E').
  exists sj, outs, s', o.
  pose proof E as C. vm_compute in C. injection C as Cs Co.
  pose proof E' as C'. rewrite <- Cs in C'. vm_compute in C'.
  injection C' as Cs' Co'.
  assert (D : o_rpmDue o = true) by (rewrite <- Co'; reflexivity).
  assert (A : ascending 0
                (clock (demoDrive ++ [EvLoop (at_ms 600 true false None)])))
    by (cbn; lia).
  split; [exact E|]. split; [exact E'|]. split; [exact D|].
  destruct (proj1 (request_periods_spaced _ _ _ _ _ _ E A E') D) as (N & H).
  split; [exact N|].
  apply (H 8%nat (at_ms 500 true false None)
           (mkOut false false true true false
              [SendMsgBuf 0x7DF obdRequestRPM;
               SendMsgBuf 0x7DF obdRequestSPEED])).
  - reflexivity.
  - rewrite <- Co. reflexivity.
  - reflexivity.
Defined.

(** X4.  The engine summary is written to the debug log at most once in
    2000 ms: when it is written in an iteration, every earlier writing
    stored its clock reading at least 2000 ms of uptime before, and the
    n-th writing since the start of the program is not before uptime
    2000 n ms. *)
Theorem debug_log_spaced :
  forall (evs : list Event) (sj : State) outs (b : LoopInput) s' o,
  run evs init = Some (sj, outs) ->
  ascending 0 (clock (evs ++ [EvLoop b])) ->
  loop b sj = Some (s', o) ->
  logged o = true ->
  2000 * (countSteps logged outs + 1) <= millis308 b /\
  forall k a ok,
    nth_error evs k = Some (EvLoop a) -> nth_error outs k = Some ok ->
    logged ok = true -> 2000 <= millis308 b - millis309 a.
Proof.
  intros evs sj outs b s' o Hrun Hasc Hloop Hd.
  apply (gate_spacing lastEngineLog logged millis308 millis309 2000
           log_gate log_gate_other) with (s0 := init) (sj := sj) (s' := s')
                                         (o := o); auto.
  intros i L HA. cbn in HA. lia.
Qed.

Lemma debug_log_spaced_witness :
  exists sj outs s' o,
    run demoPublish init = Some (sj, outs) /\
    loop (at_ms 4000 true true None) sj = Some (s', o) /\
    logged o = true /\
    2000 * (countSteps logged outs + 1) <= 4000 /\
    2000 <= 4000 - 2000.
Proof.
  destruct (run_total demoPublish init) as (sj & outs & E).
  destruct (loop_total (at_ms 4000 true true None) sj) as (s' & o & E').
  exists sj, outs, s', o.
  pose proof E as C. vm_compute in C. injection C as Cs Co.
  pose proof E' as C'. rewrite <- Cs in C'. vm_compute in C'.
  injection C' as Cs' Co'.
  assert (D : logged o = true) by (rewrite <- Co'; reflexivity).
  assert (A : ascending 0
                (clock (demoPublish ++ [EvLoop (at_ms 4000 true true None)])))
    by (cbn; lia).
  split; [exact E|]. split; [exact E'|]. split; [exact D|].
  destruct (debug_log_spaced _ _ _ _ _ _ E A E' D) as (N & H).
  split; [exact N|].
  destruct (nth_error outs 3) as [ok|] eqn:Hk;
    [|rewrite <- Co in Hk; discriminate Hk].
  assert (Hlog : logged ok = true).
  { rewrite <- Co in Hk. cbn in Hk. injection Hk as <-. reflexivity. }
  exact (H 3%nat (at_ms 2000 true true None) ok eq_refl Hk Hlog).
Defined.

(** ** Range of the samples and of their summary
       (lines 189-196, 221-229 and 311-312) *)

Lemma summed_zero B k : 0 <= k -> 0 <= B -> summed B k zeroStats.
Proof.
  intros Hk HB. exists 0, 0. cbn. repeat split; try lia; reflexivity.
Qed.

Lemma aggregate_summed B idle x k st :
  0 <= x <= B -> summed B k st -> summed B (k + 1) (aggregate idle x st).
Proof.
  intros Hx (c & S & Hc & En & Es & HS & Hm & HB & H0 & H1).
  unfold aggregate.
  destruct (Z.eqb_spec x 0) as [Hz | Hz];
    [| destruct (Z.ltb_spec x idle) as [Hlt | Hge]].
  - exists c, S. cbn. repeat split; try assumption; try lia; tauto.
  - exists c, S. cbn. repeat split; try assumption; try lia; tauto.
  - exists (c + 1), (S + x). unfold int_add.
    cbn [nonIdleSamples nonIdleSum nonIdleMin nonIdleMax].
    rewrite En, Es, !to_int_add_l.
    split; [lia|]. split; [reflexivity|]. split; [reflexivity|].
    destruct (Z.eq_dec c 0) as [C0 | C0].
    + specialize (H0 C0). assert (nonIdleMin st = 0) by lia.
      replace (nonIdleMin st =? 0) with true by (symmetry; now apply Z.eqb_eq).
      rewrite orb_true_r.
      replace (x >? nonIdleMax st) with true
        by (symmetry; apply Z.gtb_gt; lia).
      subst c. repeat split; lia.
    + assert (Hp : 0 < nonIdleMin st) by (apply H1; lia).
      replace (nonIdleMin st =? 0) with false
        by (symmetry; apply Z.eqb_neq; lia).
      rewrite orb_false_r.
      destruct (Z.ltb_spec x (nonIdleMin st));
        destruct (Z.gtb_spec x (nonIdleMax st));
        repeat split; try lia; nia.
Qed.

(** What an iteration records, and which sample: the one decoded in this
    iteration if a reply arrived, the one stored before otherwise. *)
Lemma loop_samples i s s' o : loop i s = Some (s', o) ->
  exists x y,
    (if o_rpmReply o
     then exists f, canMsg i = Some f /\ isRpmReply f = true /\
            x = (256 * byteAt (rxBuf f) 3 + byteAt (rxBuf f) 4) / 4
     else x = lastRPM s) /\
    (if o_speedReply o
     then exists f, canMsg i = Some f /\ isSpeedReply f = true /\
            y = byteAt (rxBuf f) 3
     else y = lastSPEED s) /\
    statsRPM s' =
      (if o_rpmDue o then aggregate (idleRPM s) x (statsRPM s)
       else statsRPM s) /\
    statsSPEED s' =
      (if o_speedDue o then aggregate (idleSPEED s) y (statsSPEED s)
       else statsSPEED s) /\
    lastRPM s' = (if o_rpmDue o then 0 else x) /\
    lastSPEED s' = (if o_speedDue o then 0 else y).
Proof.
  intros H.
  destruct (loop_blocks _ _ _ _ H)
    as (s1 & s2 & s3 & s4 & a1 & a2 & a3 & a4
        & E1 & E2 & E3 & E4 & E5 & _ & _).
  exists (lastRPM s1), (lastSPEED s1).
  assert (D : (if o_rpmReply o
               then exists f, canMsg i = Some f /\ isRpmReply f = true /\
                      lastRPM s1
                      = (256 * byteAt (rxBuf f) 3 + byteAt (rxBuf f) 4) / 4
               else lastRPM s1 = lastRPM s) /\
              (if o_speedReply o
               then exists f, canMsg i = Some f /\ isSpeedReply f = true /\
                      lastSPEED s1 = byteAt (rxBuf f) 3
               else lastSPEED s1 = lastSPEED s) /\
              statsRPM s1 = statsRPM s /\ statsSPEED s1 = statsSPEED s /\
              idleRPM s1 = idleRPM s /\ idleSPEED s1 = idleSPEED s).
  { destruct (canMsg i) as [f|].
    - destruct (handleCan_cases f s) as
        [(Hr & E) | [(Hr & Hs & E) | (Hr & Hs & E)]];
        rewrite E in E1; injection E1 as <- <- <-; fields.
      + split; [exists f; auto|]. auto.
      + split; [reflexivity|]. split; [exists f; auto|]. auto.
      + auto 7.
    - injection E1 as <- <- <-. auto 7. }
  destruct D as (D1 & D2 & D3 & D4 & D5 & D6).
  apply requestRpm_spec in E2.
  destruct E2 as (R1 & R2 & _ & _ & R5 & R6 & R7 & R8 & _).
  apply requestSpeed_spec in E3.
  destruct E3 as (S1 & S2 & _ & _ & S5 & S6 & S7 & S8 & _).
  destruct (engineLog_spec i s3)
    as (s4' & a3' & E4' & L1 & L2 & L3 & L4 & _).
  rewrite E4 in E4'. inversion E4'; subst s4' a3'; clear E4'.
  apply fastPublish_spec in E5.
  destruct E5 as (P1 & P2 & P3 & P4 & _).
  split; [exact D1|]. split; [exact D2|].
  assert (Hr : statsRPM s2 =
               (if o_rpmDue o then aggregate (idleRPM s) (lastRPM s1)
                                     (statsRPM s) else statsRPM s) /\
               lastRPM s2 = (if o_rpmDue o then 0 else lastRPM s1)).
  { destruct (o_rpmDue o).
    - destruct (R7 eq_refl) as (Ra & Rb). split; congruence.
    - rewrite (R8 eq_refl). auto. }
  assert (Hs : statsSPEED s3 =
               (if o_speedDue o then aggregate (idleSPEED s) (lastSPEED s1)
                                       (statsSPEED s) else statsSPEED s) /\
               lastSPEED s3 = (if o_speedDue o then 0 else lastSPEED s1)).
  { destruct (o_speedDue o).
    - destruct (S7 eq_refl) as (Sa & Sb). split; congruence.
    - rewrite (S8 eq_refl). split; congruence. }
  destruct Hr as (Hr1 & Hr2). destruct Hs as (Hs1 & Hs2).
  repeat split; congruence.
Qed.

Lemma decoded_rpm_range (f : CanFrame) :
  0 <= (256 * byteAt (rxBuf f) 3 + byteAt (rxBuf f) 4) / 4 <= 16383.
Proof. apply rpm_value. Qed.

Lemma step_summed_other e s s' o kr ks :
  (forall i, e <> EvLoop i) -> step e s = Some (s', o) ->
  0 <= lastRPM s <= 16383 -> 0 <= lastSPEED s <= 255 ->
  summed 16383 kr (statsRPM s) -> summed 255 ks (statsSPEED s) ->
  0 <= lastRPM s' <= 16383 /\ 0 <= lastSPEED s' <= 255 /\
  summed 16383 (if o_reset o then 0 else kr + Z.b2z (o_rpmDue o))
    (statsRPM s') /\
  summed 255 (if o_reset o then 0 else ks + Z.b2z (o_speedDue o))
    (statsSPEED s').
Proof.
  intros Hne H Lr Ls Cr Cs.
  destruct (step_other _ _ _ _ Hne H)
    as (E1 & _ & -> & -> & _ & _ & Hst & _).
  destruct (step_other_timers _ _ _ _ Hne H) as (_ & _ & _ & E2 & _).
  rewrite E1, E2. split; [exact Lr|]. split; [exact Ls|].
  destruct Hst as [(-> & -> & ->) | (-> & -> & ->)].
  - split; apply summed_zero; lia.
  - cbn [Z.b2z]. now rewrite !Z.add_0_r.
Qed.

Lemma step_summed e s s' o kr ks : step e s = Some (s', o) ->
  0 <= lastRPM s <= 16383 -> 0 <= lastSPEED s <= 255 ->
  summed 16383 kr (statsRPM s) -> summed 255 ks (statsSPEED s) ->
  0 <= lastRPM s' <= 16383 /\ 0 <= lastSPEED s' <= 255 /\
  summed 16383 (if o_reset o then 0 else kr + Z.b2z (o_rpmDue o))
    (statsRPM s') /\
  summed 255 (if o_reset o then 0 else ks + Z.b2z (o_speedDue o))
    (statsSPEED s').
Proof.
  intros H Lr Ls Cr Cs.
  assert (Kr : 0 <= kr) by (destruct Cr as (c & S & ? & _); lia).
  assert (Ks : 0 <= ks) by (destruct Cs as (c & S & ? & _); lia).
  destruct e as [i | | c v].
  - pose proof (loop_blocks _ _ _ _ H) as B.
    destruct B as (_ & _ & _ & _ & _ & _ & _ & _
                   & _ & _ & _ & _ & _ & _ & ->).
    destruct (loop_samples _ _ _ _ H)
      as (x & y & Hx & Hy & Er & Es & Elr & Els).
    assert (Rx : 0 <= x <= 16383).
    { destruct (o_rpmReply o); [|now subst x].
      destruct Hx as (f & _ & _ & ->). apply decoded_rpm_range. }
    assert (Ry : 0 <= y <= 255).
    { destruct (o_speedReply o); [|now subst y].
      destruct Hy as (f & _ & _ & ->). unfold byteAt.
      pose proof (u8_range (nth 3 (rxBuf f) x00)). lia. }
    rewrite Er, Es, Elr, Els.
    destruct (o_rpmDue o), (o_speedDue o); cbn [Z.b2z];
      rewrite ?Z.add_0_r;
      repeat split; try lia; try assumption;
      try (apply aggregate_summed; assumption).
  - apply (step_summed_other EvLocation s); auto. discriminate.
  - apply (step_summed_other (EvConfig c v) s); auto. discriminate.
Qed.

Lemma run_summed evs : forall s s' outs kr ks,
  run evs s = Some (s', outs) ->
  0 <= lastRPM s <= 16383 -> 0 <= lastSPEED s <= 255 ->
  summed 16383 kr (statsRPM s) -> summed 255 ks (statsSPEED s) ->
  0 <= lastRPM s' <= 16383 /\ 0 <= lastSPEED s' <= 255 /\
  summed 16383 (periodsFrom o_rpmDue kr outs) (statsRPM s') /\
  summed 255 (periodsFrom o_speedDue ks outs) (statsSPEED s').
Proof.
  induction evs as [| e evs IH]; intros s s' outs kr ks H Lr Ls Cr Cs.
  - cbn in H. inversion H; subst. cbn. auto.
  - apply run_cons in H. destruct H as (s1 & o & outs' & E & H & ->).
    destruct (step_summed _ _ _ _ _ _ E Lr Ls Cr Cs)
      as (Lr1 & Ls1 & Cr1 & Cs1).
    exact (IH _ _ _ _ _ H Lr1 Ls1 Cr1 Cs1).
Qed.

Lemma summed_range B k st : summed B k st ->
  0 <= nonIdleMin st <= nonIdleMax st /\ nonIdleMax st <= B /\
  (nonIdleMin st = 0 <-> nonIdleMax st = 0).
Proof.
  intros (c & S & Hc & _ & _ & _ & Hm & HB & H0 & H1).
  split; [exact Hm|]. split; [exact HB|]. split; intros Hz.
  - apply H0. destruct (Z.eq_dec c 0); [assumption|].
    assert (0 < nonIdleMin st) by (apply H1; lia). lia.
  - lia.
Qed.

(** Without overflow of the sum, the mean lies between minimum and
    maximum. *)
Lemma summed_mean B k st : summed B k st ->
  k * nonIdleMax st < 2 ^ 31 -> nonIdleSamples st <> 0 ->
  exists m, nonIdleMean st = Some m /\
            nonIdleMin st <= m <= nonIdleMax st /\
            m = nonIdleSum st / nonIdleSamples st.
Proof.
  intros (c & S & Hc & En & Es & HS & Hm & HB & H0 & H1) Hk Hn.
  assert (Cp : 0 < c).
  { destruct (Z.eq_dec c 0) as [-> | ]; [|lia]. now rewrite En in Hn. }
  assert (Mp : 0 < nonIdleMin st) by auto.
  assert (Sk : 0 <= S < 2 ^ 31) by nia.
  assert (Ck : c < 2 ^ 31) by nia.
  rewrite to_int_id in En, Es by (unfold in_int, INT_MIN, INT_MAX; lia).
  rewrite (nonIdleMean_nonzero st Hn), En, Es.
  rewrite Z.quot_div_nonneg by lia.
  assert (Q : nonIdleMin st <= S / c <= nonIdleMax st).
  { split.
    - apply Z.div_le_lower_bound; lia.
    - apply Z.lt_succ_r, Z.div_lt_upper_bound; nia. }
  assert (Mk : nonIdleMax st < 2 ^ 31) by nia.
  exists (S / c). split; [|auto].
  f_equal. apply to_int_id. unfold in_int, INT_MIN, INT_MAX. lia.
Qed.

(** X5.  In every state the program reaches, the stored samples and the
    recorded extremes are within the range of the decoder: [lastRPM],
    [nonIdleMinRPM] and [nonIdleMaxRPM] lie between 0 and 16383,
    [lastSPEED], [nonIdleMinSPEED] and [nonIdleMaxSPEED] between 0 and
    255; the minimum never exceeds the maximum, and one is 0 exactly when
    the other is. *)
Theorem samples_and_extremes_in_range :
  forall (evs : list Event) (s : State) outs,
  run evs init = Some (s, outs) ->
  0 <= lastRPM s <= 16383 /\ 0 <= lastSPEED s <= 255 /\
  (0 <= nonIdleMinRPM s <= nonIdleMaxRPM s /\ nonIdleMaxRPM s <= 16383 /\
   (nonIdleMinRPM s = 0 <-> nonIdleMaxRPM s = 0)) /\
  (0 <= nonIdleMinSPEED s <= nonIdleMaxSPEED s /\
   nonIdleMaxSPEED s <= 255 /\
   (nonIdleMinSPEED s = 0 <-> nonIdleMaxSPEED s = 0)).
Proof.
  intros evs s outs H.
  destruct (run_summed evs init s outs 0 0 H) as (Lr & Ls & Cr & Cs);
    try (cbn; lia); try (apply summed_zero; lia).
  split; [exact Lr|]. split; [exact Ls|].
  split; [exact (summed_range _ _ _ Cr) | exact (summed_range _ _ _ Cs)].
Qed.

Lemma samples_and_extremes_in_range_witness :
  exists s outs,
    run demoDrive init = Some (s, outs) /\
    nonIdleMinRPM s = 1600 /\ nonIdleMaxRPM s = 2400 /\
    0 <= nonIdleMinRPM s <= nonIdleMaxRPM s.
Proof.
  destruct (run_total demoDrive init) as (s & outs & E).
  exists s, outs. split; [exact E|].
  pose proof E as C. vm_compute in C. injection C as Cs Co.
  split; [rewrite <- Cs; reflexivity|].
  split; [rewrite <- Cs; reflexivity|].
  apply (samples_and_extremes_in_range demoDrive s outs E).
Defined.

(** X6.  As long as the sum of the samples above idle cannot have
    overflowed (the number of request periods since the last reset times
    the recorded maximum is below 2^31), the mean that the debug log and
    the location callback compute is the exact quotient and lies between
    the recorded minimum and maximum. *)
Theorem mean_between_extremes :
  forall (evs : list Event) (s : State) outs,
  run evs init = Some (s, outs) ->
  (periods o_rpmDue outs * nonIdleMaxRPM s < 2 ^ 31 ->
   nonIdleSamplesRPM s <> 0 ->
   exists m, nonIdleMean (statsRPM s) = Some m /\
             nonIdleMinRPM s <= m <= nonIdleMaxRPM s /\
             m = nonIdleSumRPM s / nonIdleSamplesRPM s) /\
  (periods o_speedDue outs * nonIdleMaxSPEED s < 2 ^ 31 ->
   nonIdleSamplesSPEED s <> 0 ->
   exists m, nonIdleMean (statsSPEED s) = Some m /\
             nonIdleMinSPEED s <= m <= nonIdleMaxSPEED s /\
             m = nonIdleSumSPEED s / nonIdleSamplesSPEED s).
Proof.
  intros evs s outs H.
  destruct (run_summed evs init s outs 0 0 H) as (Lr & Ls & Cr & Cs);
    try (cbn; lia); try (apply summed_zero; lia).
  split; intros Hk Hn.
  - exact (summed_mean _ _ _ Cr Hk Hn).
  - exact (summed_mean _ _ _ Cs Hk Hn).
Qed.

Lemma mean_between_extremes_witness :
  exists s outs m,
    run demoDrive init = Some (s, outs) /\
    nonIdleMean (statsRPM s) = Some m /\ 1600 <= m <= 2400.
Proof.
  destruct (run_total demoDrive init) as (s & outs & E).
  pose proof E as C. vm_compute in C. injection C as Cs Co.
  destruct (proj1 (mean_between_extremes demoDrive s outs E))
    as (m & Hm & Hr & _).
  - rewrite <- Cs, <- Co. vm_compute. reflexivity.
  - rewrite <- Cs. discriminate.
  - exists s, outs, m. split; [exact E|]. split; [exact Hm|].
    rewrite <- Cs in Hr. exact Hr.
Defined.

(** ** Durations (lines 315-317 and 349-351) *)

Lemma seconds_tenths n : 0 <= n < 42949673 -> seconds n 100 = n / 10.
Proof.
  intros Hn. unfold seconds, ulong_mul, to_ulong, ULONG_MOD.
  rewrite (Z.mod_small n) by lia. rewrite Z.mod_small by lia.
  change 1000 with (10 * 100). rewrite Z.div_mul_cancel_r by lia.
  apply to_int_id. unfold in_int, INT_MIN, INT_MAX.
  assert (0 <= n / 10 <= 4294967); [|lia].
  split; [apply Z.div_pos; lia|].
  apply Z.lt_succ_r, Z.div_lt_upper_bound; lia.
Qed.

Lemma counted_bounds k st : counted k st -> k < 2 ^ 31 ->
  0 <= offSamples st <= k /\ 0 <= idleSamples st <= k /\
  0 <= nonIdleSamples st <= k /\
  offSamples st + idleSamples st + nonIdleSamples st = numSamples st.
Proof.
  intros (a & b & c & Ha & Hb & Hc & Hk & -> & -> & -> & -> & _) Hlt.
  rewrite !to_int_id by (unfold in_int, INT_MIN, INT_MAX; lia). lia.
Qed.

(** X7.  The durations in the location publish are the sample counts in
    tenths, rounded down (ten samples per second): engineOff, engineIdle
    and engineNonIdle are [offSamplesRPM / 10], [idleSamplesRPM / 10] and
    [nonIdleSamplesRPM / 10], and together they fall short of
    [numSamplesRPM / 10] by at most 2.  This holds while fewer than
    42949673 request periods have passed since the last reset; at that
    count the unsigned product [samples * 100] wraps and the conversion
    gives 0. *)
Theorem reported_durations :
  forall (evs : list Event) (s : State) outs,
  run evs init = Some (s, outs) ->
  periods o_rpmDue outs < 42949673 ->
  (exists s' acts,
     myLocationGenerationCallback s = Some (s', acts) /\
     In (WriterValue "engineOff" (offSamplesRPM s / 10)) acts /\
     In (WriterValue "engineIdle" (idleSamplesRPM s / 10)) acts /\
     In (WriterValue "engineNonIdle" (nonIdleSamplesRPM s / 10)) acts) /\
  offSamplesRPM s / 10 + idleSamplesRPM s / 10 + nonIdleSamplesRPM s / 10
    <= numSamplesRPM s / 10
    <= offSamplesRPM s / 10 + idleSamplesRPM s / 10
       + nonIdleSamplesRPM s / 10 + 2 /\
  seconds 42949673 requestRpmPeriod = 0.
Proof.
  intros evs s outs H Hlt.
  destruct (run_counted evs init s outs 0 0 H) as (Cr & _);
    try (apply counted_zero; lia).
  destruct (counted_bounds _ _ Cr) as (Bo & Bi & Bn & Esum);
    [change (periodsFrom o_rpmDue 0 outs) with (periods o_rpmDue outs); lia|].
  change (periodsFrom o_rpmDue 0 outs) with (periods o_rpmDue outs) in *.
  split; [|split; [|reflexivity]].
  - destruct (callback_spec s) as (mr & ms & _ & _ & E).
    do 2 eexists. split; [exact E|].
    unfold offSamplesRPM, idleSamplesRPM, nonIdleSamplesRPM.
    rewrite !seconds_tenths by lia. cbn [In]. auto 6.
  - unfold offSamplesRPM, idleSamplesRPM, nonIdleSamplesRPM, numSamplesRPM.
    rewrite <- Esum. Z.div_mod_to_equations. lia.
Qed.

Lemma reported_durations_witness :
  exists s outs s' acts,
    run demoDrive init = Some (s, outs) /\
    myLocationGenerationCallback s = Some (s', acts) /\
    In (WriterValue "engineNonIdle" (3 / 10)) acts.
Proof.
  destruct (run_total demoDrive init) as (s & outs & E).
  pose proof E as C. vm_compute in C. injection C as Cs Co.
  destruct (reported_durations demoDrive s outs E)
    as ((s' & acts & Ec & _ & _ & Hn) & _).
  - rewrite <- Co. vm_compute. reflexivity.
  - exists s, outs, s', acts. split; [exact E|]. split; [exact Ec|].
    rewrite <- Cs in Hn. exact Hn.
Defined.

(** ** From a reply to the statistics (lines 188-199, 205-234, 256-286) *)

Lemma step_keeps_samples e s s' o : step e s = Some (s', o) ->
  (o_rpmReply o = false ->
   lastRPM s' = (if o_rpmDue o then 0 else lastRPM s)) /\
  (o_speedReply o = false ->
   lastSPEED s' = (if o_speedDue o then 0 else lastSPEED s)).
Proof.
  intros H. destruct e as [i | | c v].
  - destruct (loop_samples _ _ _ _ H) as (x & y & Hx & Hy & _ & _ & Er & Es).
    split; intros Hr; rewrite Hr in *; cbv iota in *;
      [subst x; exact Er | subst y; exact Es].
  - assert (Hne : forall i, EvLocation <> EvLoop i) by discriminate.
    destruct (step_other _ _ _ _ Hne H) as (E1 & _ & -> & -> & _).
    destruct (step_other_timers _ _ _ _ Hne H) as (_ & _ & _ & E2 & _).
    auto.
  - assert (Hne : forall i, EvConfig c v <> EvLoop i) by discriminate.
    destruct (step_other _ _ _ _ Hne H) as (E1 & _ & -> & -> & _).
    destruct (step_other_timers _ _ _ _ Hne H) as (_ & _ & _ & E2 & _).
    auto.
Qed.

Lemma run_keeps_samples evs : forall s s1 outs,
  run evs s = Some (s1, outs) ->
  (noRpmReply outs = true ->
   (lastRPM s = 0 -> lastRPM s1 = 0) /\
   (noRpmPeriodEnd outs = true -> lastRPM s1 = lastRPM s)) /\
  (noSpeedReply outs = true ->
   (lastSPEED s = 0 -> lastSPEED s1 = 0) /\
   (noSpeedPeriodEnd outs = true -> lastSPEED s1 = lastSPEED s)).
Proof.
  induction evs as [| e evs IH]; intros s s1 outs H.
  - cbn in H. inversion H; subst. auto.
  - apply run_cons in H. destruct H as (s' & o & outs' & E & H & ->).
    destruct (step_keeps_samples _ _ _ _ E) as (Kr & Ks).
    destruct (IH _ _ _ H) as (IHr & IHs).
    unfold noRpmReply, noSpeedReply, noRpmPeriodEnd, noSpeedPeriodEnd in *.
    cbn [forallb]. rewrite !andb_true_iff, !negb_true_iff.
    split; intros (Hr & Hrs).
    + destruct (IHr Hrs) as (Z0 & Zk). specialize (Kr Hr). split.
      * intros Hz. apply Z0. rewrite Kr. now destruct (o_rpmDue o).
      * intros (Hd & Hds). rewrite (Zk Hds), Kr, Hd. reflexivity.
    + destruct (IHs Hrs) as (Z0 & Zk). specialize (Ks Hr). split.
      * intros Hz. apply Z0. rewrite Ks. now destruct (o_speedDue o).
      * intros (Hd & Hds). rewrite (Zk Hds), Ks, Hd. reflexivity.
Qed.

Lemma loop_records i s s' o : loop i s = Some (s', o) ->
  (o_rpmDue o = true -> lastRPM s' = 0) /\
  (o_speedDue o = true -> lastSPEED s' = 0) /\
  (o_rpmDue o = true -> o_rpmReply o = false ->
   statsRPM s' = aggregate (idleRPM s) (lastRPM s) (statsRPM s)) /\
  (o_speedDue o = true -> o_speedReply o = false ->
   statsSPEED s' = aggregate (idleSPEED s) (lastSPEED s) (statsSPEED s)).
Proof.
  intros H.
  destruct (loop_samples _ _ _ _ H) as (x & y & Hx & Hy & Sr & Ss & Er & Es).
  split; [intros Hd; now rewrite Er, Hd|].
  split; [intros Hd; now rewrite Es, Hd|].
  split; intros Hd Hr; rewrite Hr, Hd in *; cbv iota in *;
    [subst x; exact Sr | subst y; exact Ss].
Qed.

(** X8.  A request period in which no reply arrived is recorded as off.
    After the program start or the end of an RPM request period, when no
    frame of the RPM shape arrives until an iteration in which the RPM
    request period ends, that iteration increments [numSamplesRPM] and
    [offSamplesRPM] and leaves the other RPM statistics alone; the same
    holds for the speed. *)
Theorem period_without_reply_is_off :
  forall (s : State) (evs : list Event) (s1 : State) outs
         (b : LoopInput) (s2 : State) (o : Out),
  run evs s = Some (s1, outs) ->
  loop b s1 = Some (s2, o) ->
  (s = init \/
   (exists a s0 oa, loop a s0 = Some (s, oa) /\ o_rpmDue oa = true) ->
   noRpmReply outs = true -> o_rpmReply o = false -> o_rpmDue o = true ->
   statsRPM s2 =
     mkStats (int_add (numSamplesRPM s1) 1) (int_add (offSamplesRPM s1) 1)
       (idleSamplesRPM s1) (nonIdleSamplesRPM s1) (nonIdleSumRPM s1)
       (nonIdleMinRPM s1) (nonIdleMaxRPM s1)) /\
  (s = init \/
   (exists a s0 oa, loop a s0 = Some (s, oa) /\ o_speedDue oa = true) ->
   noSpeedReply outs = true -> o_speedReply o = false ->
   o_speedDue o = true ->
   statsSPEED s2 =
     mkStats (int_add (numSamplesSPEED s1) 1)
       (int_add (offSamplesSPEED s1) 1)
       (idleSamplesSPEED s1) (nonIdleSamplesSPEED s1) (nonIdleSumSPEED s1)
       (nonIdleMinSPEED s1) (nonIdleMaxSPEED s1)).
Proof.
  intros s evs s1 outs b s2 o Hrun Hloop.
  destruct (run_keeps_samples _ _ _ _ Hrun) as (Kr & Ks).
  destruct (loop_records _ _ _ _ Hloop) as (_ & _ & Rr & Rs).
  split; intros Hs Hq Hr Hd.
  - assert (Z0 : lastRPM s = 0).
    { destruct Hs as [-> | (a & s0 & oa & Ha & Hda)]; [reflexivity|].
      now apply (loop_records _ _ _ _ Ha). }
    rewrite (Rr Hd Hr), (proj1 (Kr Hq) Z0). reflexivity.
  - assert (Z0 : lastSPEED s = 0).
    { destruct Hs as [-> | (a & s0 & oa & Ha & Hda)]; [reflexivity|].
      now apply (loop_records _ _ _ _ Ha). }
    rewrite (Rs Hd Hr), (proj1 (Ks Hq) Z0). reflexivity.
Qed.

Lemma period_without_reply_is_off_witness :
  exists s1 outs s2 o,
    run [EvLoop (at_ms 100 true false None);
         EvLoop (at_ms 150 true false (Some (speedFrame x5a)))] init
      = Some (s1, outs) /\
    loop (at_ms 200 true false None) s1 = Some (s2, o) /\
    statsRPM s2 = mkStats 2 2 0 0 0 0 0 /\
    statsSPEED s2 = mkStats 2 1 0 1 90 90 90.
Proof.
  destruct (run_total
              [EvLoop (at_ms 100 true false None);
               EvLoop (at_ms 150 true false (Some (speedFrame x5a)))] init)
    as (s1 & outs & E).
  destruct (loop_total (at_ms 200 true false None) s1) as (s2 & o & E').
  exists s1, outs, s2, o.
  pose proof E as C. vm_compute in C. injection C as Cs Co.
  pose proof E' as C'. rewrite <- Cs in C'. vm_compute in C'.
  injection C' as Cs' Co'.
  split; [exact E|]. split; [exact E'|].
  split; [|rewrite <- Cs'; reflexivity].
  rewrite (proj1 (period_without_reply_is_off _ _ _ _ _ _ _ E E')).
  - rewrite <- Cs. reflexivity.
  - now left.
  - rewrite <- Co. reflexivity.
  - rewrite <- Co'. reflexivity.
  - rewrite <- Co'. reflexivity.
Defined.

Lemma speed_reply_not_rpm f : isSpeedReply f = true -> isRpmReply f = false.
Proof.
  unfold isSpeedReply, isRpmReply. rewrite !andb_true_iff.
  intros (((_ & H0) & _) & _). apply Z.eqb_eq in H0. rewrite H0.
  now rewrite andb_false_r.
Qed.

Lemma loop_reply i s s' o f : loop i s = Some (s', o) ->
  canMsg i = Some f ->
  (isRpmReply f = true -> o_rpmReply o = true) /\
  (isSpeedReply f = true -> o_speedReply o = true).
Proof.
  intros H Hf.
  destruct (loop_blocks _ _ _ _ H)
    as (s1 & s2 & s3 & s4 & a1 & a2 & a3 & a4 & E1 & _).
  rewrite Hf in E1. split; intros Hr.
  - rewrite (handleCan_rpm f s Hr) in E1. now injection E1.
  - rewrite (handleCan_speed f s (speed_reply_not_rpm f Hr) Hr) in E1.
    now injection E1.
Qed.

(** X9.  The sample recorded at the end of a request period is the one of
    the latest reply.  A frame of the RPM shape whose iteration ends the
    RPM request period is recorded in that iteration; otherwise, when no
    further frame of the RPM shape arrives, it is recorded with its value
    [((rxBuf[3] << 8) | rxBuf[4]) / 4] by the next iteration that ends the
    RPM request period.  The same holds for a frame of the speed shape
    and its value [rxBuf[3]]. *)
Theorem latest_reply_is_recorded :
  forall (a : LoopInput) (s0 s : State) (oa : Out) (f : CanFrame)
         (evs : list Event) (s1 : State) outs
         (b : LoopInput) (s2 : State) (o : Out),
  loop a s0 = Some (s, oa) -> canMsg a = Some f ->
  run evs s = Some (s1, outs) -> loop b s1 = Some (s2, o) ->
  (isRpmReply f = true ->
   (o_rpmDue oa = true ->
    statsRPM s =
      aggregate (idleRPM s0)
        ((256 * byteAt (rxBuf f) 3 + byteAt (rxBuf f) 4) / 4)
        (statsRPM s0)) /\
   (o_rpmDue oa = false ->
    noRpmReply outs = true -> noRpmPeriodEnd outs = true ->
    o_rpmReply o = false -> o_rpmDue o = true ->
    statsRPM s2 =
      aggregate (idleRPM s1)
        ((256 * byteAt (rxBuf f) 3 + byteAt (rxBuf f) 4) / 4)
        (statsRPM s1))) /\
  (isSpeedReply f = true ->
   (o_speedDue oa = true ->
    statsSPEED s =
      aggregate (idleSPEED s0) (byteAt (rxBuf f) 3) (statsSPEED s0)) /\
   (o_speedDue oa = false ->
    noSpeedReply outs = true -> noSpeedPeriodEnd outs = true ->
    o_speedReply o = false -> o_speedDue o = true ->
    statsSPEED s2 =
      aggregate (idleSPEED s1) (byteAt (rxBuf f) 3) (statsSPEED s1))).
Proof.
  intros a s0 s oa f evs s1 outs b s2 o Ha Hf Hrun Hb.
  destruct (loop_reply _ _ _ _ _ Ha Hf) as (Pr & Ps).
  destruct (loop_samples _ _ _ _ Ha) as (x & y & Hx & Hy & Sr & Ss & Er & Es).
  destruct (run_keeps_samples _ _ _ _ Hrun) as (Kr & Ks).
  destruct (loop_records _ _ _ _ Hb) as (_ & _ & Rr & Rs).
  split; intros Hshape.
  - rewrite (Pr Hshape) in Hx. destruct Hx as (f' & Hf' & _ & ->).
    rewrite Hf in Hf'. injection Hf' as <-.
    split; intros Hd; rewrite Hd in *; [exact Sr|].
    intros Hq Hn Hr Hdb.
    rewrite (Rr Hdb Hr), (proj2 (Kr Hq) Hn), Er. reflexivity.
  - rewrite (Ps Hshape) in Hy. destruct Hy as (f' & Hf' & _ & ->).
    rewrite Hf in Hf'. injection Hf' as <-.
    split; intros Hd; rewrite Hd in *; [exact Ss|].
    intros Hq Hn Hr Hdb.
    rewrite (Rs Hdb Hr), (proj2 (Ks Hq) Hn), Es. reflexivity.
Qed.

Lemma latest_reply_is_recorded_witness :
  exists s s1 s2 oa outs o,
    loop (at_ms 150 true false (Some (rpmFrame x1f x40)))
      (set_requestRpmLastMillis 100 init) = Some (s, oa) /\
    run [EvLoop (at_ms 170 true false (Some (speedFrame x5a)))] s
      = Some (s1, outs) /\
    loop (at_ms 200 true false None) s1 = Some (s2, o) /\
    statsRPM s2 = mkStats 1 0 0 1 2000 2000 2000.
Proof.
  destruct (loop_total (at_ms 150 true false (Some (rpmFrame x1f x40)))
              (set_requestRpmLastMillis 100 init)) as (s & oa & Ea).
  destruct (run_total
              [EvLoop (at_ms 170 true false (Some (speedFrame x5a)))] s)
    as (s1 & outs & E).
  destruct (loop_total (at_ms 200 true false None) s1) as (s2 & o & Eb).
  exists s, s1, s2, oa, outs, o.
  pose proof Ea as Ca. vm_compute in Ca. injection Ca as Cs Coa.
  pose proof E as C. rewrite <- Cs in C. vm_compute in C.
  injection C as Cs1 Co.
  pose proof Eb as Cb. rewrite <- Cs1 in Cb. vm_compute in Cb.
  injection Cb as Cs2 Cob.
  split; [exact Ea|]. split; [exact E|]. split; [exact Eb|].
  destruct (proj1 (latest_reply_is_recorded _ _ _ _ (rpmFrame x1f x40)
                     _ _ _ _ _ _ Ea eq_refl E Eb) eq_refl) as (_ & H).
  rewrite H.
  - rewrite <- Cs1. reflexivity.
  - rewrite <- Coa. reflexivity.
  - rewrite <- Co. reflexivity.
  - rewrite <- Co. reflexivity.
  - rewrite <- Cob. reflexivity.
  - rewrite <- Cob. reflexivity.
Defined.

(** ** When the trigger fires (lines 330-340) *)

Lemma ulong_sub_mod later earlier :
  ulong_sub (to_ulong later) (to_ulong earlier) = (later - earlier) mod 2 ^ 32.
Proof.
  unfold ulong_sub, to_ulong, ULONG_MOD. now rewrite <- Zminus_mod.
Qed.

(** X10.  With the device connected, the RPM sample that the check sees at
    least the idle threshold and a positive publish period, the trigger
    fires exactly when the time since [lastFastPublish], taken modulo
    2^32 ms, is at least the period.  In particular it fires when at
    least the period and less than 2^32 ms have passed; it then sets
    [lastFastPublish] to the clock and logs the publish. *)
Theorem trigger_fires_when_due :
  forall (b : LoopInput) (s s' : State) (o : Out) (L : Z),
  loop b s = Some (s', o) ->
  connected b = true -> idleRPM s <= lastRPM s' ->
  0 < fastPublishPeriod s < 2 ^ 31 ->
  lastFastPublish s = to_ulong L ->
  (In TriggerLocPub (o_actions o) <->
   fastPublishPeriod s <= (millis334 b - L) mod 2 ^ 32) /\
  (fastPublishPeriod s <= millis334 b - L < 2 ^ 32 ->
   In TriggerLocPub (o_actions o) /\
   In (LogPublish (lastRPM s') (idleRPM s) (fastPublishPeriod s))
      (o_actions o) /\
   lastFastPublish s' = millis (millis335 b)).
Proof.
  intros b s s' o L H Hc Hr Hp HL.
  apply loop_summary in H.
  destruct H as (_ & _ & _ & _ & _ & _ & _ & T).
  rewrite HL in T. unfold millis in T. rewrite ulong_sub_mod in T.
  rewrite to_ulong_id in T by lia.
  unfold fired in T.
  assert (Hiff : In TriggerLocPub (o_actions o) <->
                 fastPublishPeriod s <= (millis334 b - L) mod 2 ^ 32).
  { destruct T as [(F & _ & _ & _ & P & _) | (F & _ & N)].
    - tauto.
    - split; [contradiction|]. intros P. destruct N.
      repeat split; first [assumption | lia]. }
  split; [exact Hiff|].
  intros Hel. rewrite Z.mod_small in Hiff by lia.
  destruct T as [(F & _ & _ & _ & _ & Hl & Hlog) | (F & _)].
  - auto.
  - destruct F. apply Hiff. lia.
Qed.

Lemma trigger_fires_when_due_witness :
  exists s' o,
    loop (at_ms 60050 true true (Some (rpmFrame x25 x80)))
      (set_requestRpmLastMillis 60000 init) = Some (s', o) /\
    In TriggerLocPub (o_actions o) /\ lastFastPublish s' = 60050.
Proof.
  destruct (loop_total (at_ms 60050 true true (Some (rpmFrame x25 x80)))
              (set_requestRpmLastMillis 60000 init)) as (s' & o & E).
  exists s', o. split; [exact E|].
  pose proof E as C. vm_compute in C. injection C as Cs Co.
  destruct (proj2 (trigger_fires_when_due _ _ _ _ 0 E eq_refl
                     ltac:(rewrite <- Cs; cbn; lia)
                     ltac:(cbn; lia) eq_refl))
    as (F & _ & Hl).
  - cbn. lia.
  - split; [exact F | exact Hl].
Defined.

(** ** The debug log and the location publish (lines 311-326, 346-359) *)

Lemma not_logEngine acts what off idle nonIdle mn mean mx :
  existsb isLogEngine acts = false ->
  ~ In (LogEngine what off idle nonIdle mn mean mx) acts.
Proof.
  intros H Hin.
  assert (E : existsb isLogEngine acts = true)
    by (apply existsb_exists; eexists; split; [exact Hin | reflexivity]).
  congruence.
Qed.

(** X11.  The debug log reads the statistics without resetting them, and
    reports what a location publish would: when an iteration writes the
    RPM line of the engine summary, it also writes the speed line, and
    the location callback called right after the iteration writes the
    same off, idle and non-idle durations and the same minimum, mean and
    maximum of RPM and of speed. *)
Theorem debug_log_matches_publish :
  forall (i : LoopInput) (s s' : State) (o : Out)
         (off idle nonIdle mn mean mx : Z),
  loop i s = Some (s', o) ->
  In (LogEngine "RPM" off idle nonIdle mn mean mx) (o_actions o) ->
  exists soff sidle snonIdle smn smean smx s2,
    In (LogEngine "SPEED" soff sidle snonIdle smn smean smx) (o_actions o) /\
    myLocationGenerationCallback s' =
      Some (s2,
        [ WriterValue "engineOff" off;
          WriterValue "engineIdle" idle;
          WriterValue "engineNonIdle" nonIdle;
          WriterValue "engineRpmMin" mn;
          WriterValue "engineRpmMean" mean;
          WriterValue "engineRpmMax" mx;
          WriterValue "engineSpeedMin" smn;
          WriterValue "engineSpeedMean" smean;
          WriterValue "engineSpeedMax" smx ]) /\
    nonIdleMinRPM s' = mn /\ nonIdleMaxRPM s' = mx /\
    nonIdleMinSPEED s' = smn /\ nonIdleMaxSPEED s' = smx.
Proof.
  intros i s s' o off idle nonIdle mn mean mx H Hin.
  destruct (loop_cadence _ _ _ _ H)
    as (s1 & s2 & s3 & s4 & a1 & a2 & a3 & a4 & Ea & E2 & E3 & E4 & E5 & _).
  rewrite Ea, !in_app_iff in Hin.
  pose proof (fastPublish_spec _ _ _ _ E5) as (_ & _ & P3 & P4 & _).
  assert (Q4 : existsb isLogEngine a4 = false).
  { destruct (fastPublish_frame _ _ _ _ E5)
      as (_ & _ & _ & _ & _ & [-> | ->]); reflexivity. }
  destruct Hin as [Hin | [Hin | [Hin | Hin]]].
  - now destruct (not_logEngine _ _ _ _ _ _ _ _
                    (requestRpm_quiet _ _ _ _ _ E2) Hin).
  - now destruct (not_logEngine _ _ _ _ _ _ _ _
                    (requestSpeed_quiet _ _ _ _ _ E3) Hin).
  - destruct (engineLog_cases _ _ _ _ E4)
      as [(-> & _) | (_ & -> & mr & ms & Hr & Hs & ->)]; [destruct Hin|].
    destruct Hin as [Hin | [Hin | []]]; [|discriminate Hin].
    injection Hin as <- <- <- <- <- <-.
    assert (Sr : statsRPM s' = statsRPM s3) by (rewrite P3; reflexivity).
    assert (Ss : statsSPEED s' = statsSPEED s3) by (rewrite P4; reflexivity).
    destruct (callback_spec s') as (mr' & ms' & Hr' & Hs' & E).
    rewrite Sr in Hr'. rewrite Ss in Hs'.
    assert (mr' = mr) by congruence. assert (ms' = ms) by congruence.
    subst mr' ms'.
    unfold offSamplesRPM, idleSamplesRPM, nonIdleSamplesRPM, nonIdleMinRPM,
      nonIdleMaxRPM, nonIdleMinSPEED, nonIdleMaxSPEED in *.
    rewrite Sr, Ss in *.
    do 7 eexists. split.
    + rewrite Ea, !in_app_iff. right; right; left. right; left. reflexivity.
    + split; [exact E|]. auto.
  - now destruct (not_logEngine _ _ _ _ _ _ _ _ Q4 Hin).
Qed.

Lemma debug_log_matches_publish_witness :
  exists sj outs s' o s2 acts,
    run demoDrive init = Some (sj, outs) /\
    loop (at_ms 2000 true false None) sj = Some (s', o) /\
    In (LogEngine "RPM" 0 0 0 1600 2000 2400) (o_actions o) /\
    myLocationGenerationCallback s' = Some (s2, acts) /\
    In (WriterValue "engineRpmMean" 2000) acts.
Proof.
  destruct (run_total demoDrive init) as (sj & outs & E).
  destruct (loop_total (at_ms 2000 true false None) sj) as (s' & o & E').
  pose proof E as C. vm_compute in C. injection C as Cs Co.
  pose proof E' as C'. rewrite <- Cs in C'. vm_compute in C'.
  injection C' as Cs' Co'.
  assert (Hin : In (LogEngine "RPM" 0 0 0 1600 2000 2400) (o_actions o))
    by (rewrite <- Co'; cbn; tauto).
  destruct (debug_log_matches_publish _ _ _ _ _ _ _ _ _ _ E' Hin)
    as (soff & sidle & snon & smn & smean & smx & s2 & _ & Ec & _).
  exists sj, outs, s', o, s2. eexists.
  split; [exact E|]. split; [exact E'|]. split; [exact Hin|].
  split; [exact Ec|]. cbn. tauto.
Defined.

(** ** When periodic work runs *)

(** X12.  Each periodic block runs exactly when the time since its last
    run, taken modulo 2^32 ms, has reached its period: the RPM and the
    speed request period end when 100 ms have passed on the clock since
    [requestRpmLastMillis] and [requestSpeedLastMillis], and the engine
    summary is logged when 2000 ms have passed since [lastEngineLog].  So
    an iteration that comes at least a period and less than 2^32 ms after
    the last run does run the block. *)
Theorem periodic_work_runs_when_due :
  forall (i : LoopInput) (s s' : State) (o : Out) (Lr Ls Ll : Z),
  loop i s = Some (s', o) ->
  requestRpmLastMillis s = to_ulong Lr ->
  requestSpeedLastMillis s = to_ulong Ls ->
  lastEngineLog s = to_ulong Ll ->
  (o_rpmDue o = true <-> 100 <= (millis205 i - Lr) mod 2 ^ 32) /\
  (o_speedDue o = true <-> 100 <= (millis256 i - Ls) mod 2 ^ 32) /\
  (logged o = true <-> 2000 <= (millis308 i - Ll) mod 2 ^ 32) /\
  (100 <= millis205 i - Lr < 2 ^ 32 -> o_rpmDue o = true) /\
  (100 <= millis256 i - Ls < 2 ^ 32 -> o_speedDue o = true) /\
  (2000 <= millis308 i - Ll < 2 ^ 32 -> logged o = true).
Proof.
  intros i s s' o Lr Ls Ll H Hr Hs Hl.
  destruct (loop_cadence _ _ _ _ H)
    as (s1 & s2 & s3 & s4 & a1 & a2 & a3 & a4 & Ea & E2 & E3 & E4 & E5
        & (R1 & _) & (S1 & _) & (L1 & _)).
  assert (Ir : o_rpmDue o = true <-> 100 <= (millis205 i - Lr) mod 2 ^ 32).
  { rewrite <- ulong_sub_mod, <- Hr, <- R1. fold (millis (millis205 i)).
    destruct (requestRpm_cases _ _ _ _ _ E2) as (_ & _ & _ & C).
    destruct C as [(-> & _ & _ & P) | (-> & P & _)].
    - split; [discriminate | lia].
    - tauto. }
  assert (Is : o_speedDue o = true
               <-> 100 <= (millis256 i - Ls) mod 2 ^ 32).
  { rewrite <- ulong_sub_mod, <- Hs, <- S1. fold (millis (millis256 i)).
    destruct (requestSpeed_cases _ _ _ _ _ E3) as (_ & _ & _ & C).
    destruct C as [(-> & _ & _ & P) | (-> & P & _)].
    - split; [discriminate | lia].
    - tauto. }
  assert (Il : logged o = true <-> 2000 <= (millis308 i - Ll) mod 2 ^ 32).
  { rewrite <- ulong_sub_mod, <- Hl, <- L1. fold (millis (millis308 i)).
    unfold logged. rewrite Ea, !existsb_app.
    rewrite (requestRpm_quiet _ _ _ _ _ E2),
      (requestSpeed_quiet _ _ _ _ _ E3).
    assert (Q4 : existsb isLogEngine a4 = false).
    { destruct (fastPublish_frame _ _ _ _ E5)
        as (_ & _ & _ & _ & _ & [-> | ->]); reflexivity. }
    rewrite Q4, orb_false_r. cbn [orb].
    destruct (engineLog_cases _ _ _ _ E4)
      as [(-> & _ & P) | (P & _ & mr & ms & _ & _ & ->)].
    - split; [discriminate | lia].
    - cbn. tauto. }
  split; [exact Ir|]. split; [exact Is|]. split; [exact Il|].
  split; [|split]; intros Hel.
  - apply Ir. rewrite Z.mod_small; lia.
  - apply Is. rewrite Z.mod_small; lia.
  - apply Il. rewrite Z.mod_small; lia.
Qed.

Lemma periodic_work_runs_when_due_witness :
  exists s' o,
    loop (at_ms 100 true false None) init = Some (s', o) /\
    o_rpmDue o = true /\ o_speedDue o = true /\ logged o = false.
Proof.
  destruct (loop_total (at_ms 100 true false None) init) as (s' & o & E).
  exists s', o. split; [exact E|].
  destruct (periodic_work_runs_when_due _ _ _ _ 0 0 0 E
              eq_refl eq_refl eq_refl) as (_ & _ & Il & Hr & Hs & _).
  split; [apply Hr; cbn; lia|]. split; [apply Hs; cbn; lia|].
  destruct (logged o); [|reflexivity].
  assert (P : 2000 <= (millis308 (at_ms 100 true false None) - 0) mod 2 ^ 32)
    by (now apply Il).
  vm_compute in P. now destruct P.
Defined.

(** ** The count of samples above idle after 2^32 of them *)

Lemma aggregate_2000 st :
  nonIdleMin st = 0 \/ nonIdleMin st = 2000 ->
  nonIdleMax st = 0 \/ nonIdleMax st = 2000 ->
  nonIdleSamples (aggregate 1600 2000 st) = int_add (nonIdleSamples st) 1 /\
  nonIdleMin (aggregate 1600 2000 st) = 2000 /\
  nonIdleMax (aggregate 1600 2000 st) = 2000.
Proof.
  intros Hmin Hmax.
  destruct (aggregate_nonIdle 1600 2000 st ltac:(lia) ltac:(lia))
    as (_ & _ & _ & En & _ & M1 & M2 & X1 & X2).
  split; [exact En|]. split.
  - destruct Hmin as [H | H]; [apply M1; now left|].
    rewrite M2; [exact H | lia | lia].
  - destruct Hmax as [H | H]; [apply X1; lia | rewrite X2; [exact H | lia]].
Qed.

Lemma aggregateAll_repeat n : forall st c,
  nonIdleSamples st = to_int c ->
  nonIdleMin st = 0 \/ nonIdleMin st = 2000 ->
  nonIdleMax st = 0 \/ nonIdleMax st = 2000 ->
  nonIdleSamples (aggregateAll 1600 (repeat 2000 n) st)
    = to_int (c + Z.of_nat n) /\
  (0 < Z.of_nat n ->
   nonIdleMin (aggregateAll 1600 (repeat 2000 n) st) = 2000 /\
   nonIdleMax (aggregateAll 1600 (repeat 2000 n) st) = 2000).
Proof.
  induction n as [| n IH]; intros st c Hc Hmin Hmax.
  - change (aggregateAll 1600 (repeat 2000 0) st) with st.
    rewrite Hc. split; [f_equal; lia | lia].
  - change (aggregateAll 1600 (repeat 2000 (S n)) st)
      with (aggregateAll 1600 (repeat 2000 n) (aggregate 1600 2000 st)).
    destruct (aggregate_2000 st Hmin Hmax) as (En & Emin & Emax).
    assert (Hc' : nonIdleSamples (aggregate 1600 2000 st) = to_int (c + 1)).
    { rewrite En, Hc. unfold int_add. apply to_int_add_l. }
    destruct (IH _ _ Hc' (or_intror Emin) (or_intror Emax)) as (Hn & Hm).
    split; [rewrite Hn; f_equal; lia|].
    intros _. destruct n as [| n]; [|apply Hm; lia].
    change (aggregateAll 1600 (repeat 2000 0) (aggregate 1600 2000 st))
      with (aggregate 1600 2000 st). auto.
Qed.

Lemma rpm_gate_iff i s s' o L : loop i s = Some (s', o) ->
  requestRpmLastMillis s = to_ulong L ->
  (o_rpmDue o = true <-> 100 <= (millis205 i - L) mod 2 ^ 32).
Proof.
  intros H HL.
  destruct (loop_cadence _ _ _ _ H)
    as (s1 & s2 & s3 & s4 & a1 & a2 & a3 & a4 & _ & E2 & _ & _ & _
        & (R1 & _) & _).
  rewrite <- ulong_sub_mod, <- HL, <- R1. fold (millis (millis205 i)).
  destruct (requestRpm_cases _ _ _ _ _ E2) as (_ & _ & _ & C).
  destruct C as [(-> & _ & _ & P) | (-> & P & _)].
  - split; [discriminate | lia].
  - tauto.
Qed.

(** One request period of the drive: the reply is stored, and the end of
    the period records it as a sample above idle. *)
Lemma drive_period k s :
  requestRpmLastMillis s = to_ulong (100 * Z.of_nat k) ->
  idleRPM s = 1600 ->
  nonIdleMinRPM s = 0 \/ nonIdleMinRPM s = 2000 ->
  nonIdleMaxRPM s = 0 \/ nonIdleMaxRPM s = 2000 ->
  exists sa oa sb ob,
    loop (at_ms (100 * Z.of_nat k + 50) true false (Some (rpmFrame x1f x40)))
      s = Some (sa, oa) /\
    loop (at_ms (100 * Z.of_nat k + 100) true false None) sa
      = Some (sb, ob) /\
    requestRpmLastMillis sb = to_ulong (100 * Z.of_nat (S k)) /\
    idleRPM sb = 1600 /\
    nonIdleSamplesRPM sb = int_add (nonIdleSamplesRPM s) 1 /\
    nonIdleMinRPM sb = 2000 /\ nonIdleMaxRPM sb = 2000.
Proof.
  intros HL Hidle Hmin Hmax.
  set (ia := at_ms (100 * Z.of_nat k + 50) true false
               (Some (rpmFrame x1f x40))).
  set (ib := at_ms (100 * Z.of_nat k + 100) true false None).
  destruct (loop_total ia s) as (sa & oa & Ea).
  destruct (loop_total ib sa) as (sb & ob & Eb).
  exists sa, oa, sb, ob. split; [exact Ea|]. split; [exact Eb|].
  (* the iteration with the reply *)
  assert (Da : o_rpmDue oa = false).
  { destruct (o_rpmDue oa) eqn:D; [|reflexivity].
    apply (rpm_gate_iff _ _ _ _ _ Ea HL) in D.
    change (millis205 ia) with (100 * Z.of_nat k + 50) in D.
    replace (100 * Z.of_nat k + 50 - 100 * Z.of_nat k) with 50 in D by lia.
    change (50 mod 2 ^ 32) with 50 in D. lia. }
  assert (Ra : o_rpmReply oa = true)
    by (apply (loop_reply _ _ _ _ (rpmFrame x1f x40) Ea eq_refl); reflexivity).
  destruct (loop_samples _ _ _ _ Ea) as (x & _ & Hx & _ & Sa & _ & La & _).
  rewrite Ra in Hx. rewrite Da in Sa, La.
  destruct Hx as (f & Hf & _ & Ex).
  assert (Ef : f = rpmFrame x1f x40) by (injection Hf; congruence).
  subst f.
  change ((256 * byteAt (rxBuf (rpmFrame x1f x40)) 3
           + byteAt (rxBuf (rpmFrame x1f x40)) 4) / 4) with 2000 in Ex.
  subst x.
  assert (Ta : requestRpmLastMillis sa = to_ulong (100 * Z.of_nat k)).
  { destruct (rpm_gate _ _ _ _ Ea) as [(D & _) | (_ & T)]; congruence. }
  assert (Ia : idleRPM sa = 1600).
  { apply loop_summary in Ea. destruct Ea as ((_ & I & _) & _). congruence. }
  (* the iteration that ends the period *)
  assert (Db : o_rpmDue ob = true).
  { apply (rpm_gate_iff _ _ _ _ _ Eb Ta).
    change (millis205 ib) with (100 * Z.of_nat k + 100).
    replace (100 * Z.of_nat k + 100 - 100 * Z.of_nat k) with 100 by lia.
    change (100 mod 2 ^ 32) with 100. lia. }
  destruct (loop_samples _ _ _ _ Eb) as (y & _ & Hy & _ & Sb & _ & _ & _).
  assert (Rb : o_rpmReply ob = false).
  { destruct (o_rpmReply ob); [|reflexivity].
    destruct Hy as (g & Hg & _). discriminate Hg. }
  rewrite Rb in Hy. rewrite Db in Sb. subst y.
  rewrite Ia, La, Sa in Sb.
  split.
  { destruct (rpm_gate _ _ _ _ Eb) as [(_ & _ & T) | (D & _)];
      [|congruence].
    rewrite T. change (millis206 ib) with (100 * Z.of_nat k + 100).
    unfold millis. f_equal. lia. }
  split.
  { apply loop_summary in Eb. destruct Eb as ((_ & I & _) & _). congruence. }
  unfold nonIdleSamplesRPM, nonIdleMinRPM, nonIdleMaxRPM in *.
  rewrite Sb. now apply aggregate_2000.
Qed.

Lemma drive_run n : forall k s c,
  requestRpmLastMillis s = to_ulong (100 * Z.of_nat k) ->
  idleRPM s = 1600 ->
  nonIdleSamplesRPM s = to_int c ->
  nonIdleMinRPM s = 0 \/ nonIdleMinRPM s = 2000 ->
  nonIdleMaxRPM s = 0 \/ nonIdleMaxRPM s = 2000 ->
  exists s' outs,
    run (driveFrom k n) s = Some (s', outs) /\
    nonIdleSamplesRPM s' = to_int (c + Z.of_nat n) /\
    (0 < Z.of_nat n -> nonIdleMinRPM s' = 2000 /\ nonIdleMaxRPM s' = 2000).
Proof.
  induction n as [| n IH]; intros k s c HL Hidle Hc Hmin Hmax.
  - exists s, []. split; [reflexivity|]. rewrite Hc.
    split; [f_equal; lia | lia].
  - destruct (drive_period k s HL Hidle Hmin Hmax)
      as (sa & oa & sb & ob & Ea & Eb & Tb & Ib & Nb & Mb & Xb).
    assert (Hc' : nonIdleSamplesRPM sb = to_int (c + 1)).
    { rewrite Nb, Hc. unfold int_add. apply to_int_add_l. }
    destruct (IH (S k) sb (c + 1) Tb Ib Hc' (or_intror Mb) (or_intror Xb))
      as (s' & outs & E & Hn & Hm).
    exists s', (oa :: ob :: outs).
    split.
    { change (driveFrom k (S n))
        with (EvLoop (at_ms (100 * Z.of_nat k + 50) true false
                        (Some (rpmFrame x1f x40)))
              :: EvLoop (at_ms (100 * Z.of_nat k + 100) true false None)
              :: driveFrom (S k) n).
      cbn [run step]. rewrite Ea. cbn [bind fst snd].
      rewrite Eb. cbn [bind fst snd]. rewrite E. reflexivity. }
    split; [rewrite Hn; f_equal; lia|].
    intros _. destruct n as [| n]; [|apply Hm; lia].
    cbn [driveFrom run] in E. injection E as <- _. auto.
Qed.

(** C7 as it is stated fails once the count has wrapped.  After 2^32
    samples of 2000 RPM above the idle threshold of 1600 without a reset
    the [int] count [nonIdleSamples] is 0 again, while the minimum and the
    maximum are 2000: for the aggregator alone, and for the program run
    from its start over 2^32 request periods with a reply of 2000 RPM in
    each (the [int] increment wraps, following the two's complement
    arithmetic of this file). *)
Lemma sentinel_after_wrap_counterexample :
  (nonIdleSamples
     (aggregateAll 1600 (repeat 2000 (N.to_nat 4294967296)) zeroStats) = 0 /\
   nonIdleMin
     (aggregateAll 1600 (repeat 2000 (N.to_nat 4294967296)) zeroStats)
     = 2000) /\
  (exists s outs,
     run (driveFrom 0 (N.to_nat 4294967296)) init = Some (s, outs) /\
     nonIdleSamplesRPM s = 0 /\
     nonIdleMinRPM s = 2000 /\ nonIdleMaxRPM s = 2000).
Proof.
  assert (P : 0 < Z.of_nat (N.to_nat 4294967296))
    by (rewrite N_nat_Z; reflexivity).
  assert (W : to_int (0 + Z.of_nat (N.to_nat 4294967296)) = 0)
    by (rewrite N_nat_Z; reflexivity).
  split.
  - destruct (aggregateAll_repeat (N.to_nat 4294967296) zeroStats 0
                eq_refl (or_introl eq_refl) (or_introl eq_refl))
      as (Hn & Hm).
    destruct (Hm P) as (Mn & _).
    split; [exact (eq_trans Hn W) | exact Mn].
  - destruct (drive_run (N.to_nat 4294967296) 0%nat init 0
                eq_refl eq_refl eq_refl (or_introl eq_refl)
                (or_introl eq_refl))
      as (s & outs & E & Hn & Hm).
    exists s, outs. split; [exact E|].
    split; [exact (eq_trans Hn W) | exact (Hm P)].
Qed.
